(** * CodeForge model scripts: convert_to_onnx.py, embed.py, extract_embeddings.py

    A shallow embedding of the three scripts under [scripts/].  The scripts
    are straight-line glue around framework calls, so the embedding is a
    state-and-exception monad over a world made of a file system and the two
    console streams.

    Everything the scripts obtain from outside is a field of the record
    [Env], or a method of the loaded [Model], and is universally quantified
    in the theorems: the model loader, the tokenizer, [encode], the forward
    passes of the torch modules, the ONNX exporter, onnxruntime, the faults
    of the operating system and Python's formatting of values.

    The file system is a finite map from path strings to files and
    directories.  [os.makedirs], [os.path.join], [os.path.basename],
    [shutil.copy2] and [open] are modelled on it with the cases that the
    scripts can run into: missing parent directories are made, a file in the
    place of a directory and a directory in the place of a file raise, a
    copy onto a directory goes inside it, and a copy of a file onto itself
    is refused.  What the operating system refuses for reasons the map does
    not show is the oracle [io_fault].

    What the embedding takes for granted:
    - a file holds the value that was written to it, so [np.load] gives
      back what [np.save] wrote and [json.load] what [json.dump] wrote;
    - a path is the string the script built, two different strings are two
      different files: paths are not normalised, and there are no links;
    - the directory a file is written to exists, as it does below an output
      directory that [os.makedirs] has just made;
    - the framework leaves the file system alone: loading a model, encoding
      and onnxruntime write nothing, and the exporter writes the one file
      whose path it is given;
    - [print] itself does not fail, and the framework raises subclasses of
      [Exception] only. *)

From Stdlib Require Import ZArith Ascii.
From stdpp Require Import base strings list vector gmap fin_maps.

Local Open Scope Z_scope.
Set Warnings "-register-all".

(** ** Exceptions and control flow *)

(** The Python exception classes the scripts can tell apart, and those the
    library calls modelled below raise.  Every one of them derives from
    [Exception]. *)
Inductive exn_class :=
  | ImportError
  | ModuleNotFoundError
  | IndexError
  | KeyError
  | AttributeError
  | TypeError
  | FileNotFoundError
  | FileExistsError
  | IsADirectoryError
  | NotADirectoryError
  | SameFileError
  | OtherError (name : string).

Record exn := Exn { exn_cls : exn_class; exn_msg : string }.

(** [isinstance(e, ImportError)]: the class itself or its subclass. *)
Definition is_ImportError (e : exn) : bool :=
  match exn_cls e with
  | ImportError | ModuleNotFoundError => true
  | _ => false
  end.

(** What running a block of Python gives: a value, a raised [Exception], or
    [SystemExit] from [sys.exit], which [except Exception] does not catch. *)
Inductive result (A : Type) :=
  | Ok (a : A)
  | Raise (e : exn)
  | SysExit (code : Z).
Arguments Ok {A} a.
Arguments Raise {A} e.
Arguments SysExit {A} code.

(** The status the interpreter hands to the operating system: 0 when the
    script runs off its end, the argument of [sys.exit], and 1 after an
    exception nobody caught. *)
Definition exit_status {A} (r : result A) : Z :=
  match r with
  | Ok _ => 0
  | Raise _ => 1
  | SysExit c => c
  end.

(** ** Data *)

(** JSON values as [json.dump] writes them and [json.load] reads them. *)
Inductive json :=
  | JInt (z : Z)
  | JFloat (bits : Z)
  | JBool (b : bool)
  | JStr (s : string)
  | JArr (l : list json)
  | JObj (kvs : list (string * json)).

(** [d[key]] on a decoded JSON object. *)
Fixpoint assoc (key : string) (kvs : list (string * json)) : option json :=
  match kvs with
  | [] => None
  | (k, v) :: rest => if String.eqb k key then Some v else assoc key rest
  end.

Definition json_get (key : string) (j : json) : option json :=
  match j with
  | JObj kvs => assoc key kvs
  | _ => None
  end.

(** Number of keys of a JSON object. *)
Definition json_key_count (j : json) : option nat :=
  match j with
  | JObj kvs => Some (length kvs)
  | _ => None
  end.

Inductive dtype := Float16 | Float32 | Float64.

Definition itemsize (d : dtype) : nat :=
  match d with
  | Float16 => 2%nat
  | Float32 => 4%nat
  | Float64 => 8%nat
  end.

(** A dense 2-D array: [shape = (length rows, shape1)].  An element is the
    bit pattern of its floating-point value. *)
Record ndarray := NDArray {
  nd_dtype : dtype;
  shape1 : nat;
  rows : list (vec Z shape1)
}.

Definition shape0 (a : ndarray) : nat := length (rows a).

(** The [n] little-endian bytes of a bit pattern. *)
Definition le_bytes (n : nat) (x : Z) : list Z :=
  (λ i : nat, Z.land (Z.shiftr x (8 * Z.of_nat i)) 255) <$> seq 0 n.

(** [a.tobytes()]: C order, that is row after row. *)
Definition tobytes (a : ndarray) : list Z :=
  flat_map (λ r, flat_map (le_bytes (itemsize (nd_dtype a))) (vec_to_list r))
           (rows a).

(** [a.astype(np.float32)], with the element conversion [conv] of numpy. *)
Definition astype_float32 (conv : dtype → Z → Z) (a : ndarray) : ndarray :=
  {| nd_dtype := Float32;
     shape1 := shape1 a;
     rows := vmap (conv (nd_dtype a)) <$> rows a |}.

(** [l[:n]] *)
Definition slice_to {A} (n : nat) (l : list A) : list A := take n l.

(** A numpy index [i] into an axis of length [n]: negative indices count
    from the end, anything outside [-n, n) is an [IndexError]. *)
Definition np_index (n : nat) (i : Z) : option nat :=
  if decide (0 ≤ i < Z.of_nat n) then Some (Z.to_nat i)
  else if decide (- Z.of_nat n ≤ i < 0) then Some (Z.to_nat (Z.of_nat n + i))
  else None.

(** [a[i]] for one integer [i]. *)
Definition nd_row (a : ndarray) (i : Z) : option (list Z) :=
  k ← np_index (shape0 a) i;
  vec_to_list <$> rows a !! k.

(** [a[ids]] for a list of integers: the rows picked, in order. *)
Definition nd_take (a : ndarray) (ids : list Z) : option ndarray :=
  rs ← mapM (λ i, k ← np_index (shape0 a) i; rows a !! k) ids;
  Some {| nd_dtype := nd_dtype a; shape1 := shape1 a; rows := rs |}.

(** Tensors handed between torch modules. *)
Record Tensor := { tshape : list nat; tdata : list Z }.

(** A module of the loaded pipeline ([model[i]]).  [embedding] is the weight
    of the module's [embedding] sub-module when it has one, [attrs] the names
    [hasattr] answers for, and [forward] its call on a feature dictionary. *)
Record TorchModule := {
  class_name : string;
  attrs : list string;
  embedding : option ndarray;
  forward : gmap string Tensor → exn + gmap string Tensor
}.

Definition hasattr (m : TorchModule) (name : string) : bool :=
  bool_decide (name ∈ attrs m).

(** What [tokenizer.encode] returns: an object with an [ids] attribute, or
    a plain list. *)
Inductive Encoding :=
  | EncodingObj (ids : list Z)
  | EncodingList (ids : list Z).

Record Tokenizer := {
  get_vocab : exn + gmap string Z;
  tok_encode : string → exn + Encoding
}.

(** A loaded [SentenceTransformer]. *)
Record Model := {
  modules : list TorchModule;
  tokenizer : Tokenizer;
  (** [model.encode([text, ...])] *)
  encode : list string → exn + ndarray;
  (** [model.encode(text, convert_to_tensor=False)] *)
  encode_text : string → exn + list Z
}.

(** The export wrapper class of the converter. *)
Record Model2VecWrapper := {
  static_embedding : TorchModule;
  normalize : option TorchModule
}.

(** ** The world *)

Inductive File :=
  | FDir
  | FNpy (a : ndarray)
  | FJson (j : json)
  | FBytes (bs : list Z)
  | FOnnx (w : Model2VecWrapper)
  | FOther (s : string).

(** One [print] call, or one traceback written by [traceback.print_exc]. *)
Inductive out_item :=
  | Text (s : string)
  | JsonText (j : json)
  | Traceback (e : exn).

Record World := {
  fs : gmap string File;
  stdout : list out_item;
  stderr : list out_item
}.

(** Values that the scripts interpolate into f-strings. *)
Inductive pyval :=
  | PShape (r c : nat)
  | PNat (n : nat)
  | PInts (l : list Z)
  | PFloats (l : list Z)
  | PStrs (l : list string)
  | PJson (j : json).

Inductive io_op := OpMkdir | OpRead | OpWrite.

(** Everything that comes from outside the scripts. *)
Record Env := {
  (** [SentenceTransformer(path)]; the first argument numbers the calls of
      one process, so that two loads may differ. *)
  SentenceTransformer : nat → string → exn + Model;
  (** The operating system refusing an operation on a path for a reason
      the file system below does not show: permissions, a full disk, a
      read-only volume. *)
  io_fault : io_op → string → option exn;
  (** numpy's conversion of one element to float32. *)
  np_convert : dtype → Z → Z;
  (** [torch.randint(0, 30000, (1, 128))] *)
  torch_randint : Tensor;
  (** A failure of the ONNX exporter itself on a wrapper. *)
  onnx_export_fault : Model2VecWrapper → option exn;
  (** [import onnxruntime] *)
  import_onnxruntime : option exn;
  (** [ort.InferenceSession(path)] *)
  InferenceSession : string → option exn;
  (** [str] of a value inside an f-string. *)
  py_str : pyval → string
}.

(** ** The monad of script code *)

Definition M (A : Type) : Type := World → result A * World.

#[global] Instance M_ret : MRet M := λ A a w, (Ok a, w).

#[global] Instance M_bind : MBind M := λ A B f c w,
  match c w with
  | (Ok a, w') => f a w'
  | (Raise e, w') => (Raise e, w')
  | (SysExit n, w') => (SysExit n, w')
  end.

Definition raise {A} (e : exn) : M A := λ w, (Raise e, w).

(** [sys.exit(code)] *)
Definition sys_exit {A} (code : Z) : M A := λ w, (SysExit code, w).

(** [try: body  except Exception as e: handler(e)] *)
Definition try_except {A} (body : M A) (handler : exn → M A) : M A := λ w,
  match body w with
  | (Raise e, w') => handler e w'
  | r => r
  end.

(** A call into the framework either returns or raises. *)
Definition lift {A} (r : exn + A) : M A :=
  match r with
  | inl e => raise e
  | inr a => mret a
  end.

(** A Python operation that is defined or raises [e]. *)
Definition from_option {A} (e : exn) (o : option A) : M A :=
  match o with
  | Some a => mret a
  | None => raise e
  end.

(** A framework call that returns nothing, or raises [e]. *)
Definition from_option_none (o : option exn) : M unit :=
  match o with
  | Some e => raise e
  | None => mret ()
  end.

Definition print (s : string) : M unit := λ w,
  (Ok (), {| fs := fs w; stdout := stdout w ++ [Text s]; stderr := stderr w |}).

(** [print(json.dumps(j))] *)
Definition print_json (j : json) : M unit := λ w,
  (Ok (), {| fs := fs w; stdout := stdout w ++ [JsonText j]; stderr := stderr w |}).

(** [traceback.print_exc()] inside a handler for [e]. *)
Definition print_exc (e : exn) : M unit := λ w,
  (Ok (), {| fs := fs w; stdout := stdout w; stderr := stderr w ++ [Traceback e] |}).

Definition set_fs (f : gmap string File → gmap string File) : M unit := λ w,
  (Ok (), {| fs := f (fs w); stdout := stdout w; stderr := stderr w |}).

Definition get_fs : M (gmap string File) := λ w, (Ok (fs w), w).

Definition io_check (env : Env) (op : io_op) (p : string) : M unit :=
  from_option_none (io_fault env op p).

(** [os.path.exists(p)] *)
Definition path_exists (p : string) : M bool :=
  files ← get_fs; mret (bool_decide (is_Some (files !! p))).

(** [for x in l: body(x)] *)
Fixpoint for_each {A} (l : list A) (body : A → M unit) : M unit :=
  match l with
  | [] => mret ()
  | x :: rest => body x;; for_each rest body
  end.

(** Opening [p] for writing and writing [f] as its whole content; a
    directory cannot be opened. *)
Definition write_file (env : Env) (p : string) (f : File) : M unit :=
  files ← get_fs;
  match files !! p with
  | Some FDir => raise (Exn IsADirectoryError p)
  | _ => io_check env OpWrite p;; set_fs <[p := f]>
  end.

(** Opening [p] for reading and reading all of it; there is nothing to
    read at a missing path or in a directory. *)
Definition read_file (env : Env) (p : string) : M File :=
  io_check env OpRead p;;
  files ← get_fs;
  match files !! p with
  | None => raise (Exn FileNotFoundError p)
  | Some FDir => raise (Exn IsADirectoryError p)
  | Some f => mret f
  end.

(** ** Paths *)

(** [not a or a.endswith('/')], the test of [posixpath.join]. *)
Definition ends_with_slash : string → bool :=
  fix go s :=
    match s with
    | EmptyString => true
    | String c EmptyString => bool_decide (c = "/"%char)
    | String _ rest => go rest
    end.

(** [os.path.join(a, b)] on POSIX paths. *)
Definition path_join (a b : string) : string :=
  match b with
  | String "/" _ => b
  | _ => if ends_with_slash a then a +:+ b else a +:+ "/" +:+ b
  end.

(** ['/' in s] *)
Fixpoint has_slash (s : string) : bool :=
  match s with
  | EmptyString => false
  | String c rest => bool_decide (c = "/"%char) || has_slash rest
  end.

(** [os.path.basename(p)]: what follows the last separator. *)
Fixpoint basename (p : string) : string :=
  match p with
  | EmptyString => EmptyString
  | String c rest =>
      if has_slash rest then basename rest
      else if bool_decide (c = "/"%char) then rest
      else p
  end.

(** The directories above [p], outermost first: each prefix of [p] that
    stops in front of a separator, unless it is empty or ends in a separator
    itself.  Above ["a/b/c"] are ["a"] and ["a/b"], above ["/a/b"] is
    ["/a"]. *)
Fixpoint ancestors_from (seen rest : string) : list string :=
  match rest with
  | EmptyString => []
  | String c rest' =>
      let above := ancestors_from (seen +:+ String c EmptyString) rest' in
      if bool_decide (c = "/"%char) && negb (ends_with_slash seen)
      then seen :: above
      else above
  end.

Definition ancestors (p : string) : list string := ancestors_from "" p.

(** One directory on the way of [os.makedirs(..., exist_ok=True)]: an
    existing directory is passed over, a missing one is made, and anything
    else in its place raises [blocked]. *)
Definition make_dir (env : Env) (blocked : exn) (d : string) : M unit :=
  files ← get_fs;
  match files !! d with
  | Some FDir => mret ()
  | Some _ => raise blocked
  | None => io_check env OpMkdir d;; set_fs <[d := FDir]>
  end.

(** [os.makedirs(p, exist_ok=True)]: makes every missing directory above
    [p], then [p] itself.  A file on the way is a [NotADirectoryError], a
    file at [p] a [FileExistsError], and the empty path does not exist. *)
Definition makedirs (env : Env) (p : string) : M unit :=
  (if bool_decide (p = "") then raise (Exn FileNotFoundError p)
   else mret ());;
  for_each (ancestors p) (make_dir env (Exn NotADirectoryError p));;
  make_dir env (Exn FileExistsError p) p.

(** ** Library calls shared by the scripts *)

(** [np.save(p, a)] *)
Definition np_save (env : Env) (p : string) (a : ndarray) : M unit :=
  write_file env p (FNpy a).

(** [np.load(p)] *)
Definition np_load (env : Env) (p : string) : M ndarray :=
  f ← read_file env p;
  match f with
  | FNpy a => mret a
  | _ => raise (Exn (OtherError "ValueError") p)
  end.

(** [with open(p, 'w') as f: json.dump(j, f, indent=2)] *)
Definition json_dump (env : Env) (j : json) (p : string) : M unit :=
  write_file env p (FJson j).

(** [with open(p) as f: json.load(f)] *)
Definition json_load (env : Env) (p : string) : M json :=
  f ← read_file env p;
  match f with
  | FJson j => mret j
  | _ => raise (Exn (OtherError "JSONDecodeError") p)
  end.

(** A [dict] from token to id as the JSON object [json.dump] writes. *)
Definition vocab_json (vocab : gmap string Z) : json :=
  JObj ((λ kv, (kv.1, JInt kv.2)) <$> map_to_list vocab).

(** [len(x)] on a decoded JSON value. *)
Definition py_len (j : json) : M nat :=
  match j with
  | JObj kvs => mret (length kvs)
  | JArr l => mret (length l)
  | JStr s => mret (String.length s)
  | _ => raise (Exn TypeError "object has no len()")
  end.

(** Where [shutil.copy2(src, dst)] puts the copy: inside [dst], under the
    name of the source, when [dst] is a directory. *)
Definition copy_target (files : gmap string File) (src dst : string)
    : string :=
  match files !! dst with
  | Some FDir => path_join dst (basename src)
  | _ => dst
  end.

(** [shutil.copy2(src, dst)]: refuses to copy a file onto itself, then
    reads the source and writes the copy. *)
Definition copy2 (env : Env) (src dst : string) : M unit :=
  files ← get_fs;
  let dst := copy_target files src dst in
  (if bool_decide (is_Some (files !! src) ∧ src = dst)
   then raise (Exn SameFileError src)
   else mret ());;
  f ← read_file env src;
  write_file env dst f.

(** The loop both scripts use to copy the side files of the model. *)
Definition copy_files (env : Env) (names : list string)
    (model_path output_path : string) : M unit :=
  for_each names (λ file,
    let src := path_join model_path file in
    let dst := path_join output_path file in
    b ← path_exists src;
    if b : bool then
      copy2 env src dst;;
      print ("Copied " +:+ file)
    else mret ()).

(** [model[i]] *)
Definition model_getitem (model : Model) (i : nat) : M TorchModule :=
  from_option (Exn IndexError "index out of range") (modules model !! i).

Definition nl : string := String "010"%char "".

(** ["=" * 40] *)
Definition rule40 : string := "========================================".

(** ** extract_embeddings.py *)

Module extract_embeddings.

Definition test_extraction (env : Env) (original_model : Model)
    (output_path : string) : M unit :=
  weights ← np_load env (path_join output_path "embedding_weights.npy");
  vocab ← json_load env (path_join output_path "vocab.json");
  config ← json_load env (path_join output_path "model_config.json");
  print ("Loaded weights shape: "
         +:+ py_str env (PShape (shape0 weights) (shape1 weights)));;
  n ← py_len vocab;
  print ("Vocabulary size: " +:+ py_str env (PNat n));;
  print ("Config: " +:+ py_str env (PJson config));;
  let test_text := "This is a test sentence." in
  original_embedding ← lift (encode original_model [test_text]);
  print ("Original embedding shape: "
         +:+ py_str env (PShape (shape0 original_embedding)
                                (shape1 original_embedding)));;
  row0 ← from_option (Exn IndexError "index 0 is out of bounds")
                     (nd_row original_embedding 0);
  print ("Original embedding (first 5 values): "
         +:+ py_str env (PFloats (slice_to 5 row0)));;
  let tokenizer := tokenizer original_model in
  encoding ← lift (tok_encode tokenizer test_text);
  let tokens := match encoding with
                | EncodingObj ids => ids
                | EncodingList l => l
                end in
  print ("Tokens: " +:+ py_str env (PInts (slice_to 10 tokens)) +:+ "...");;
  (if bool_decide (0 < length tokens)%nat then
     token_embeddings ← from_option (Exn IndexError "index is out of bounds")
                                    (nd_take weights (slice_to 5 tokens));
     print ("Token embeddings shape: "
            +:+ py_str env (PShape (shape0 token_embeddings)
                                   (shape1 token_embeddings)));;
     first ← from_option (Exn IndexError "index 0 is out of bounds")
                         (nd_row token_embeddings 0);
     print ("First token embedding (first 5 values): "
            +:+ py_str env (PFloats (slice_to 5 first)))
   else mret ());;
  print "✅ Extraction test completed!".

(** The body of the [try] of [extract_model_weights]. *)
Definition extract_body (env : Env) (model : Model)
    (model_path output_path : string) : M bool :=
  static_embedding ← model_getitem model 0;
  embedding_weights ←
    from_option (Exn AttributeError "object has no attribute 'embedding'")
                (embedding static_embedding);
  print ("Embedding weights shape: "
         +:+ py_str env (PShape (shape0 embedding_weights)
                                (shape1 embedding_weights)));;
  let weights_path := path_join output_path "embedding_weights.npy" in
  np_save env weights_path embedding_weights;;
  print ("Saved embedding weights to: " +:+ weights_path);;
  let tokenizer := tokenizer model in
  vocab ← lift (get_vocab tokenizer);
  let vocab_path := path_join output_path "vocab.json" in
  json_dump env (vocab_json vocab) vocab_path;;
  print ("Saved vocabulary to: " +:+ vocab_path);;
  has_normalize ←
    (if bool_decide (1 < length (modules model))%nat then
       second ← model_getitem model 1;
       mret (hasattr second "normalize")
     else mret false);
  let config_data := JObj [
    ("vocab_size", JInt (Z.of_nat (size vocab)));
    ("embedding_dim", JInt (Z.of_nat (shape1 embedding_weights)));
    ("model_type", JStr "model2vec_static");
    ("normalize", JBool has_normalize)
  ] in
  let config_path := path_join output_path "model_config.json" in
  json_dump env config_data config_path;;
  print ("Saved model config to: " +:+ config_path);;
  let original_files := ["tokenizer.json"; "config.json"] in
  copy_files env original_files model_path output_path;;
  print "Testing extraction...";;
  test_extraction env model output_path;;
  mret true.

(** [extract_model_weights] before its [try]: the load and the output
    directory. *)
Definition load_and_prepare (env : Env) (model_path output_path : string)
    : M Model :=
  print ("Loading model from: " +:+ model_path);;
  model ← lift (SentenceTransformer env 0 model_path);
  print "Extracting model components...";;
  makedirs env output_path;;
  mret model.

Definition extract_model_weights (env : Env)
    (model_path output_path : string) : M bool :=
  model ← load_and_prepare env model_path output_path;
  try_except
    (extract_body env model model_path output_path)
    (λ e,
      print ("Error during extraction: " +:+ exn_msg e);;
      print_exc e;;
      mret false).

Definition create_go_embedding_data (env : Env) (output_path : string)
    : M unit :=
  weights ← np_load env (path_join output_path "embedding_weights.npy");
  let weights_f32 := astype_float32 (np_convert env) weights in
  let binary_path := path_join output_path "embeddings.bin" in
  write_file env binary_path (FBytes (tobytes weights_f32));;
  print ("Saved binary embeddings to: " +:+ binary_path);;
  let metadata := JObj [
    ("vocab_size", JInt (Z.of_nat (shape0 weights)));
    ("embedding_dim", JInt (Z.of_nat (shape1 weights)));
    ("data_type", JStr "float32");
    ("byte_order", JStr "little")
  ] in
  let metadata_path := path_join output_path "embeddings_metadata.json" in
  json_dump env metadata metadata_path;;
  print ("Saved metadata to: " +:+ metadata_path).

(** The two lines [main] prints before it starts. *)
Definition banner : M unit :=
  print "Model2vec Embedding Extractor";;
  print rule40.

Definition main (env : Env) (argv : list string) : M unit :=
  match argv with
  | [_; input_path; output_path] =>
      b ← path_exists input_path;
      if negb b then
        print ("Error: Input path does not exist: " +:+ input_path);;
        sys_exit 1
      else
        banner;;
        success ← extract_model_weights env input_path output_path;
        if success : bool then
          print (nl +:+ "Creating Go-friendly data files...");;
          create_go_embedding_data env output_path;;
          print (nl +:+ "✅ Extraction completed successfully!");;
          print ("Extracted data available at: " +:+ output_path)
        else
          print (nl +:+ "❌ Extraction failed!");;
          sys_exit 1
  | _ =>
      print "Usage: python extract_embeddings.py <input_model_path> <output_path>";;
      sys_exit 1
  end.

End extract_embeddings.

(** ** convert_to_onnx.py *)

Module convert_to_onnx.

(** [Model2VecWrapper.forward] *)
Definition wrapper_forward (self : Model2VecWrapper) (input_ids : Tensor)
    : exn + Tensor :=
  let features : gmap string Tensor := {["input_ids" := input_ids]} in
  match forward (static_embedding self) features with
  | inl e => inl e
  | inr embeddings =>
      let normalized :=
        match normalize self with
        | Some normalize => forward normalize embeddings
        | None => inr embeddings
        end in
      match normalized with
      | inl e => inl e
      | inr embeddings =>
          match embeddings !! "sentence_embedding" with
          | Some t => inr t
          | None => inl (Exn KeyError "sentence_embedding")
          end
      end
  end.

(** [torch.onnx.export(wrapper, dummy_input, onnx_path, ...)]: the exporter
    traces one forward pass on the dummy input and serialises what it saw. *)
Definition torch_onnx_export (env : Env) (wrapper : Model2VecWrapper)
    (dummy_input : Tensor) (onnx_path : string) : M unit :=
  _ ← lift (wrapper_forward wrapper dummy_input);
  from_option_none (onnx_export_fault env wrapper);;
  write_file env onnx_path (FOnnx wrapper).

Definition test_onnx_model (env : Env) (onnx_path original_model_path : string)
    : M bool :=
  try_except
    (from_option_none (import_onnxruntime env);;
     from_option_none (InferenceSession env onnx_path);;
     original_model ← lift (SentenceTransformer env 1 original_model_path);
     let test_text := "This is a test sentence for embedding." in
     print ("Testing with text: '" +:+ test_text +:+ "'");;
     original_embedding ← lift (encode original_model [test_text]);
     print ("Original embedding shape: "
            +:+ py_str env (PShape (shape0 original_embedding)
                                   (shape1 original_embedding)));;
     row0 ← from_option (Exn IndexError "index 0 is out of bounds")
                        (nd_row original_embedding 0);
     print ("Original embedding (first 5 values): "
            +:+ py_str env (PFloats (slice_to 5 row0)));;
     print "ONNX model structure looks good!";;
     mret true)
    (λ e,
      if is_ImportError e then
        print "onnxruntime not available for testing, but ONNX export completed";;
        mret true
      else
        print ("Error testing ONNX model: " +:+ exn_msg e);;
        mret false).

(** The [try] body up to and including the copy of the side files. *)
Definition export_and_copy (env : Env) (model : Model)
    (model_path output_path : string) : M unit :=
  let onnx_path := path_join output_path "model.onnx" in
  static_embedding ← model_getitem model 0;
  print ("Model modules: "
         +:+ py_str env (PStrs (class_name <$> modules model)));;
  normalize_module ←
    (if bool_decide (1 < length (modules model))%nat then
       second ← model_getitem model 1;
       mret (Some second)
     else mret None);
  let wrapper := {| static_embedding := static_embedding;
                    normalize := normalize_module |} in
  let dummy_input := torch_randint env in
  torch_onnx_export env wrapper dummy_input onnx_path;;
  print ("ONNX model saved to: " +:+ onnx_path);;
  let tokenizer_files := ["tokenizer.json"; "config.json"; "modules.json"] in
  copy_files env tokenizer_files model_path output_path.

(** The whole [try] body. *)
Definition convert_body (env : Env) (model : Model)
    (model_path output_path : string) : M bool :=
  let onnx_path := path_join output_path "model.onnx" in
  export_and_copy env model model_path output_path;;
  print "Testing ONNX model...";;
  _ ← test_onnx_model env onnx_path model_path;
  mret true.

(** [convert_model_to_onnx] before its [try]: the load, [model.eval()] and
    the output directory. *)
Definition load_and_prepare (env : Env) (model_path output_path : string)
    : M Model :=
  print ("Loading model from: " +:+ model_path);;
  model ← lift (SentenceTransformer env 0 model_path);
  print "Converting to ONNX...";;
  makedirs env output_path;;
  mret model.

Definition convert_model_to_onnx (env : Env)
    (model_path output_path : string) : M bool :=
  model ← load_and_prepare env model_path output_path;
  try_except
    (convert_body env model model_path output_path)
    (λ e,
      print ("Error during ONNX export: " +:+ exn_msg e);;
      print_exc e;;
      mret false).

(** The two lines [main] prints before it starts. *)
Definition banner : M unit :=
  print "Model2vec to ONNX Converter";;
  print rule40.

Definition main (env : Env) (argv : list string) : M unit :=
  match argv with
  | [_; input_path; output_path] =>
      b ← path_exists input_path;
      if negb b then
        print ("Error: Input path does not exist: " +:+ input_path);;
        sys_exit 1
      else
        banner;;
        success ← convert_model_to_onnx env input_path output_path;
        if success : bool then
          print (nl +:+ "✅ Conversion completed successfully!");;
          print ("ONNX model available at: " +:+ output_path)
        else
          print (nl +:+ "❌ Conversion failed!");;
          sys_exit 1
  | _ =>
      print "Usage: python convert_to_onnx.py <input_model_path> <output_path>";;
      sys_exit 1
  end.

End convert_to_onnx.

(** ** embed.py *)

Module embed.

Definition MODEL_PATH : string :=
  "/tmp/codeforge-model-1695886931/minilm-distilled".

(** The module-level [try] that loads the model. *)
Definition load_model (env : Env) : M Model :=
  try_except
    (lift (SentenceTransformer env 0 MODEL_PATH))
    (λ e,
      print_json (JObj [("error", JStr ("Failed to load model: " +:+ exn_msg e))]);;
      sys_exit 1).

Definition generate_embedding (model : Model) (text : string) : M json :=
  try_except
    (embedding ← lift (encode_text model text);
     let embedding_list := JArr (JFloat <$> embedding) in
     mret (JObj [("embedding", embedding_list)]))
    (λ e,
      mret (JObj [("error",
                   JStr ("Failed to generate embedding: " +:+ exn_msg e))])).

(** The script from its first line: the load, then the [__main__] block. *)
Definition main (env : Env) (argv : list string) : M unit :=
  model ← load_model env;
  match argv with
  | [_; text] =>
      result ← generate_embedding model text;
      print_json result
  | _ =>
      print_json (JObj [("error", JStr "Usage: script.py <text>")]);;
      sys_exit 1
  end.

End embed.

(** * Notions used in the statements *)

(** A file name as the scripts join it to a directory: not empty and not
    absolute. *)
Definition relative (b : string) : Prop :=
  match b with
  | EmptyString => False
  | String c _ => c ≠ "/"%char
  end.

(** A plain file name: relative, and with no separator in it. *)
Definition simple_name (b : string) : Prop :=
  relative b ∧ has_slash b = false.

(** Where a side file lands, below the output directory, when its
    destination is a directory there: inside it, under its own name. *)
Definition nested (name : string) : string := name +:+ "/" +:+ name.

(** [preserves p c]: running [c] never changes what the file system holds
    at [p], also when [c] raises or exits. *)
Definition preserves {A} (p : string) (c : M A) : Prop :=
  ∀ w, fs (c w).2 !! p = fs w !! p.

(** [len(model) > 1 and hasattr(model[1], 'normalize')] as a value. *)
Definition second_has_normalize (model : Model) : bool :=
  match modules model !! 1%nat with
  | Some second => hasattr second "normalize"
  | None => false
  end.

(** The record [extract_model_weights] writes to [model_config.json]. *)
Definition config_of (vocab : gmap string Z) (weights : ndarray)
    (model : Model) : json :=
  JObj [
    ("vocab_size", JInt (Z.of_nat (size vocab)));
    ("embedding_dim", JInt (Z.of_nat (shape1 weights)));
    ("model_type", JStr "model2vec_static");
    ("normalize", JBool (second_has_normalize model))
  ].

(** The record [create_go_embedding_data] writes next to the binary. *)
Definition metadata_of (weights : ndarray) : json :=
  JObj [
    ("vocab_size", JInt (Z.of_nat (shape0 weights)));
    ("embedding_dim", JInt (Z.of_nat (shape1 weights)));
    ("data_type", JStr "float32");
    ("byte_order", JStr "little")
  ].


(** The JSON document a world holds at a path, if it holds one. *)
Definition json_at (w : World) (p : string) : option json :=
  match fs w !! p with
  | Some (FJson j) => Some j
  | _ => None
  end.

(** The raw bytes a world holds at a path, if it holds a binary file. *)
Definition bytes_at (w : World) (p : string) : option (list Z) :=
  match fs w !! p with
  | Some (FBytes bs) => Some bs
  | _ => None
  end.

(** [never_exits c]: no run of [c] ends in [sys.exit]. *)
Definition never_exits {A} (c : M A) : Prop :=
  ∀ w n, (c w).1 ≠ SysExit n.

(** [always_returns c]: every run of [c] returns a value; nothing it raises
    gets out of it. *)
Definition always_returns {A} (c : M A) : Prop :=
  ∀ w, ∃ a, (c w).1 = Ok a.

(** The forward pass of the embedding stage alone: what the exported graph
    computes when no normalization stage is in it. *)
Definition embed_only (se : TorchModule) (input_ids : Tensor) : exn + Tensor :=
  match forward se {["input_ids" := input_ids]} with
  | inl e => inl e
  | inr embeddings =>
      match embeddings !! "sentence_embedding" with
      | Some t => inr t
      | None => inl (Exn KeyError "sentence_embedding")
      end
  end.

(** * Sample models and environments *)

Module Sample.

(** A 3-by-2 float32 matrix (1.0 ... 6.0 as bit patterns). *)
Definition weights : ndarray :=
  NDArray Float32 2
    [ [# 1065353216; 1073741824];
      [# 1077936128; 1082130432];
      [# 1084227584; 1086324736] ].

Definition sentence : Tensor :=
  {| tshape := [1; 2]%nat; tdata := [1065353216; 1073741824] |}.

(** A static embedding whose forward pass is content with [input_ids]
    alone: the kind of first module the wrapper of the converter can run. *)
Definition static : TorchModule :=
  {| class_name := "StaticEmbedding";
     attrs := ["embedding"; "tokenizer"];
     embedding := Some weights;
     forward := λ features, inr (<["sentence_embedding" := sentence]> features) |}.

(** The sentence embedding (1.0, 2.0) scaled to unit length: 0.4472136 is
    0x3EE4F92E and 0.8944272 is 0x3F64F92E. *)
Definition unit_sentence : Tensor :=
  {| tshape := [1; 2]%nat; tdata := [1055193390; 1063581998] |}.

(** The framework's [Normalize] module: its forward pass replaces the
    sentence embedding by the unit vector.  It has no attribute called
    [normalize]. *)
Definition normalizer : TorchModule :=
  {| class_name := "Normalize";
     attrs := ["forward"; "save"; "load"];
     embedding := None;
     forward := λ features,
       match features !! "sentence_embedding" with
       | None => inl (Exn KeyError "'sentence_embedding'")
       | Some _ => inr (<["sentence_embedding" := unit_sentence]> features)
       end |}.

(** A normalization module that does carry an attribute called
    [normalize]. *)
Definition flagged : TorchModule :=
  {| class_name := "Normalize";
     attrs := ["forward"; "normalize"];
     embedding := None;
     forward := λ features,
       inr (<["sentence_embedding" := unit_sentence]> features) |}.

(** The framework's own [StaticEmbedding]: an embedding bag, whose forward
    pass reads [features['input_ids']] and [features['offsets']], the two
    tensors its tokenizer produces. *)
Definition embedding_bag : TorchModule :=
  {| class_name := "StaticEmbedding";
     attrs := ["embedding"; "tokenizer"];
     embedding := Some weights;
     forward := λ features,
       match features !! "input_ids" with
       | None => inl (Exn KeyError "'input_ids'")
       | Some _ =>
           match features !! "offsets" with
           | None => inl (Exn KeyError "'offsets'")
           | Some _ => inr (<["sentence_embedding" := sentence]> features)
           end
       end |}.

(** The offsets tensor of a batch of one sentence. *)
Definition offsets : Tensor := {| tshape := [1]%nat; tdata := [0] |}.

Definition vocab3 : gmap string Z :=
  <["[PAD]" := 0]> (<["hello" := 1]> (<["world" := 2]> ∅)).

Definition vocab2 : gmap string Z :=
  <["[PAD]" := 0]> (<["hello" := 1]> ∅).

Definition tokenizer_of (vocab : gmap string Z) : Tokenizer :=
  {| get_vocab := inr vocab;
     tok_encode := λ _, inr (EncodingObj [1; 0; 1]) |}.

Definition model_of (ms : list TorchModule) (vocab : gmap string Z) : Model :=
  {| modules := ms;
     tokenizer := tokenizer_of vocab;
     encode := λ _, inr (NDArray Float32 2 [ [# 1065353216; 1073741824] ]);
     encode_text := λ _, inr [1065353216; 1073741824] |}.

(** The usual model: one static embedding, three tokens for three rows. *)
Definition model : Model := model_of [static] vocab3.

(** A pipeline whose second module carries a [normalize] attribute. *)
Definition model_flagged : Model := model_of [static; flagged] vocab3.

(** A pipeline whose second module normalises without such an attribute. *)
Definition model_normalized : Model := model_of [static; normalizer] vocab3.

(** A model2vec model as the framework loads it: the embedding bag alone. *)
Definition model_bag : Model := model_of [embedding_bag] vocab3.

(** A normalizing model2vec model as the framework loads it: the embedding
    bag followed by [Normalize]. *)
Definition model_bag_normalized : Model :=
  model_of [embedding_bag; normalizer] vocab3.

(** A model whose tokenizer knows two tokens for three rows. *)
Definition model_short_vocab : Model := model_of [static] vocab2.

(** A model that cannot embed. *)
Definition model_broken : Model :=
  {| modules := [static];
     tokenizer := tokenizer_of vocab3;
     encode := λ _, inl (Exn (OtherError "RuntimeError") "encode failed");
     encode_text := λ _, inl (Exn (OtherError "RuntimeError") "encode failed") |}.

(** An environment in which everything but the load is fixed and works. *)
Definition env_of (load : nat → string → exn + Model) : Env :=
  {| SentenceTransformer := load;
     io_fault := λ _ _, None;
     np_convert := λ _ x, x;
     torch_randint := {| tshape := [1; 128]%nat; tdata := replicate 128 7 |};
     onnx_export_fault := λ _, None;
     import_onnxruntime := None;
     InferenceSession := λ _, None;
     py_str := λ _, "..." |}.

Definition env : Env := env_of (λ _ _, inr model).

Definition env_flagged : Env := env_of (λ _ _, inr model_flagged).

Definition env_normalized : Env := env_of (λ _ _, inr model_normalized).

Definition env_bag : Env := env_of (λ _ _, inr model_bag).

Definition env_bag_normalized : Env :=
  env_of (λ _ _, inr model_bag_normalized).

Definition env_short_vocab : Env := env_of (λ _ _, inr model_short_vocab).

Definition env_no_model : Env :=
  env_of (λ _ _, inl (Exn (OtherError "OSError") "no such model")).

Definition env_broken : Env := env_of (λ _ _, inr model_broken).

(** The disk fills up when the extractor gets to [embeddings.bin]. *)
Definition env_disk_full : Env :=
  {| SentenceTransformer := λ _ _, inr model;
     io_fault := λ op p,
       match op with
       | OpWrite =>
           if String.eqb p "out/embeddings.bin"
           then Some (Exn (OtherError "OSError") "No space left on device")
           else None
       | _ => None
       end;
     np_convert := λ _ x, x;
     torch_randint := {| tshape := [1; 128]%nat; tdata := replicate 128 7 |};
     onnx_export_fault := λ _, None;
     import_onnxruntime := None;
     InferenceSession := λ _, None;
     py_str := λ _, "..." |}.

(** onnxruntime is there but rejects the exported file. *)
Definition env_test_fails : Env :=
  {| SentenceTransformer := λ _ _, inr model;
     io_fault := λ _ _, None;
     np_convert := λ _ x, x;
     torch_randint := {| tshape := [1; 128]%nat; tdata := replicate 128 7 |};
     onnx_export_fault := λ _, None;
     import_onnxruntime := None;
     InferenceSession := λ _, Some (Exn (OtherError "InvalidGraph") "bad graph");
     py_str := λ _, "..." |}.

(** The embedder's own model is missing; any other path loads a pipeline
    without modules. *)
Definition env_empty_pipeline : Env :=
  env_of (λ _ p,
    if String.eqb p embed.MODEL_PATH
    then inl (Exn (OtherError "OSError") "no such model")
    else inr (model_of [] vocab3)).

(** A file system that holds the model directory and nothing else. *)
Definition world : World :=
  {| fs := <["model" := FDir]> ∅; stdout := []; stderr := [] |}.

Definition empty_world : World := {| fs := ∅; stdout := []; stderr := [] |}.

End Sample.


(** * Notions used in the further properties *)

(** [respects R c]: whatever its outcome, a run of [c] takes the file system
    to one that [R] relates it to. *)
Definition respects (R : relation (gmap string File)) {A} (c : M A) : Prop :=
  ∀ w, R (fs w) (fs (c w).2).

(** [fs_only c]: [c] looks at nothing but the file system and touches
    nothing else; the two console streams are as before. *)
Definition fs_only {A} (c : M A) : Prop :=
  ∀ w1 w2, fs w1 = fs w2 →
    (c w1).1 = (c w2).1 ∧ fs (c w1).2 = fs (c w2).2 ∧
    stdout (c w1).2 = stdout w1 ∧ stderr (c w1).2 = stderr w1.

(** At [p] the file system [m'] holds what [m] held, or [p] is one of
    [dirs], was missing in [m] and is a directory in [m']. *)
Definition kept_or_made (dirs : list string) (p : string)
    : relation (gmap string File) :=
  λ m m', m' !! p = m !! p ∨
          (p ∈ dirs ∧ m !! p = None ∧ m' !! p = Some FDir).

(** The directories [os.makedirs(p)] may make. *)
Definition made_dirs (p : string) : list string := ancestors p ++ [p].

(** Every path that is there before is there after. *)
Definition keeps_paths (m m' : gmap string File) : Prop :=
  ∀ p, is_Some (m !! p) → is_Some (m' !! p).

(** [exits_only_with_1 c]: when a run of [c] ends in [sys.exit], the code
    is 1. *)
Definition exits_only_with_1 {A} (c : M A) : Prop :=
  ∀ w n, (c w).1 = SysExit n → n = 1.

(** The files the extractor writes below its output directory. *)
Definition extractor_outputs : list string :=
  ["embedding_weights.npy"; "vocab.json"; "model_config.json";
   "tokenizer.json"; "config.json";
   "embeddings.bin"; "embeddings_metadata.json"].

(** The files the converter writes below its output directory. *)
Definition converter_outputs : list string :=
  ["model.onnx"; "tokenizer.json"; "config.json"; "modules.json"].

(** The side files each script copies from the model directory. *)
Definition extractor_side_files : list string :=
  ["tokenizer.json"; "config.json"].

Definition converter_side_files : list string :=
  ["tokenizer.json"; "config.json"; "modules.json"].

(** Every path the extractor can write a file to: its outputs below the
    output directory, and the place of a side file whose destination is a
    directory. *)
Definition extractor_writes (out : string) : list string :=
  path_join out <$> (extractor_outputs ++ (nested <$> extractor_side_files)).

Definition converter_writes (out : string) : list string :=
  path_join out <$> (converter_outputs ++ (nested <$> converter_side_files)).

Module Sample2.

(** A tokenizer whose third id points past the three rows of the matrix. *)
Definition model_bad_ids : Model :=
  {| modules := [Sample.static];
     tokenizer := {| get_vocab := inr Sample.vocab3;
                     tok_encode := λ _, inr (EncodingObj [1; 0; 3]) |};
     encode := λ _, inr (NDArray Float32 2 [ [# 1065353216; 1073741824] ]);
     encode_text := λ _, inr [1065353216; 1073741824] |}.

(** A first module without an [embedding]. *)
Definition headless : TorchModule :=
  {| class_name := "Pooling";
     attrs := ["forward"];
     embedding := None;
     forward := λ features, inr features |}.

Definition env_headless : Env :=
  Sample.env_of (λ _ _, inr (Sample.model_of [headless] Sample.vocab3)).

(** A model directory with a tokenizer file and a configuration file. *)
Definition world_with_side_files : World :=
  {| fs := <["model" := FDir]>
           (<["model/tokenizer.json" := FOther "tokenizer"]>
            (<["model/config.json" := FOther "config"]> ∅));
     stdout := [];
     stderr := [] |}.

(** The three files [test_extraction] reads, in place. *)
Definition world_extracted : World :=
  {| fs := <["out/embedding_weights.npy" := FNpy Sample.weights]>
           (<["out/vocab.json" := FJson (vocab_json Sample.vocab3)]>
            (<["out/model_config.json" := FJson (JObj [])]> ∅));
     stdout := [];
     stderr := [] |}.

End Sample2.


(** A pipeline of modules run on token ids, as the framework runs it: the
    feature dictionary goes through the stages in order, and the result is
    its [sentence_embedding]. *)
Definition run_stages (stages : list TorchModule) (input_ids : Tensor)
    : exn + Tensor :=
  let through (acc : exn + gmap string Tensor) (stage : TorchModule) :=
    match acc with
    | inl e => inl e
    | inr features => forward stage features
    end in
  match foldl through (inr {["input_ids" := input_ids]}) stages with
  | inl e => inl e
  | inr features =>
      match features !! "sentence_embedding" with
      | Some t => inr t
      | None => inl (Exn KeyError "sentence_embedding")
      end
  end.

(** A token id that numpy accepts as an index into [n] rows. *)
Definition valid_index (n : nat) (i : Z) : Prop :=
  - Z.of_nat n ≤ i < Z.of_nat n.

#[global] Instance valid_index_dec n i : Decision (valid_index n i).
Proof. unfold valid_index. apply _. Defined.

(** The ids of an encoding, whichever form it has. *)
Definition encoding_ids (enc : Encoding) : list Z :=
  match enc with
  | EncodingObj ids => ids
  | EncodingList l => l
  end.

(** The environment [env] with other answers where only the smoke test
    asks: [import onnxruntime], [InferenceSession] and every model load
    after the first. *)
Definition with_test_oracles (env : Env) (import : option exn)
    (session : string → option exn) (reload : nat → string → exn + Model)
    : Env :=
  {| SentenceTransformer := λ k,
       match k with
       | O => SentenceTransformer env 0
       | S _ => reload k
       end;
     io_fault := io_fault env;
     np_convert := np_convert env;
     torch_randint := torch_randint env;
     onnx_export_fault := onnx_export_fault env;
     import_onnxruntime := import;
     InferenceSession := session;
     py_str := py_str env |}.
(** * Reasoning about runs *)

(** ** Paths *)

Lemma append_inj_l (a x y : string) : a +:+ x = a +:+ y → x = y.
Proof. induction a as [|c a IH]; simpl; [done|]. intros [= H]. auto. Qed.

Lemma append_length (a b : string) :
  String.length (a +:+ b) = (String.length a + String.length b)%nat.
Proof. induction a as [|c a IH]; simpl; [done|]. by rewrite IH. Qed.

Lemma append_assoc (a b c : string) : (a +:+ b) +:+ c = a +:+ (b +:+ c).
Proof.
  induction a as [|x a IH]; [done|].
  change (String x ((a +:+ b) +:+ c) = String x (a +:+ (b +:+ c))).
  by rewrite IH.
Qed.

Lemma append_nonempty (a b : string) : b ≠ "" → a +:+ b ≠ "".
Proof. by destruct a. Qed.

Lemma path_join_relative (a b : string) :
  relative b →
  path_join a b = if ends_with_slash a then a +:+ b else a +:+ "/" +:+ b.
Proof.
  destruct b as [|c b]; simpl; [done|]. intros Hc. unfold path_join.
  destruct c as [[] [] [] [] [] [] [] []]; try done.
Qed.

Lemma path_join_inj (a b1 b2 : string) :
  relative b1 → relative b2 → path_join a b1 = path_join a b2 → b1 = b2.
Proof.
  intros H1 H2. rewrite !path_join_relative by done.
  destruct (ends_with_slash a); intros H%append_inj_l; [done|].
  by apply (append_inj_l "/") in H.
Qed.

Lemma path_join_ne (a b1 b2 : string) :
  relative b1 → relative b2 → b1 ≠ b2 → path_join a b1 ≠ path_join a b2.
Proof. intros H1 H2 Hne H. by apply Hne, (path_join_inj a). Qed.

(** A joined path is longer than the directory it is joined to. *)
Lemma path_join_longer (a b : string) :
  relative b → (String.length a < String.length (path_join a b))%nat.
Proof.
  intros Hb. rewrite path_join_relative by done.
  destruct b as [|c b]; [done|].
  destruct (ends_with_slash a); rewrite !append_length; simpl; lia.
Qed.

Lemma path_join_ne_dir (a b : string) : relative b → path_join a b ≠ a.
Proof.
  intros Hb H. pose proof (path_join_longer a b Hb) as Hlen.
  rewrite H in Hlen. lia.
Qed.

Lemma relative_nonempty (b : string) : relative b → b ≠ "".
Proof. by destruct b. Qed.

Lemma has_slash_app (a b : string) :
  has_slash (a +:+ b) = has_slash a || has_slash b.
Proof.
  induction a as [|c a IH]; simpl; [done|]. rewrite IH. apply orb_assoc.
Qed.

Lemma ends_with_slash_cons c (s : string) :
  s ≠ "" → ends_with_slash (String c s) = ends_with_slash s.
Proof. by destruct s. Qed.

Lemma ends_with_slash_app (a b : string) :
  b ≠ "" → ends_with_slash (a +:+ b) = ends_with_slash b.
Proof.
  intros Hb. induction a as [|c a IH]; [done|].
  change (String c a +:+ b) with (String c (a +:+ b)).
  rewrite ends_with_slash_cons by (by apply append_nonempty). done.
Qed.

Lemma no_slash_not_ends_with_slash (s : string) :
  s ≠ "" → has_slash s = false → ends_with_slash s = false.
Proof.
  induction s as [|c s IH]; [done|]. intros _ H. simpl in H.
  apply orb_false_iff in H as [Hc Hs].
  destruct s as [|d s]; [exact Hc|].
  rewrite ends_with_slash_cons by done. by apply IH.
Qed.

Lemma simple_name_not_ends_with_slash (b : string) :
  simple_name b → ends_with_slash b = false.
Proof.
  intros [Hrel Hb].
  by apply no_slash_not_ends_with_slash; [apply relative_nonempty|].
Qed.

Lemma basename_no_slash (b : string) : has_slash b = false → basename b = b.
Proof.
  destruct b as [|c b]; [done|]. simpl.
  intros [Hc Hb]%orb_false_iff. by rewrite Hb, Hc.
Qed.

Lemma basename_cons c (s : string) :
  basename (String c s)
  = if has_slash s then basename s
    else if bool_decide (c = "/"%char) then s
    else String c s.
Proof. done. Qed.

(** What follows a directory that ends in a separator, or no directory at
    all, is the base name when it has no separator itself. *)
Lemma basename_app (a b : string) :
  ends_with_slash a = true → has_slash b = false → basename (a +:+ b) = b.
Proof.
  intros Ha Hb. induction a as [|c a IH]; [by apply basename_no_slash|].
  change (String c a +:+ b) with (String c (a +:+ b)).
  rewrite basename_cons. destruct a as [|d a].
  - change (bool_decide (c = "/"%char) = true) in Ha.
    change ("" +:+ b) with b. by rewrite Hb, Ha.
  - rewrite ends_with_slash_cons in Ha by done.
    assert (has_slash (String d a) = true) as Hslash.
    { destruct (has_slash (String d a)) eqn:H; [done|].
      by rewrite no_slash_not_ends_with_slash in Ha. }
    rewrite has_slash_app, Hslash. by apply IH.
Qed.

(** [os.path.basename(os.path.join(a, b))] is [b] for a plain name [b]. *)
Lemma basename_path_join (a b : string) :
  simple_name b → basename (path_join a b) = b.
Proof.
  intros [Hrel Hb]. rewrite path_join_relative by done.
  destruct (ends_with_slash a) eqn:Ha; [by apply basename_app|].
  rewrite <- append_assoc. apply basename_app; [|done].
  by rewrite ends_with_slash_app.
Qed.

(** Joining twice is joining once with the two names put together. *)
Lemma path_join_nested (out a b : string) :
  simple_name a → relative b →
  path_join (path_join out a) b = path_join out (a +:+ "/" +:+ b).
Proof.
  intros Ha Hb.
  assert (relative a) as Hrel by apply Ha.
  assert (relative (a +:+ "/" +:+ b)) as Hab by (by destruct a).
  assert (ends_with_slash (path_join out a) = false) as Hend.
  { rewrite path_join_relative by done.
    pose proof (simple_name_not_ends_with_slash a Ha) as Hna.
    pose proof (relative_nonempty a Hrel) as Hne.
    destruct (ends_with_slash out).
    - by rewrite ends_with_slash_app.
    - rewrite <- append_assoc. by rewrite ends_with_slash_app. }
  rewrite (path_join_relative (path_join out a) b), Hend by done.
  rewrite !(path_join_relative out) by done.
  destruct (ends_with_slash out); by rewrite !append_assoc.
Qed.

Lemma path_join_nested_name (out inp name : string) :
  simple_name name →
  path_join (path_join out name) (basename (path_join inp name))
  = path_join out (nested name).
Proof.
  intros Hname. rewrite basename_path_join by done.
  apply path_join_nested; [done|apply Hname].
Qed.

Lemma relative_nested (name : string) : relative name → relative (nested name).
Proof. by destruct name. Qed.

(** The directories above a path are proper prefixes of it. *)
Lemma ancestors_from_length (seen rest q : string) :
  q ∈ ancestors_from seen rest →
  (String.length seen ≤ String.length q
   < String.length seen + String.length rest)%nat.
Proof.
  revert seen. induction rest as [|c rest IH]; intros seen Hq; simpl in Hq.
  { by apply elem_of_nil in Hq. }
  assert (q ∈ ancestors_from (seen +:+ String c "") rest →
          (String.length seen ≤ String.length q
           < String.length seen + String.length (String c rest))%nat) as Hrest.
  { intros H%IH. rewrite append_length in H. simpl in *. lia. }
  destruct (bool_decide (c = "/"%char) && negb (ends_with_slash seen));
    [|by apply Hrest].
  apply elem_of_cons in Hq as [->|Hq]; [simpl; lia|by apply Hrest].
Qed.

Lemma ancestors_shorter (p q : string) :
  q ∈ ancestors p → (String.length q < String.length p)%nat.
Proof. intros H%ancestors_from_length. simpl in H. lia. Qed.

(** Nothing below a directory is among the directories above it. *)
Lemma path_join_not_ancestor (a b : string) :
  relative b → path_join a b ∉ ancestors a.
Proof.
  intros Hb H%ancestors_shorter.
  pose proof (path_join_longer a b Hb). lia.
Qed.
(** ** Successful runs *)

Lemma bind_Ok {A B} (c : M A) (f : A → M B) w b w' :
  (c ≫= f) w = (Ok b, w') →
  ∃ a w1, c w = (Ok a, w1) ∧ f a w1 = (Ok b, w').
Proof.
  unfold mbind, M_bind. destruct (c w) as [[a|e|n] w1]; [eauto|done..].
Qed.

Lemma bind_run_Ok {A B} (c : M A) (f : A → M B) w a w1 :
  c w = (Ok a, w1) → (c ≫= f) w = f a w1.
Proof. unfold mbind, M_bind. by intros ->. Qed.

Lemma ret_Ok {A} (a b : A) w w' :
  (mret a : M A) w = (Ok b, w') → b = a ∧ w' = w.
Proof. by intros [= -> ->]. Qed.

Lemma lift_Ok {A} (r : exn + A) a w w' :
  lift r w = (Ok a, w') → r = inr a ∧ w' = w.
Proof. destruct r; [done|]. by intros [= -> ->]. Qed.

Lemma from_option_Ok {A} e (o : option A) a w w' :
  from_option e o w = (Ok a, w') → o = Some a ∧ w' = w.
Proof. destruct o; [|done]. by intros [= -> ->]. Qed.

Lemma from_option_none_Ok (o : option exn) a w w' :
  from_option_none o w = (Ok a, w') → o = None ∧ w' = w.
Proof. destruct o; [done|]. intros [=]. by subst. Qed.

Lemma print_Ok s a w w' : print s w = (Ok a, w') → fs w' = fs w.
Proof. intros [=]. by subst. Qed.

Lemma write_file_Ok env p f a w w' :
  write_file env p f w = (Ok a, w') →
  io_fault env OpWrite p = None ∧ fs w' = <[p := f]> (fs w).
Proof.
  unfold write_file, io_check. intros (files & w0 & [= <- <-] & H)%bind_Ok.
  destruct (fs w !! p) as [[]|]; try done;
    apply bind_Ok in H as (? & w1 & H1 & H2);
    apply from_option_none_Ok in H1 as [-> ->]; injection H2 as [=];
    by subst.
Qed.

Lemma read_file_Ok env p f w w' :
  read_file env p w = (Ok f, w') → fs w !! p = Some f ∧ w' = w.
Proof.
  unfold read_file, io_check. intros (? & w1 & H1 & H2)%bind_Ok.
  apply from_option_none_Ok in H1 as [_ ->].
  apply bind_Ok in H2 as (files & w2 & [= <- <-] & H2).
  destruct (fs w !! p) as [[]|]; try done; by injection H2 as <- <-.
Qed.

Lemma read_file_Ok_file env p f w w' :
  read_file env p w = (Ok f, w') → f ≠ FDir.
Proof.
  unfold read_file, io_check. intros (? & w1 & H1 & H2)%bind_Ok.
  apply from_option_none_Ok in H1 as [_ ->].
  apply bind_Ok in H2 as (files & w2 & [= <- <-] & H2).
  destruct (fs w !! p) as [[]|]; try done; by injection H2 as <- <-.
Qed.

Lemma np_load_Ok env p a w w' :
  np_load env p w = (Ok a, w') → fs w !! p = Some (FNpy a) ∧ w' = w.
Proof.
  unfold np_load. intros (f & w1 & [H1 ->]%read_file_Ok & H2)%bind_Ok.
  destruct f; try done. by injection H2 as <- <-.
Qed.

Lemma json_load_Ok env p j w w' :
  json_load env p w = (Ok j, w') → fs w !! p = Some (FJson j) ∧ w' = w.
Proof.
  unfold json_load. intros (f & w1 & [H1 ->]%read_file_Ok & H2)%bind_Ok.
  destruct f; try done. by injection H2 as <- <-.
Qed.

Lemma copy_target_cases (m : gmap string File) src dst :
  copy_target m src dst = dst ∨
  copy_target m src dst = path_join dst (basename src).
Proof. unfold copy_target. destruct (m !! dst) as [[]|]; auto. Qed.

(** A copy that went through: the source is a file, it is not its own
    destination, and the destination holds its content. *)
Lemma copy2_Ok env src dst u w w' :
  copy2 env src dst w = (Ok u, w') →
  ∃ f, fs w !! src = Some f ∧ f ≠ FDir ∧
       src ≠ copy_target (fs w) src dst ∧
       fs w' = <[copy_target (fs w) src dst := f]> (fs w).
Proof.
  unfold copy2. intros (files & w0 & [= <- <-] & H)%bind_Ok. cbv zeta in H.
  apply bind_Ok in H as (u1 & w1 & H1 & H).
  case_bool_decide as Hsame; [done|]. injection H1 as _ <-.
  apply bind_Ok in H as (f & w2 & H2 & H).
  pose proof (read_file_Ok_file _ _ _ _ _ H2) as Hfile.
  apply read_file_Ok in H2 as [Hf ->].
  apply write_file_Ok in H as [_ H].
  exists f. split_and!; try done. intros Heq. apply Hsame. eauto.
Qed.

(** ** What a block leaves alone, whatever its outcome *)


Section preserves.
Context (p : string).

Lemma preserves_ret {A} (a : A) : preserves p (mret a : M A).
Proof. by intros w. Qed.

Lemma preserves_raise {A} e : preserves p (@raise A e).
Proof. by intros w. Qed.

Lemma preserves_sys_exit {A} n : preserves p (@sys_exit A n).
Proof. by intros w. Qed.

Lemma preserves_bind {A B} (c : M A) (f : A → M B) :
  preserves p c → (∀ a, preserves p (f a)) → preserves p (c ≫= f).
Proof.
  intros Hc Hf w. specialize (Hc w). unfold mbind, M_bind.
  destruct (c w) as [[a|e|n] w1]; simpl in *; [|done..].
  by rewrite Hf.
Qed.

Lemma preserves_try_except {A} (c : M A) (h : exn → M A) :
  preserves p c → (∀ e, preserves p (h e)) → preserves p (try_except c h).
Proof.
  intros Hc Hh w. specialize (Hc w). unfold try_except.
  destruct (c w) as [[a|e|n] w1]; simpl in *; [done| |done].
  by rewrite Hh.
Qed.

Lemma preserves_lift {A} (r : exn + A) : preserves p (lift r).
Proof. by destruct r. Qed.

Lemma preserves_from_option {A} e (o : option A) :
  preserves p (from_option e o).
Proof. by destruct o. Qed.

Lemma preserves_from_option_none o : preserves p (from_option_none o).
Proof. by destruct o. Qed.

Lemma preserves_print s : preserves p (print s).
Proof. by intros w. Qed.

Lemma preserves_print_json j : preserves p (print_json j).
Proof. by intros w. Qed.

Lemma preserves_print_exc e : preserves p (print_exc e).
Proof. by intros w. Qed.

Lemma preserves_get_fs : preserves p get_fs.
Proof. by intros w. Qed.

Lemma preserves_path_exists q : preserves p (path_exists q).
Proof. by intros w. Qed.

Lemma preserves_io_check env op q : preserves p (io_check env op q).
Proof. apply preserves_from_option_none. Qed.

Lemma preserves_read_file env q : preserves p (read_file env q).
Proof.
  intros w. unfold read_file, io_check.
  destruct (io_fault env OpRead q); [done|]. simpl.
  unfold mbind, M_bind; simpl. by destruct (fs w !! q) as [[]|].
Qed.

Lemma preserves_write_file env q f : q ≠ p → preserves p (write_file env q f).
Proof.
  intros Hne w. unfold write_file, io_check, mbind, M_bind. simpl.
  destruct (fs w !! q) as [[]|]; simpl; try done;
    destruct (io_fault env OpWrite q); simpl; try done;
    by rewrite lookup_insert_ne.
Qed.

Lemma preserves_make_dir env e d : d ≠ p → preserves p (make_dir env e d).
Proof.
  intros Hne w. unfold make_dir, io_check, mbind, M_bind. simpl.
  destruct (fs w !! d) as [[]|]; simpl; try done.
  destruct (io_fault env OpMkdir d); simpl; [done|].
  by rewrite lookup_insert_ne.
Qed.

Lemma preserves_for_each {A} (l : list A) (body : A → M unit) :
  (∀ x, x ∈ l → preserves p (body x)) → preserves p (for_each l body).
Proof.
  induction l as [|x l IH]; intros H; simpl; [apply preserves_ret|].
  apply preserves_bind; [apply H; left|].
  intros _. apply IH. intros y Hy. apply H. by right.
Qed.

(** [os.makedirs(q)] touches [q] and the directories above it, nothing
    else. *)
Lemma preserves_makedirs env q :
  q ≠ p → p ∉ ancestors q → preserves p (makedirs env q).
Proof.
  intros Hne Habove. unfold makedirs.
  apply preserves_bind;
    [case_bool_decide; [apply preserves_raise|apply preserves_ret]|].
  intros _. apply preserves_bind; [|intros _; by apply preserves_make_dir].
  apply preserves_for_each. intros d Hd. apply preserves_make_dir.
  by intros ->.
Qed.

Lemma preserves_np_load env q : preserves p (np_load env q).
Proof.
  apply preserves_bind; [apply preserves_read_file|].
  intros []; (apply preserves_ret || apply preserves_raise).
Qed.

Lemma preserves_json_load env q : preserves p (json_load env q).
Proof.
  apply preserves_bind; [apply preserves_read_file|].
  intros []; (apply preserves_ret || apply preserves_raise).
Qed.

Lemma preserves_py_len j : preserves p (py_len j).
Proof. destruct j; (apply preserves_ret || apply preserves_raise). Qed.

Lemma preserves_copy2 env src dst :
  dst ≠ p → path_join dst (basename src) ≠ p →
  preserves p (copy2 env src dst).
Proof.
  intros Hdst Hin. unfold copy2.
  apply preserves_bind; [apply preserves_get_fs|]. intros files. cbv zeta.
  assert (copy_target files src dst ≠ p) as Hne
    by (by destruct (copy_target_cases files src dst) as [-> | ->]).
  apply preserves_bind;
    [case_bool_decide; [apply preserves_raise|apply preserves_ret]|].
  intros _. apply preserves_bind; [apply preserves_read_file|].
  intros f. by apply preserves_write_file.
Qed.

Lemma preserves_copy_files env names model_path output_path :
  (∀ f, f ∈ names →
        path_join output_path f ≠ p ∧
        path_join (path_join output_path f) (basename (path_join model_path f))
          ≠ p) →
  preserves p (copy_files env names model_path output_path).
Proof.
  intros H. apply preserves_for_each. intros f Hf.
  destruct (H f Hf) as [Hdst Hin].
  apply preserves_bind; [apply preserves_path_exists|].
  intros [|]; [|apply preserves_ret].
  apply preserves_bind; [by apply preserves_copy2|].
  intros _. apply preserves_print.
Qed.

Lemma preserves_model_getitem model i : preserves p (model_getitem model i).
Proof. apply preserves_from_option. Qed.
End preserves.

Create HintDb frame discriminated.
#[export] Hint Resolve preserves_ret preserves_raise preserves_sys_exit
  preserves_lift preserves_from_option preserves_from_option_none
  preserves_print preserves_print_json preserves_print_exc preserves_get_fs
  preserves_path_exists preserves_io_check preserves_read_file
  preserves_np_load preserves_json_load preserves_py_len
  preserves_model_getitem : frame.

(** Walks through a block one statement at a time.  Writes leave a side
    condition on the paths, which the caller discharges. *)
Ltac frame_step :=
  lazymatch goal with
  | |- preserves _ (_ ≫= _) => apply preserves_bind; [|intros ?]
  | |- preserves _ (try_except _ _) => apply preserves_try_except; [|intros ?]
  | |- preserves _ (let _ := _ in _) => cbv zeta
  | |- preserves _ (if ?b then _ else _) => destruct b
  | |- preserves _ (match ?x with _ => _ end) => destruct x
  | |- preserves _ (write_file _ _ _) => apply preserves_write_file
  | |- preserves _ (np_save _ _ _) => apply preserves_write_file
  | |- preserves _ (json_dump _ _ _) => apply preserves_write_file
  | |- preserves _ (makedirs _ _) => apply preserves_makedirs
  | |- preserves _ (copy_files _ _ _ _) => apply preserves_copy_files
  | |- preserves _ _ => solve [auto with frame]
  end.

Ltac frame := repeat frame_step.

(** ** Blocks that cannot exit, blocks that cannot fail *)

Section never_exits.

Lemma never_exits_ret {A} (a : A) : never_exits (mret a : M A).
Proof. by intros w n. Qed.

Lemma never_exits_raise {A} e : never_exits (@raise A e).
Proof. by intros w n. Qed.

Lemma never_exits_bind {A B} (c : M A) (f : A → M B) :
  never_exits c → (∀ a, never_exits (f a)) → never_exits (c ≫= f).
Proof.
  intros Hc Hf w n. specialize (Hc w). unfold mbind, M_bind.
  destruct (c w) as [[a|e|k] w1]; simpl in *; [apply Hf|done|].
  by destruct (Hc k).
Qed.

Lemma never_exits_try_except {A} (c : M A) (h : exn → M A) :
  never_exits c → (∀ e, never_exits (h e)) → never_exits (try_except c h).
Proof.
  intros Hc Hh w n. specialize (Hc w). unfold try_except.
  destruct (c w) as [[a|e|k] w1]; simpl in *; [done|apply Hh|apply Hc].
Qed.

Lemma never_exits_lift {A} (r : exn + A) : never_exits (lift r).
Proof. by destruct r. Qed.

Lemma never_exits_from_option {A} e (o : option A) :
  never_exits (from_option e o).
Proof. by destruct o. Qed.

Lemma never_exits_from_option_none o : never_exits (from_option_none o).
Proof. by destruct o. Qed.

Lemma never_exits_print s : never_exits (print s).
Proof. by intros w n. Qed.

Lemma never_exits_print_json j : never_exits (print_json j).
Proof. by intros w n. Qed.

Lemma never_exits_print_exc e : never_exits (print_exc e).
Proof. by intros w n. Qed.

Lemma never_exits_get_fs : never_exits get_fs.
Proof. by intros w n. Qed.

Lemma never_exits_set_fs f : never_exits (set_fs f).
Proof. by intros w n. Qed.

Lemma never_exits_for_each {A} (l : list A) (body : A → M unit) :
  (∀ x, never_exits (body x)) → never_exits (for_each l body).
Proof.
  intros H. induction l as [|x l IH]; simpl; [apply never_exits_ret|].
  apply never_exits_bind; [apply H|]. by intros _.
Qed.

End never_exits.

Create HintDb noexit discriminated.
#[export] Hint Resolve never_exits_ret never_exits_raise never_exits_lift
  never_exits_from_option never_exits_from_option_none never_exits_print
  never_exits_print_json never_exits_print_exc never_exits_get_fs
  never_exits_set_fs : noexit.

(** Unfolds the library calls down to the primitives above. *)
Ltac noexit_step :=
  lazymatch goal with
  | |- never_exits (_ ≫= _) => apply never_exits_bind; [|intros ?]
  | |- never_exits (try_except _ _) => apply never_exits_try_except; [|intros ?]
  | |- never_exits (for_each _ _) => apply never_exits_for_each; intros ?
  | |- never_exits (let _ := _ in _) => cbv zeta
  | |- never_exits (if ?b then _ else _) => destruct b
  | |- never_exits (match ?x with _ => _ end) => destruct x
  | |- never_exits _ =>
      first
        [ solve [auto with noexit]
        | progress unfold io_check, path_exists, makedirs, make_dir,
            write_file, read_file, np_save, np_load, json_dump, json_load,
            py_len, copy2, copy_files, model_getitem ]
  end.

Ltac noexit := repeat noexit_step.

Lemma always_returns_ret {A} (a : A) : always_returns (mret a : M A).
Proof. intros w. by exists a. Qed.

Lemma always_returns_print s : always_returns (print s).
Proof. intros w. by exists (). Qed.

Lemma always_returns_bind {A B} (c : M A) (f : A → M B) :
  always_returns c → (∀ a, always_returns (f a)) → always_returns (c ≫= f).
Proof.
  intros Hc Hf w. destruct (Hc w) as [a Ha]. unfold mbind, M_bind.
  destruct (c w) as [r w1]. simpl in Ha. subst r. apply Hf.
Qed.

Lemma always_returns_try_except {A} (c : M A) (h : exn → M A) :
  never_exits c → (∀ e, always_returns (h e)) →
  always_returns (try_except c h).
Proof.
  intros Hc Hh w. specialize (Hc w). unfold try_except.
  destruct (c w) as [[a|e|n] w1]; simpl in *; [by exists a|apply Hh|].
  by destruct (Hc n).
Qed.

Lemma always_returns_run {A} (c : M A) w :
  always_returns c → ∃ a w', c w = (Ok a, w').
Proof.
  intros H. destruct (H w) as [a Ha]. exists a, (c w).2.
  destruct (c w) as [r w']. simpl in *. by subst.
Qed.

Lemma preserves_run {A} p (c : M A) w r w' :
  preserves p c → c w = (r, w') → fs w' !! p = fs w !! p.
Proof. intros Hp H. specialize (Hp w). by rewrite H in Hp. Qed.

(** Splits a successful run of [c ≫= f] into the run of [c] and the run of
    the continuation. *)
Ltac split_run H a w H1 :=
  apply bind_Ok in H as (a & w & H1 & H).

(** Case analysis on [x ∈ [a; b; ...]] for a literal list. *)
Ltac elem_cases H :=
  repeat (apply elem_of_cons in H as [?|H]; [subst|]);
  [..|by apply elem_of_nil in H].

(** [x ∈ [a; b; ...]] and [x ∉ [a; b; ...]] for literal names. *)
Ltac in_names := by repeat constructor.
Ltac not_in_names :=
  rewrite ?not_elem_of_cons; split_and?; (done || apply not_elem_of_nil).

(** [simple_name] and [relative] for a literal file name. *)
Ltac literal_name :=
  first [ done | split; [simpl; done|reflexivity] | simpl; done ].

(** Decides [path_join d x ≠ path_join d y], [path_join d x ≠ d] and
    [path_join d x ∉ ancestors d] for literal file names [x] and [y], also
    when [x] is the place of a copy inside a directory of its own name. *)
Ltac path_ne :=
  rewrite ?path_join_nested_name by literal_name;
  first
    [ apply path_join_not_ancestor; literal_name
    | apply path_join_ne_dir; literal_name
    | apply not_eq_sym, path_join_ne_dir; literal_name
    | apply path_join_ne; [literal_name|literal_name|simpl; done] ].

(** ** What a block does to the file system, whatever its outcome *)

Section respects.
Context (R : relation (gmap string File)) `{!PreOrder R}.

Lemma respects_ret {A} (a : A) : respects R (mret a : M A).
Proof. intros w. simpl. reflexivity. Qed.

Lemma respects_raise {A} e : respects R (@raise A e).
Proof. intros w. simpl. reflexivity. Qed.

Lemma respects_sys_exit {A} n : respects R (@sys_exit A n).
Proof. intros w. simpl. reflexivity. Qed.

Lemma respects_bind {A B} (c : M A) (f : A → M B) :
  respects R c → (∀ a, respects R (f a)) → respects R (c ≫= f).
Proof.
  intros Hc Hf w. specialize (Hc w). unfold mbind, M_bind.
  destruct (c w) as [[a|e|n] w1]; simpl in *; [|done..].
  etrans; [exact Hc|apply Hf].
Qed.

Lemma respects_try_except {A} (c : M A) (h : exn → M A) :
  respects R c → (∀ e, respects R (h e)) → respects R (try_except c h).
Proof.
  intros Hc Hh w. specialize (Hc w). unfold try_except.
  destruct (c w) as [[a|e|n] w1]; simpl in *; [done| |done].
  etrans; [exact Hc|apply Hh].
Qed.

Lemma respects_lift {A} (r : exn + A) : respects R (lift r).
Proof. destruct r; [apply respects_raise|apply respects_ret]. Qed.

Lemma respects_from_option {A} e (o : option A) : respects R (from_option e o).
Proof. destruct o; [apply respects_ret|apply respects_raise]. Qed.

Lemma respects_from_option_none o : respects R (from_option_none o).
Proof. destruct o; [apply respects_raise|apply respects_ret]. Qed.

Lemma respects_print s : respects R (print s).
Proof. intros w. simpl. reflexivity. Qed.

Lemma respects_print_json j : respects R (print_json j).
Proof. intros w. simpl. reflexivity. Qed.

Lemma respects_print_exc e : respects R (print_exc e).
Proof. intros w. simpl. reflexivity. Qed.

Lemma respects_get_fs : respects R get_fs.
Proof. intros w. simpl. reflexivity. Qed.

Lemma respects_set_fs_insert p f :
  (∀ m, R m (<[p := f]> m)) → respects R (set_fs <[p := f]>).
Proof. intros H w. simpl. apply H. Qed.

Lemma respects_for_each {A} (l : list A) (body : A → M unit) :
  (∀ x, x ∈ l → respects R (body x)) → respects R (for_each l body).
Proof.
  induction l as [|x l IH]; intros H; simpl; [apply respects_ret|].
  apply respects_bind; [apply H; left|].
  intros _. apply IH. intros y Hy. apply H. by right.
Qed.
End respects.

(** ** The directories [os.makedirs] makes *)

#[export] Instance kept_or_made_preorder dirs p : PreOrder (kept_or_made dirs p).
Proof.
  split; [intros m; by left|].
  intros m1 m2 m3 [H12|(Hp & Hnone & Hdir)] [H23|(Hp' & Hnone' & Hdir')].
  - left. congruence.
  - right. split_and!; [done|congruence|done].
  - right. split_and!; [done..|congruence].
  - congruence.
Qed.

Lemma preserves_respects {A} dirs p (c : M A) :
  preserves p c → respects (kept_or_made dirs p) c.
Proof. intros H w. by left. Qed.

Lemma make_dir_respects env e dirs p d :
  d ∈ dirs → respects (kept_or_made dirs p) (make_dir env e d).
Proof.
  intros Hd w. unfold make_dir, io_check, mbind, M_bind. simpl.
  destruct (fs w !! d) as [[]|] eqn:Hfs; simpl; try by left.
  destruct (io_fault env OpMkdir d); simpl; [by left|].
  destruct (decide (d = p)) as [->|Hne].
  - right. by rewrite lookup_insert_eq.
  - left. by rewrite lookup_insert_ne.
Qed.

(** At any path, [os.makedirs(q)] changes nothing, or makes a directory
    that was missing, at [q] or above it. *)
Lemma makedirs_respects env q p :
  respects (kept_or_made (made_dirs q) p) (makedirs env q).
Proof.
  unfold makedirs, made_dirs.
  apply respects_bind; [apply _| |intros _].
  { case_bool_decide; [apply respects_raise|apply respects_ret]; apply _. }
  apply respects_bind; [apply _| |intros _].
  - apply respects_for_each; [apply _|]. intros d Hd.
    apply make_dir_respects. apply elem_of_app. by left.
  - apply make_dir_respects. apply elem_of_app. right. by left.
Qed.

(** ** Blocks that work on the file system alone *)

Lemma fs_only_ret {A} (a : A) : fs_only (mret a : M A).
Proof. by intros w1 w2 H. Qed.

Lemma fs_only_raise {A} e : fs_only (@raise A e).
Proof. by intros w1 w2 H. Qed.

Lemma fs_only_get_fs : fs_only get_fs.
Proof. intros w1 w2 H. simpl. by rewrite H. Qed.

Lemma fs_only_set_fs f : fs_only (set_fs f).
Proof. intros w1 w2 H. simpl. by rewrite H. Qed.

Lemma fs_only_from_option_none o : fs_only (from_option_none o).
Proof. destruct o; [apply fs_only_raise|apply fs_only_ret]. Qed.

Lemma fs_only_bind {A B} (c : M A) (f : A → M B) :
  fs_only c → (∀ a, fs_only (f a)) → fs_only (c ≫= f).
Proof.
  intros Hc Hf w1 w2 H. destruct (Hc w1 w2 H) as (Hr & Hfs & Hout & Herr).
  unfold mbind, M_bind.
  destruct (c w1) as [r1 w1'], (c w2) as [r2 w2']. simpl in *. subst r2.
  destruct r1 as [a|e|n]; [|done..].
  destruct (Hf a w1' w2' Hfs) as (Hr' & Hfs' & Hout' & Herr').
  split_and!; [done|done|congruence|congruence].
Qed.

Lemma fs_only_for_each {A} (l : list A) (body : A → M unit) :
  (∀ x, fs_only (body x)) → fs_only (for_each l body).
Proof.
  intros H. induction l as [|x l IH]; simpl; [apply fs_only_ret|].
  apply fs_only_bind; [apply H|]. by intros _.
Qed.

Lemma fs_only_make_dir env e d : fs_only (make_dir env e d).
Proof.
  unfold make_dir, io_check.
  apply fs_only_bind; [apply fs_only_get_fs|]. intros files.
  destruct (files !! d) as [[]|];
    first [ apply fs_only_ret | apply fs_only_raise | idtac ].
  apply fs_only_bind; [apply fs_only_from_option_none|].
  intros _. apply fs_only_set_fs.
Qed.

Lemma fs_only_makedirs env p : fs_only (makedirs env p).
Proof.
  unfold makedirs. apply fs_only_bind.
  { case_bool_decide; [apply fs_only_raise|apply fs_only_ret]. }
  intros _. apply fs_only_bind; [|intros _; apply fs_only_make_dir].
  apply fs_only_for_each. intros d. apply fs_only_make_dir.
Qed.

(** What [os.makedirs] does depends on the file system alone. *)
Lemma makedirs_same_fs env p w1 w2 :
  fs w1 = fs w2 →
  (makedirs env p w1).1 = (makedirs env p w2).1 ∧
  fs (makedirs env p w1).2 = fs (makedirs env p w2).2.
Proof. intros H. by destruct (fs_only_makedirs env p w1 w2 H) as (? & ? & _). Qed.

Lemma makedirs_console env p w :
  stdout (makedirs env p w).2 = stdout w ∧
  stderr (makedirs env p w).2 = stderr w.
Proof. by destruct (fs_only_makedirs env p w w eq_refl) as (_ & _ & ? & ?). Qed.
(** ** The extractor, block by block *)

Section extractor.
Import extract_embeddings.
Context (env : Env).

Lemma test_extraction_preserves p model out :
  preserves p (test_extraction env model out).
Proof. unfold test_extraction. frame. Qed.

Lemma copy_files_preserves names inp out name :
  relative name → Forall simple_name names →
  name ∉ names ++ (nested <$> names) →
  preserves (path_join out name) (copy_files env names inp out).
Proof.
  intros Hrel Hnames Hname. apply preserves_copy_files. intros f Hf.
  assert (simple_name f) as Hsf by (by eapply Forall_forall in Hnames).
  split.
  - apply path_join_ne; [apply Hsf|done|]. intros <-.
    apply Hname, elem_of_app. by left.
  - rewrite path_join_nested_name by done.
    apply path_join_ne; [apply relative_nested, Hsf|done|]. intros <-.
    apply Hname, elem_of_app. right. by apply list_elem_of_fmap_2.
Qed.

(** The paths below the output directory that the [try] body of the
    extractor can write to. *)
Lemma extract_body_preserves model inp out name :
  relative name →
  name ∉ ["embedding_weights.npy"; "vocab.json"; "model_config.json";
          "tokenizer.json"; "config.json";
          "tokenizer.json/tokenizer.json"; "config.json/config.json"] →
  preserves (path_join out name) (extract_body env model inp out).
Proof.
  intros Hrel Hname. unfold extract_body.
  frame; try apply test_extraction_preserves;
    try (apply path_join_ne; [done|done|]; intros <-; apply Hname; in_names).
  intros f Hf.
  elem_cases Hf; split; rewrite ?path_join_nested_name by literal_name;
    (apply path_join_ne; [literal_name|done|]; intros <-; apply Hname;
     in_names).
Qed.

Lemma extract_model_weights_preserves inp out name :
  relative name →
  name ∉ ["embedding_weights.npy"; "vocab.json"; "model_config.json";
          "tokenizer.json"; "config.json";
          "tokenizer.json/tokenizer.json"; "config.json/config.json"] →
  preserves (path_join out name) (extract_model_weights env inp out).
Proof.
  intros Hrel Hname. unfold extract_model_weights, load_and_prepare. frame.
  - by apply not_eq_sym, path_join_ne_dir.
  - by apply path_join_not_ancestor.
  - by apply extract_body_preserves.
Qed.

Lemma has_normalize_Ok model (b : bool) w w' :
  (if bool_decide (1 < length (modules model))%nat then
     second ← model_getitem model 1;
     mret (hasattr second "normalize")
   else mret false) w = (Ok b, w') →
  b = second_has_normalize model ∧ w' = w.
Proof.
  unfold second_has_normalize. case_bool_decide as Hlen.
  - intros (second & w1 & [-> ->]%from_option_Ok & [= <- <-])%bind_Ok. done.
  - intros [= <- <-]. rewrite lookup_ge_None_2; [done|lia].
Qed.

(** What a run of the [try] body that reaches its end has done. *)
Lemma extract_body_Ok model inp out b w w' :
  extract_body env model inp out w = (Ok b, w') →
  ∃ se weights vocab,
    b = true ∧
    modules model !! 0%nat = Some se ∧
    embedding se = Some weights ∧
    get_vocab (tokenizer model) = inr vocab ∧
    fs w' !! path_join out "embedding_weights.npy" = Some (FNpy weights) ∧
    fs w' !! path_join out "vocab.json" = Some (FJson (vocab_json vocab)) ∧
    fs w' !! path_join out "model_config.json"
      = Some (FJson (config_of vocab weights model)).
Proof.
  unfold extract_body. intros H.
  split_run H se w1 Hse. apply from_option_Ok in Hse as [Hse ->].
  split_run H weights w1 Hw. apply from_option_Ok in Hw as [Hw ->].
  split_run H u1 w1 H1. apply print_Ok in H1.
  split_run H u2 w2 H2. apply write_file_Ok in H2 as [_ H2].
  split_run H u3 w3 H3. apply print_Ok in H3.
  split_run H vocab w4 H4. apply lift_Ok in H4 as [Hv ->].
  split_run H u5 w5 H5. apply write_file_Ok in H5 as [_ H5].
  split_run H u6 w6 H6. apply print_Ok in H6.
  split_run H hn w7 H7. apply has_normalize_Ok in H7 as [-> ->].
  split_run H u8 w8 H8. apply write_file_Ok in H8 as [_ H8].
  split_run H u9 w9 H9. apply print_Ok in H9.
  split_run H u10 w10 H10.
  split_run H u11 w11 H11. apply print_Ok in H11.
  split_run H u12 w12 H12. injection H as <- <-.
  assert (∀ name, relative name →
                  name ∉ ["tokenizer.json"; "config.json";
                          "tokenizer.json/tokenizer.json";
                          "config.json/config.json"] →
          fs w12 !! path_join out name = fs w8 !! path_join out name)
    as Hframe.
  { intros name Hrel Hname.
    rewrite (preserves_run _ _ _ _ _ (test_extraction_preserves _ _ _) H12).
    rewrite H11.
    rewrite (preserves_run _ _ _ _ _
               (copy_files_preserves ["tokenizer.json"; "config.json"]
                  inp out name Hrel
                  ltac:(repeat (constructor; [literal_name|]); constructor)
                  Hname) H10).
    by rewrite H9. }
  exists se, weights, vocab. split_and!; try done.
  all: rewrite Hframe by (done || not_in_names).
  all: rewrite H8, H6, H5, H3, H2.
  - rewrite !lookup_insert_ne by path_ne. apply lookup_insert_eq.
  - rewrite lookup_insert_ne by path_ne. apply lookup_insert_eq.
  - apply lookup_insert_eq.
Qed.
End extractor.

Lemma try_except_Ok {A} (c : M A) (h : exn → M A) w a w' :
  try_except c h w = (Ok a, w') →
  c w = (Ok a, w') ∨ ∃ e w1, c w = (Raise e, w1) ∧ h e w1 = (Ok a, w').
Proof.
  unfold try_except. destruct (c w) as [[x|e|n] w1]; [by left|eauto|done].
Qed.

Section extractor_runs.
Import extract_embeddings.
Context (env : Env).

Lemma load_and_prepare_Ok inp out model w w' :
  load_and_prepare env inp out w = (Ok model, w') →
  SentenceTransformer env 0 inp = inr model.
Proof.
  unfold load_and_prepare. intros H.
  split_run H u1 w1 H1. clear H1.
  split_run H model' w2 H2. apply lift_Ok in H2 as [Hload ->].
  split_run H u3 w3 H3. clear H3.
  split_run H u4 w4 H4. by injection H as <- <-.
Qed.

(** [extract_model_weights] returns [True] only from the end of its [try]
    body. *)
Lemma extract_model_weights_true inp out w w' :
  extract_model_weights env inp out w = (Ok true, w') →
  ∃ model se weights vocab,
    SentenceTransformer env 0 inp = inr model ∧
    modules model !! 0%nat = Some se ∧
    embedding se = Some weights ∧
    get_vocab (tokenizer model) = inr vocab ∧
    fs w' !! path_join out "embedding_weights.npy" = Some (FNpy weights) ∧
    fs w' !! path_join out "vocab.json" = Some (FJson (vocab_json vocab)) ∧
    fs w' !! path_join out "model_config.json"
      = Some (FJson (config_of vocab weights model)).
Proof.
  unfold extract_model_weights. intros H.
  split_run H model w0 H0. apply load_and_prepare_Ok in H0 as Hload.
  apply try_except_Ok in H as [H|(e & w5 & _ & H)].
  - apply extract_body_Ok in H as (se & weights & vocab & _ & H).
    by exists model, se, weights, vocab.
  - split_run H u6 w6 H6. split_run H u7 w7 H7. by injection H.
Qed.

Lemma create_go_embedding_data_Ok out u w w' :
  create_go_embedding_data env out w = (Ok u, w') →
  ∃ weights,
    fs w !! path_join out "embedding_weights.npy" = Some (FNpy weights) ∧
    fs w' = <[path_join out "embeddings_metadata.json" :=
                FJson (metadata_of weights)]>
            (<[path_join out "embeddings.bin" :=
                 FBytes (tobytes (astype_float32 (np_convert env) weights))]>
             (fs w)).
Proof.
  unfold create_go_embedding_data. intros H.
  split_run H weights w1 H1. apply np_load_Ok in H1 as [Hw ->].
  split_run H u2 w2 H2. apply write_file_Ok in H2 as [_ H2].
  split_run H u3 w3 H3. apply print_Ok in H3.
  split_run H u4 w4 H4. apply write_file_Ok in H4 as [_ H4].
  apply print_Ok in H.
  exists weights. split; [done|]. by rewrite H, H4, H3, H2.
Qed.

(** A run of the extractor that ends with status 0: the command line had
    its two arguments, the model loaded, and all five outputs are in place. *)
Lemma main_Ok argv u w w' :
  main env argv w = (Ok u, w') →
  ∃ prog inp out model se weights vocab,
    argv = [prog; inp; out] ∧
    SentenceTransformer env 0 inp = inr model ∧
    modules model !! 0%nat = Some se ∧
    embedding se = Some weights ∧
    get_vocab (tokenizer model) = inr vocab ∧
    fs w' !! path_join out "embedding_weights.npy" = Some (FNpy weights) ∧
    fs w' !! path_join out "vocab.json" = Some (FJson (vocab_json vocab)) ∧
    fs w' !! path_join out "model_config.json"
      = Some (FJson (config_of vocab weights model)) ∧
    fs w' !! path_join out "embeddings.bin"
      = Some (FBytes (tobytes (astype_float32 (np_convert env) weights))) ∧
    fs w' !! path_join out "embeddings_metadata.json"
      = Some (FJson (metadata_of weights)).
Proof.
  unfold main. intros H.
  destruct argv as [|prog [|inp [|out [|]]]];
    try (split_run H u0 w0 H0; done).
  split_run H b w1 H1. injection H1 as <- <-.
  destruct (negb _); [split_run H u0 w0 H0; done|].
  split_run H u2 w2 H2. clear H2.
  split_run H success w4 H4.
  destruct success; [|split_run H u0 w0 H0; done].
  apply extract_model_weights_true in H4
    as (model & se & weights & vocab & Hload & Hse & Hemb & Hv & Hw & Hvp & Hcp).
  split_run H u5 w5 H5. apply print_Ok in H5.
  split_run H u6 w6 H6. rewrite <- H5 in Hw, Hvp, Hcp.
  apply create_go_embedding_data_Ok in H6 as (weights' & Hw' & H6).
  rewrite Hw in Hw'. injection Hw' as <-.
  split_run H u7 w7 H7. apply print_Ok in H7. apply print_Ok in H.
  exists prog, inp, out, model, se, weights, vocab.
  split_and!; try done; rewrite H, H7, H6.
  - by rewrite !lookup_insert_ne by path_ne.
  - by rewrite !lookup_insert_ne by path_ne.
  - by rewrite !lookup_insert_ne by path_ne.
  - rewrite lookup_insert_ne by path_ne. apply lookup_insert_eq.
  - apply lookup_insert_eq.
Qed.
End extractor_runs.

(** ** The binary buffer *)

Lemma length_le_bytes n x : length (le_bytes n x) = n.
Proof. unfold le_bytes. by rewrite length_fmap, length_seq. Qed.

Lemma length_flat_map_const {A B} (f : A → list B) (k : nat) (l : list A) :
  (∀ x, length (f x) = k) → length (flat_map f l) = (length l * k)%nat.
Proof.
  intros Hf. induction l as [|x l IH]; simpl; [done|].
  rewrite length_app, Hf, IH. lia.
Qed.

Lemma length_tobytes a :
  length (tobytes a) = (shape0 a * (shape1 a * itemsize (nd_dtype a)))%nat.
Proof.
  unfold tobytes, shape0. apply length_flat_map_const. intros r.
  rewrite (length_flat_map_const _ (itemsize (nd_dtype a))).
  - by rewrite length_vec_to_list.
  - intros x. apply length_le_bytes.
Qed.

Lemma lookup_flat_map_const {A B} (f : A → list B) (k : nat) (l : list A)
    (i j : nat) (x : A) :
  (∀ y, length (f y) = k) → l !! i = Some x → (j < k)%nat →
  flat_map f l !! (i * k + j)%nat = f x !! j.
Proof.
  intros Hf. revert i. induction l as [|y l IH]; intros i Hi Hj; [done|].
  simpl. destruct i as [|i]; simpl in *.
  - injection Hi as ->. apply lookup_app_l. by rewrite Hf.
  - rewrite lookup_app_r by (rewrite Hf; lia). rewrite Hf.
    replace (k + i * k + j - k)%nat with (i * k + j)%nat by lia. by apply IH.
Qed.

Lemma lookup_le_bytes n x (k : nat) :
  (k < n)%nat →
  le_bytes n x !! k = Some (Z.land (Z.shiftr x (8 * Z.of_nat k)) 255).
Proof.
  intros Hk. unfold le_bytes. rewrite list_lookup_fmap.
  by rewrite lookup_seq_lt.
Qed.

(** The layout of [tobytes]: byte [k] of the element in row [i] and column
    [j] sits at offset [(i * shape1 + j) * itemsize + k], least significant
    byte first. *)
Lemma tobytes_row_major a (i j k : nat) row x :
  rows a !! i = Some row → vec_to_list row !! j = Some x →
  (k < itemsize (nd_dtype a))%nat →
  tobytes a !! ((i * shape1 a + j) * itemsize (nd_dtype a) + k)%nat
  = Some (Z.land (Z.shiftr x (8 * Z.of_nat k)) 255).
Proof.
  intros Hrow Hx Hk. unfold tobytes.
  assert (j < shape1 a)%nat as Hj.
  { apply lookup_lt_Some in Hx. by rewrite length_vec_to_list in Hx. }
  set (n := itemsize (nd_dtype a)) in *.
  replace ((i * shape1 a + j) * n + k)%nat
    with (i * (shape1 a * n) + (j * n + k))%nat by lia.
  rewrite (lookup_flat_map_const _ (shape1 a * n) _ _ _ row); [|..|done|nia].
  - rewrite (lookup_flat_map_const _ n _ _ _ x); [|..|done|done].
    + by apply lookup_le_bytes.
    + intros y. apply length_le_bytes.
  - intros r. rewrite (length_flat_map_const _ n).
    + by rewrite length_vec_to_list.
    + intros y. apply length_le_bytes.
Qed.

Lemma shape_astype_float32 conv a :
  shape0 (astype_float32 conv a) = shape0 a ∧
  shape1 (astype_float32 conv a) = shape1 a ∧
  nd_dtype (astype_float32 conv a) = Float32.
Proof. unfold shape0. simpl. by rewrite length_fmap. Qed.

(** * The claims *)

(** ** The extractor's outputs agree with each other *)

(** C1. Every run of the extractor that ends with status 0 leaves an
    [embeddings.bin] whose byte length is [vocab_size * embedding_dim * 4]
    for the [vocab_size] and [embedding_dim] recorded in
    [embeddings_metadata.json], and whose content is the model's embedding
    weight matrix converted to float32, row after row. *)
Theorem binary_length_matches_metadata env argv u w w' :
  extract_embeddings.main env argv w = (Ok u, w') →
  ∃ inp out model se weights bs (vocab_size embedding_dim : nat),
    argv !! 1%nat = Some inp ∧ argv !! 2%nat = Some out ∧
    SentenceTransformer env 0 inp = inr model ∧
    modules model !! 0%nat = Some se ∧
    embedding se = Some weights ∧
    bytes_at w' (path_join out "embeddings.bin") = Some bs ∧
    (json_at w' (path_join out "embeddings_metadata.json")
       ≫= json_get "vocab_size") = Some (JInt (Z.of_nat vocab_size)) ∧
    (json_at w' (path_join out "embeddings_metadata.json")
       ≫= json_get "embedding_dim") = Some (JInt (Z.of_nat embedding_dim)) ∧
    bs = tobytes (astype_float32 (np_convert env) weights) ∧
    length bs = (vocab_size * embedding_dim * 4)%nat.
Proof.
  intros (prog & inp & out & model & se & weights & vocab & -> & Hload & Hse
          & Hemb & _ & _ & _ & _ & Hbin & Hmeta)%main_Ok.
  exists inp, out, model, se, weights,
    (tobytes (astype_float32 (np_convert env) weights)),
    (shape0 weights), (shape1 weights).
  unfold bytes_at, json_at. rewrite Hbin, Hmeta. split_and!; try done.
  rewrite length_tobytes.
  destruct (shape_astype_float32 (np_convert env) weights) as (-> & -> & ->).
  simpl. lia.
Qed.

Lemma binary_length_matches_metadata_witness :
  let env := Sample.env in
  let argv := ["extract_embeddings.py"; "model"; "out"] in
  let w' := (extract_embeddings.main env argv Sample.world).2 in
  extract_embeddings.main env argv Sample.world = (Ok (), w') ∧
  ∃ inp out model se weights bs (vocab_size embedding_dim : nat),
    argv !! 1%nat = Some inp ∧ argv !! 2%nat = Some out ∧
    SentenceTransformer env 0 inp = inr model ∧
    modules model !! 0%nat = Some se ∧
    embedding se = Some weights ∧
    bytes_at w' (path_join out "embeddings.bin") = Some bs ∧
    (json_at w' (path_join out "embeddings_metadata.json")
       ≫= json_get "vocab_size") = Some (JInt (Z.of_nat vocab_size)) ∧
    (json_at w' (path_join out "embeddings_metadata.json")
       ≫= json_get "embedding_dim") = Some (JInt (Z.of_nat embedding_dim)) ∧
    bs = tobytes (astype_float32 (np_convert env) weights) ∧
    length bs = (vocab_size * embedding_dim * 4)%nat.
Proof.
  intros env argv w'.
  assert (extract_embeddings.main env argv Sample.world = (Ok (), w')) as Hrun
    by (vm_compute; reflexivity).
  split; [exact Hrun|].
  exact (binary_length_matches_metadata env argv () Sample.world w' Hrun).
Defined.

Lemma key_count_vocab_json vocab :
  json_key_count (vocab_json vocab) = Some (size vocab).
Proof.
  unfold vocab_json. simpl. by rewrite length_fmap, length_map_to_list.
Qed.

(** C2, as the specification states it, fails: with a tokenizer that knows
    two tokens and an embedding matrix of three rows the extractor ends with
    status 0, [vocab.json] has two keys and [embeddings_metadata.json]
    records a [vocab_size] of three. *)
Lemma vocab_count_differs_from_metadata :
  let w' := (extract_embeddings.main Sample.env_short_vocab
               ["extract_embeddings.py"; "model"; "out"] Sample.world).2 in
  extract_embeddings.main Sample.env_short_vocab
    ["extract_embeddings.py"; "model"; "out"] Sample.world = (Ok (), w') ∧
  (json_at w' (path_join "out" "vocab.json") ≫= json_key_count)
    = Some 2%nat ∧
  (json_at w' (path_join "out" "embeddings_metadata.json")
     ≫= json_get "vocab_size") = Some (JInt 3).
Proof. vm_compute. done. Qed.

(** C2, amended. After every run of the extractor that ends with status 0,
    the number of keys of [vocab.json] is the [vocab_size] recorded in
    [model_config.json], both being the size of the tokenizer's vocabulary,
    while the [vocab_size] recorded in [embeddings_metadata.json] is the
    number of rows of the embedding matrix; so the key count and the
    metadata agree exactly when the tokenizer's vocabulary has as many
    entries as the matrix has rows. *)
Theorem vocab_count_matches_config env argv u w w' :
  extract_embeddings.main env argv w = (Ok u, w') →
  ∃ inp out model se weights vocab (keys : nat) (meta_vocab_size : Z),
    argv !! 1%nat = Some inp ∧ argv !! 2%nat = Some out ∧
    SentenceTransformer env 0 inp = inr model ∧
    modules model !! 0%nat = Some se ∧
    embedding se = Some weights ∧
    get_vocab (tokenizer model) = inr vocab ∧
    (json_at w' (path_join out "vocab.json") ≫= json_key_count) = Some keys ∧
    (json_at w' (path_join out "embeddings_metadata.json")
       ≫= json_get "vocab_size") = Some (JInt meta_vocab_size) ∧
    keys = size vocab ∧
    (json_at w' (path_join out "model_config.json") ≫= json_get "vocab_size")
      = Some (JInt (Z.of_nat keys)) ∧
    meta_vocab_size = Z.of_nat (shape0 weights) ∧
    (Z.of_nat keys = meta_vocab_size ↔ size vocab = shape0 weights).
Proof.
  intros (prog & inp & out & model & se & weights & vocab & -> & Hload & Hse
          & Hemb & Hvocab & _ & Hvj & Hcfg & _ & Hmeta)%main_Ok.
  exists inp, out, model, se, weights, vocab,
    (size vocab), (Z.of_nat (shape0 weights)).
  unfold json_at. rewrite Hvj, Hcfg, Hmeta. split_and!; try done.
  - apply key_count_vocab_json.
  - lia.
Qed.

Lemma vocab_count_matches_config_witness :
  let env := Sample.env in
  let argv := ["extract_embeddings.py"; "model"; "out"] in
  let w' := (extract_embeddings.main env argv Sample.world).2 in
  extract_embeddings.main env argv Sample.world = (Ok (), w') ∧
  ∃ inp out model se weights vocab (keys : nat) (meta_vocab_size : Z),
    argv !! 1%nat = Some inp ∧ argv !! 2%nat = Some out ∧
    SentenceTransformer env 0 inp = inr model ∧
    modules model !! 0%nat = Some se ∧
    embedding se = Some weights ∧
    get_vocab (tokenizer model) = inr vocab ∧
    (json_at w' (path_join out "vocab.json") ≫= json_key_count) = Some keys ∧
    (json_at w' (path_join out "embeddings_metadata.json")
       ≫= json_get "vocab_size") = Some (JInt meta_vocab_size) ∧
    keys = size vocab ∧
    (json_at w' (path_join out "model_config.json") ≫= json_get "vocab_size")
      = Some (JInt (Z.of_nat keys)) ∧
    meta_vocab_size = Z.of_nat (shape0 weights) ∧
    (Z.of_nat keys = meta_vocab_size ↔ size vocab = shape0 weights).
Proof.
  intros env argv w'.
  assert (extract_embeddings.main env argv Sample.world = (Ok (), w')) as Hrun
    by (vm_compute; reflexivity).
  split; [exact Hrun|].
  exact (vocab_count_matches_config env argv () Sample.world w' Hrun).
Defined.

(** ** The [normalize] field *)

(** C6 fails on the code.  The loaded pipeline is the framework's
    [StaticEmbedding] followed by its [Normalize] module, so it does apply
    post-normalization: run on the features of a sentence, the second module
    puts the unit vector in the place of the sentence embedding.  But
    [Normalize] has no attribute called [normalize], which is what
    [hasattr(model[1], 'normalize')] asks for: the extraction succeeds and
    records [normalize = false] in [model_config.json]. *)
Theorem normalization_module_recorded_as_false :
  let env := Sample.env_bag_normalized in
  let model := Sample.model_bag_normalized in
  let extraction :=
    extract_embeddings.extract_model_weights env "model" "out" Sample.world in
  let features : gmap string Tensor :=
    <["offsets" := Sample.offsets]> {["input_ids" := torch_randint env]} in
  SentenceTransformer env 0 "model" = inr model ∧
  modules model = [Sample.embedding_bag; Sample.normalizer] ∧
  class_name <$> modules model = ["StaticEmbedding"; "Normalize"] ∧
  match forward Sample.embedding_bag features with
  | inl _ => False
  | inr embedded =>
      embedded !! "sentence_embedding" = Some Sample.sentence ∧
      match forward Sample.normalizer embedded with
      | inl _ => False
      | inr normalized =>
          normalized !! "sentence_embedding" = Some Sample.unit_sentence
      end
  end ∧
  hasattr Sample.normalizer "normalize" = false ∧
  extraction.1 = Ok true ∧
  (json_at extraction.2 (path_join "out" "model_config.json")
     ≫= json_get "normalize") = Some (JBool false).
Proof.
  intros env model extraction features.
  split_and!; try (vm_compute; reflexivity).
  vm_compute. done.
Qed.

(** The field in three sample pipelines: one module, a second module with
    an attribute called [normalize], a second module without it. *)
Example normalize_field_samples :
  let field env :=
    json_at (extract_embeddings.extract_model_weights env "model" "out"
               Sample.world).2 "out/model_config.json"
      ≫= json_get "normalize" in
  field Sample.env = Some (JBool false) ∧
  field Sample.env_flagged = Some (JBool true) ∧
  field Sample.env_normalized = Some (JBool false).
Proof. vm_compute. done. Qed.

(** ** The converter, block by block *)

Section converter.
Import convert_to_onnx.
Context (env : Env).

Lemma test_onnx_model_preserves p onnx_path inp :
  preserves p (test_onnx_model env onnx_path inp).
Proof. unfold test_onnx_model. frame. Qed.

(** Whatever happens inside the smoke test, it hands back a boolean. *)
Lemma test_onnx_model_always_returns onnx_path inp :
  always_returns (test_onnx_model env onnx_path inp).
Proof.
  unfold test_onnx_model. apply always_returns_try_except.
  - noexit.
  - intros e. destruct (is_ImportError e);
      (apply always_returns_bind; [apply always_returns_print|]);
      intros _; apply always_returns_ret.
Qed.
End converter.

(** ** Running forward *)

Lemma path_exists_run p w :
  path_exists p w = (Ok (bool_decide (is_Some (fs w !! p))), w).
Proof. done. Qed.

Lemma print_run s w :
  print s w
  = (Ok (), {| fs := fs w; stdout := stdout w ++ [Text s]; stderr := stderr w |}).
Proof. done. Qed.

Lemma bind_run_Raise {A B} (c : M A) (f : A → M B) w e w1 :
  c w = (Raise e, w1) → (c ≫= f) w = (Raise e, w1).
Proof. unfold mbind, M_bind. by intros ->. Qed.

Lemma try_except_run_Ok {A} (c : M A) (h : exn → M A) w a w1 :
  c w = (Ok a, w1) → try_except c h w = (Ok a, w1).
Proof. unfold try_except. by intros ->. Qed.

Lemma try_except_run_Raise {A} (c : M A) (h : exn → M A) w e w1 :
  c w = (Raise e, w1) → try_except c h w = h e w1.
Proof. unfold try_except. by intros ->. Qed.

(** Each [main], once the command line and the input path are accepted. *)
Lemma extract_main_run env prog inp out w :
  is_Some (fs w !! inp) →
  extract_embeddings.main env [prog; inp; out] w
  = (extract_embeddings.banner;;
     success ← extract_embeddings.extract_model_weights env inp out;
     if success : bool then
       print (nl +:+ "Creating Go-friendly data files...");;
       extract_embeddings.create_go_embedding_data env out;;
       print (nl +:+ "✅ Extraction completed successfully!");;
       print ("Extracted data available at: " +:+ out)
     else
       print (nl +:+ "❌ Extraction failed!");;
       sys_exit 1) w.
Proof.
  intros Hinp. unfold extract_embeddings.main.
  rewrite (bind_run_Ok _ _ _ _ _ (path_exists_run inp w)).
  rewrite bool_decide_eq_true_2 by done. done.
Qed.

Lemma convert_main_run env prog inp out w :
  is_Some (fs w !! inp) →
  convert_to_onnx.main env [prog; inp; out] w
  = (convert_to_onnx.banner;;
     success ← convert_to_onnx.convert_model_to_onnx env inp out;
     if success : bool then
       print (nl +:+ "✅ Conversion completed successfully!");;
       print ("ONNX model available at: " +:+ out)
     else
       print (nl +:+ "❌ Conversion failed!");;
       sys_exit 1) w.
Proof.
  intros Hinp. unfold convert_to_onnx.main.
  rewrite (bind_run_Ok _ _ _ _ _ (path_exists_run inp w)).
  rewrite bool_decide_eq_true_2 by done. done.
Qed.

(** ** A missing input path *)

(** C8. When the input model path does not exist, [convert_to_onnx.py] and
    [extract_embeddings.py] both print one line, the error message that ends
    with the path they were given, and exit with status 1; the file system
    is left as it was, so no output file is written. *)
Theorem missing_input_path_exits_1 env prog inp out w :
  fs w !! inp = None →
  let message := "Error: Input path does not exist: " +:+ inp in
  let w' := {| fs := fs w;
               stdout := stdout w ++ [Text message];
               stderr := stderr w |} in
  convert_to_onnx.main env [prog; inp; out] w = (SysExit 1, w') ∧
  exit_status (convert_to_onnx.main env [prog; inp; out] w).1 = 1 ∧
  extract_embeddings.main env [prog; inp; out] w = (SysExit 1, w') ∧
  exit_status (extract_embeddings.main env [prog; inp; out] w).1 = 1.
Proof.
  intros Hinp message w'.
  unfold convert_to_onnx.main, extract_embeddings.main.
  rewrite !(bind_run_Ok _ _ _ _ _ (path_exists_run inp w)).
  rewrite Hinp, bool_decide_eq_false_2 by (by intros [? ?]). done.
Qed.

Lemma missing_input_path_exits_1_witness :
  let env := Sample.env in
  let w := Sample.empty_world in
  let argv := ["script.py"; "model"; "out"] in
  fs w !! "model" = None ∧
  let message := "Error: Input path does not exist: " +:+ "model" in
  let w' := {| fs := fs w;
               stdout := stdout w ++ [Text message];
               stderr := stderr w |} in
  convert_to_onnx.main env argv w = (SysExit 1, w') ∧
  exit_status (convert_to_onnx.main env argv w).1 = 1 ∧
  extract_embeddings.main env argv w = (SysExit 1, w') ∧
  exit_status (extract_embeddings.main env argv w).1 = 1.
Proof.
  intros env w argv.
  assert (fs w !! "model" = None) as Hinp by reflexivity.
  split; [exact Hinp|].
  exact (missing_input_path_exits_1 env "script.py" "model" "out" w Hinp).
Defined.

(** ** The binary export waits for the extraction *)

Section extractor_failure.
Import extract_embeddings.
Context (env : Env).

Lemma test_extraction_never_exits model out :
  never_exits (test_extraction env model out).
Proof. unfold test_extraction. noexit. Qed.

Lemma extract_model_weights_never_exits inp out :
  never_exits (extract_model_weights env inp out).
Proof.
  unfold extract_model_weights, load_and_prepare, extract_body.
  noexit; apply test_extraction_never_exits.
Qed.

Lemma banner_run w :
  ∃ w1, banner w = (Ok (), w1) ∧ fs w1 = fs w.
Proof. by eexists. Qed.

End extractor_failure.

(** C10. Once the extractor has accepted its command line, it touches
    [embeddings.bin] and [embeddings_metadata.json] only after
    [extract_model_weights] has returned [True]: if the extraction returns
    [False] or raises, the process ends with status 1 and the file system
    holds at both paths what it held before the run; so a change at either
    path means that the extraction returned [True]. *)
Theorem binary_export_only_after_success env prog inp out w :
  let start := (extract_embeddings.banner w).2 in
  let extraction :=
    extract_embeddings.extract_model_weights env inp out start in
  let run := extract_embeddings.main env [prog; inp; out] w in
  let bin := path_join out "embeddings.bin" in
  let meta := path_join out "embeddings_metadata.json" in
  is_Some (fs w !! inp) →
  (extraction.1 ≠ Ok true →
     exit_status run.1 = 1 ∧
     fs run.2 !! bin = fs w !! bin ∧
     fs run.2 !! meta = fs w !! meta) ∧
  (fs run.2 !! bin ≠ fs w !! bin ∨ fs run.2 !! meta ≠ fs w !! meta →
     extraction.1 = Ok true).
Proof.
  intros start extraction run bin meta Hinp.
  assert (extraction.1 ≠ Ok true →
          exit_status run.1 = 1 ∧
          fs run.2 !! bin = fs w !! bin ∧
          fs run.2 !! meta = fs w !! meta) as Hfail.
  { intros Hne. subst run. rewrite extract_main_run by done.
    rewrite (bind_run_Ok _ _ _ _ start
               (eq_refl : extract_embeddings.banner w = (Ok (), start))).
    unfold mbind, M_bind. fold extraction.
    pose proof (extract_model_weights_preserves env inp out
                  "embeddings.bin" ltac:(done) ltac:(not_in_names) start)
      as Hbin.
    pose proof (extract_model_weights_preserves env inp out
                  "embeddings_metadata.json" ltac:(done) ltac:(not_in_names)
                  start) as Hmeta.
    pose proof (extract_model_weights_never_exits env inp out start) as Hexit.
    fold extraction in Hbin, Hmeta, Hexit. fold bin in Hbin. fold meta in Hmeta.
    destruct extraction as [[[|]|e|n] w1]; simpl in *.
    - done.
    - done.
    - done.
    - by destruct (Hexit n). }
  split; [exact Hfail|].
  intros Hchanged.
  destruct extraction.1 as [[|]|e|n] eqn:Hres; [done|..];
    destruct Hfail as (_ & Hbin & Hmeta); try done;
    destruct Hchanged; done.
Qed.

Lemma binary_export_only_after_success_witness :
  let env := Sample.env_no_model in
  let w := Sample.world in
  let start := (extract_embeddings.banner w).2 in
  let extraction :=
    extract_embeddings.extract_model_weights env "model" "out" start in
  let run :=
    extract_embeddings.main env ["extract_embeddings.py"; "model"; "out"] w in
  let bin := path_join "out" "embeddings.bin" in
  let meta := path_join "out" "embeddings_metadata.json" in
  is_Some (fs w !! "model") ∧
  extraction.1 ≠ Ok true ∧
  exit_status run.1 = 1 ∧
  fs run.2 !! bin = fs w !! bin ∧
  fs run.2 !! meta = fs w !! meta.
Proof.
  intros env w start extraction run bin meta.
  assert (is_Some (fs w !! "model")) as Hinp by (eexists; reflexivity).
  assert (extraction.1 ≠ Ok true) as Hfail by (vm_compute; discriminate).
  split; [exact Hinp|]. split; [exact Hfail|].
  exact (proj1 (binary_export_only_after_success env "extract_embeddings.py"
                  "model" "out" w Hinp) Hfail).
Defined.

(** ** Where exceptions go *)

(** C3, as the specification states it, fails.  In the converter the model
    is loaded before the [try]: when the load raises, nothing catches the
    exception and the script prints no message of its own.  In the extractor
    the step after a successful extraction, [create_go_embedding_data], runs
    under no [try] at all: when it raises, the exception leaves [main]. *)
Lemma load_and_post_success_exceptions_escape :
  let converted :=
    convert_to_onnx.main Sample.env_no_model
      ["convert_to_onnx.py"; "model"; "out"] Sample.world in
  let extracted :=
    extract_embeddings.main Sample.env_disk_full
      ["extract_embeddings.py"; "model"; "out"] Sample.world in
  converted.1 = Raise (Exn (OtherError "OSError") "no such model") ∧
  stdout converted.2 = [Text "Model2vec to ONNX Converter"; Text rule40;
                        Text "Loading model from: model"] ∧
  stderr converted.2 = [] ∧
  extracted.1 = Raise (Exn (OtherError "OSError") "No space left on device") ∧
  last (stdout extracted.2)
    = Some (Text (nl +:+ "Creating Go-friendly data files...")) ∧
  stderr extracted.2 = [].
Proof. vm_compute. done. Qed.

(** C3, amended.  In [convert_to_onnx.py] and [extract_embeddings.py], once
    the model is loaded and the output directory made, every exception
    raised inside the [try] block of [convert_model_to_onnx] or
    [extract_model_weights] is caught there: its message is printed, its
    traceback is printed, and the process exits with status 1.  In
    [embed.py] an exception raised by the model load is caught, its message
    is printed as a JSON error object, and the process exits with status 1. *)
Theorem try_block_exceptions_exit_1 env prog inp out w :
  (∀ model w1 e w2,
     is_Some (fs w !! inp) →
     (convert_to_onnx.banner;;
      convert_to_onnx.load_and_prepare env inp out) w = (Ok model, w1) →
     convert_to_onnx.convert_body env model inp out w1 = (Raise e, w2) →
     convert_to_onnx.main env [prog; inp; out] w
     = (SysExit 1,
        {| fs := fs w2;
           stdout := stdout w2
             ++ [Text ("Error during ONNX export: " +:+ exn_msg e);
                 Text (nl +:+ "❌ Conversion failed!")];
           stderr := stderr w2 ++ [Traceback e] |})) ∧
  (∀ model w1 e w2,
     is_Some (fs w !! inp) →
     (extract_embeddings.banner;;
      extract_embeddings.load_and_prepare env inp out) w = (Ok model, w1) →
     extract_embeddings.extract_body env model inp out w1 = (Raise e, w2) →
     extract_embeddings.main env [prog; inp; out] w
     = (SysExit 1,
        {| fs := fs w2;
           stdout := stdout w2
             ++ [Text ("Error during extraction: " +:+ exn_msg e);
                 Text (nl +:+ "❌ Extraction failed!")];
           stderr := stderr w2 ++ [Traceback e] |})) ∧
  (∀ argv e,
     SentenceTransformer env 0 embed.MODEL_PATH = inl e →
     embed.main env argv w
     = (SysExit 1,
        {| fs := fs w;
           stdout := stdout w
             ++ [JsonText (JObj [("error",
                   JStr ("Failed to load model: " +:+ exn_msg e))])];
           stderr := stderr w |})).
Proof.
  split_and!.
  - intros model w1 e w2 Hinp Hprep Hbody.
    split_run Hprep u wb Hbanner.
    rewrite convert_main_run by done.
    unfold convert_to_onnx.convert_model_to_onnx, mbind, M_bind.
    rewrite Hbanner, Hprep. unfold try_except. rewrite Hbody.
    unfold print, print_exc, sys_exit. simpl. by rewrite <- app_assoc.
  - intros model w1 e w2 Hinp Hprep Hbody.
    split_run Hprep u wb Hbanner.
    rewrite extract_main_run by done.
    unfold extract_embeddings.extract_model_weights, mbind, M_bind.
    rewrite Hbanner, Hprep. unfold try_except. rewrite Hbody.
    unfold print, print_exc, sys_exit. simpl. by rewrite <- app_assoc.
  - intros argv e Hload.
    unfold embed.main, embed.load_model, mbind, M_bind, try_except.
    rewrite Hload. done.
Qed.

Lemma try_block_exceptions_exit_1_witness :
  let env := Sample.env_empty_pipeline in
  let w := Sample.world in
  let model := Sample.model_of [] Sample.vocab3 in
  let e := Exn IndexError "index out of range" in
  let load_error := Exn (OtherError "OSError") "no such model" in
  let wc1 := ((convert_to_onnx.banner;;
               convert_to_onnx.load_and_prepare env "model" "out") w).2 in
  let wc2 := (convert_to_onnx.convert_body env model "model" "out" wc1).2 in
  let wx1 := ((extract_embeddings.banner;;
               extract_embeddings.load_and_prepare env "model" "out") w).2 in
  let wx2 :=
    (extract_embeddings.extract_body env model "model" "out" wx1).2 in
  (is_Some (fs w !! "model") ∧
   (convert_to_onnx.banner;;
    convert_to_onnx.load_and_prepare env "model" "out") w = (Ok model, wc1) ∧
   convert_to_onnx.convert_body env model "model" "out" wc1 = (Raise e, wc2) ∧
   (extract_embeddings.banner;;
    extract_embeddings.load_and_prepare env "model" "out") w
     = (Ok model, wx1) ∧
   extract_embeddings.extract_body env model "model" "out" wx1
     = (Raise e, wx2) ∧
   SentenceTransformer env 0 embed.MODEL_PATH = inl load_error) ∧
  convert_to_onnx.main env ["convert_to_onnx.py"; "model"; "out"] w
  = (SysExit 1,
     {| fs := fs wc2;
        stdout := stdout wc2
          ++ [Text ("Error during ONNX export: " +:+ exn_msg e);
              Text (nl +:+ "❌ Conversion failed!")];
        stderr := stderr wc2 ++ [Traceback e] |}) ∧
  extract_embeddings.main env ["extract_embeddings.py"; "model"; "out"] w
  = (SysExit 1,
     {| fs := fs wx2;
        stdout := stdout wx2
          ++ [Text ("Error during extraction: " +:+ exn_msg e);
              Text (nl +:+ "❌ Extraction failed!")];
        stderr := stderr wx2 ++ [Traceback e] |}) ∧
  embed.main env ["embed.py"; "hello"] w
  = (SysExit 1,
     {| fs := fs w;
        stdout := stdout w
          ++ [JsonText (JObj [("error",
                JStr ("Failed to load model: " +:+ exn_msg load_error))])];
        stderr := stderr w |}).
Proof.
  intros env w model e load_error wc1 wc2 wx1 wx2.
  assert (is_Some (fs w !! "model")) as Hinp by (eexists; reflexivity).
  assert ((convert_to_onnx.banner;;
           convert_to_onnx.load_and_prepare env "model" "out") w
          = (Ok model, wc1)) as Hc1 by (vm_compute; reflexivity).
  assert (convert_to_onnx.convert_body env model "model" "out" wc1
          = (Raise e, wc2)) as Hc2 by (vm_compute; reflexivity).
  assert ((extract_embeddings.banner;;
           extract_embeddings.load_and_prepare env "model" "out") w
          = (Ok model, wx1)) as Hx1 by (vm_compute; reflexivity).
  assert (extract_embeddings.extract_body env model "model" "out" wx1
          = (Raise e, wx2)) as Hx2 by (vm_compute; reflexivity).
  assert (SentenceTransformer env 0 embed.MODEL_PATH = inl load_error)
    as Hload by reflexivity.
  split; [by split_and!|].
  destruct (try_block_exceptions_exit_1 env "convert_to_onnx.py" "model" "out" w)
    as (Hconv & _ & Hembed).
  destruct (try_block_exceptions_exit_1 env "extract_embeddings.py" "model"
              "out" w) as (_ & Hextr & _).
  split_and!.
  - exact (Hconv model wc1 e wc2 Hinp Hc1 Hc2).
  - exact (Hextr model wx1 e wx2 Hinp Hx1 Hx2).
  - exact (Hembed ["embed.py"; "hello"] load_error Hload).
Defined.

(** ** The embedder *)

(** Whatever happens, [embed.py] prints exactly one line, a JSON object
    with the single key [embedding] or [error]. *)
Lemma embed_prints_one_json_object env argv w :
  ∃ key value,
    stdout (embed.main env argv w).2
      = stdout w ++ [JsonText (JObj [(key, value)])] ∧
    (key = "embedding" ∨ key = "error").
Proof.
  unfold embed.main, embed.load_model, embed.generate_embedding.
  unfold mbind, M_bind, try_except.
  destruct (SentenceTransformer env 0 embed.MODEL_PATH) as [e|model]; simpl.
  { eexists _, _. split; [done|by right]. }
  destruct argv as [|prog [|text [|]]]; simpl;
    try (eexists _, _; split; [done|by right]).
  destruct (encode_text model text) as [e|embedding]; simpl.
  - eexists _, _. split; [done|by right].
  - eexists _, _. split; [done|by left].
Qed.

(** C4 fails on the code.  With a model that loads and an [encode] that
    raises, [embed.py] prints the one JSON error object the claim asks for,
    but then runs off its end: the process exits with status 0, not 1. *)
Theorem embed_generation_failure_exits_0 :
  let run :=
    embed.main Sample.env_broken ["embed.py"; "hello"] Sample.empty_world in
  run.1 = Ok () ∧
  exit_status run.1 = 0 ∧
  stdout run.2
    = [JsonText (JObj [("error",
         JStr "Failed to generate embedding: encode failed")])].
Proof. vm_compute. done. Qed.

(** The same on every generation failure: one error object and status 0. *)
Lemma embed_generation_failure_run env prog text model e w :
  SentenceTransformer env 0 embed.MODEL_PATH = inr model →
  encode_text model text = inl e →
  embed.main env [prog; text] w
  = (Ok (),
     {| fs := fs w;
        stdout := stdout w
          ++ [JsonText (JObj [("error",
                JStr ("Failed to generate embedding: " +:+ exn_msg e))])];
        stderr := stderr w |}).
Proof.
  intros Hload Hencode.
  unfold embed.main, embed.load_model, embed.generate_embedding.
  unfold mbind, M_bind, try_except. rewrite Hload. simpl.
  by rewrite Hencode.
Qed.

(** The two error paths next to it do exit with status 1: a failed load
    and a wrong number of arguments. *)
Lemma embed_other_errors_exit_1 env argv w :
  (∀ e, SentenceTransformer env 0 embed.MODEL_PATH = inl e →
        exit_status (embed.main env argv w).1 = 1) ∧
  (length argv ≠ 2%nat → exit_status (embed.main env argv w).1 = 1).
Proof.
  unfold embed.main, embed.load_model, mbind, M_bind, try_except. split.
  - by intros e ->.
  - intros Hlen.
    destruct (SentenceTransformer env 0 embed.MODEL_PATH) as [e|model];
      simpl; [done|].
    by destruct argv as [|prog [|text [|]]].
Qed.

(** ** The converter's smoke test *)

Lemma preserves_all_run {A} (c : M A) w r w' :
  (∀ p, preserves p c) → c w = (r, w') → fs w' = fs w.
Proof. intros Hp H. apply map_eq. intros p. by eapply preserves_run. Qed.

Section converter_runs.
Import convert_to_onnx.
Context (env : Env).

(** From the end of the copy loop on, nothing can stop the converter. *)
Lemma convert_completes_after_export prog inp out w model w1 w2 :
  is_Some (fs w !! inp) →
  (banner;; load_and_prepare env inp out) w = (Ok model, w1) →
  export_and_copy env model inp out w1 = (Ok (), w2) →
  ∃ w', main env [prog; inp; out] w = (Ok (), w') ∧ fs w' = fs w2.
Proof.
  intros Hinp Hprep Hexp. split_run Hprep u wb Hbanner.
  destruct (always_returns_run
              (test_onnx_model env (path_join out "model.onnx") inp)
              {| fs := fs w2;
                 stdout := stdout w2 ++ [Text "Testing ONNX model..."];
                 stderr := stderr w2 |}
              (test_onnx_model_always_returns env _ _))
    as (tested & w3 & Htest).
  eexists. rewrite convert_main_run by done.
  unfold convert_model_to_onnx, convert_body, mbind, M_bind.
  rewrite Hbanner, Hprep. unfold try_except. rewrite Hexp.
  rewrite print_run, Htest.
  split; [reflexivity|]. simpl.
  by rewrite (preserves_all_run _ _ _ _
                (λ p, test_onnx_model_preserves env p _ _) Htest).
Qed.
End converter_runs.

(** C9. The smoke test cannot change the converter's result.  Every run of
    [test_onnx_model] returns a boolean, never an exception, and
    [convert_model_to_onnx] does not look at it: once the export and the
    copy of the side files have completed, the process ends with status 0,
    and with the file system as the copy loop left it. *)
Theorem smoke_test_never_affects_result env prog inp out w model w1 w2 :
  is_Some (fs w !! inp) →
  (convert_to_onnx.banner;;
   convert_to_onnx.load_and_prepare env inp out) w = (Ok model, w1) →
  convert_to_onnx.export_and_copy env model inp out w1 = (Ok (), w2) →
  (∀ wt, ∃ tested wt',
     convert_to_onnx.test_onnx_model env (path_join out "model.onnx") inp wt
       = (Ok tested, wt') ∧ fs wt' = fs wt) ∧
  ∃ w', convert_to_onnx.main env [prog; inp; out] w = (Ok (), w') ∧
        exit_status (convert_to_onnx.main env [prog; inp; out] w).1 = 0 ∧
        fs w' = fs w2.
Proof.
  intros Hinp Hprep Hexp. split.
  - intros wt.
    destruct (always_returns_run _ wt
                (test_onnx_model_always_returns env
                   (path_join out "model.onnx") inp))
      as (tested & wt' & Htest).
    exists tested, wt'. split; [done|].
    by apply (preserves_all_run _ _ _ _
                (λ p, test_onnx_model_preserves env p _ _) Htest).
  - destruct (convert_completes_after_export env prog inp out w model w1 w2)
      as (w' & Hmain & Hfs); [done..|].
    exists w'. by rewrite Hmain.
Qed.

Lemma smoke_test_never_affects_result_witness :
  let env := Sample.env_test_fails in
  let w := Sample.world in
  let model := Sample.model in
  let w1 := ((convert_to_onnx.banner;;
              convert_to_onnx.load_and_prepare env "model" "out") w).2 in
  let w2 := (convert_to_onnx.export_and_copy env model "model" "out" w1).2 in
  let argv := ["convert_to_onnx.py"; "model"; "out"] in
  (is_Some (fs w !! "model") ∧
   (convert_to_onnx.banner;;
    convert_to_onnx.load_and_prepare env "model" "out") w = (Ok model, w1) ∧
   convert_to_onnx.export_and_copy env model "model" "out" w1 = (Ok (), w2)) ∧
  (convert_to_onnx.test_onnx_model env (path_join "out" "model.onnx") "model" w2).1
    = Ok false ∧
  (∀ wt, ∃ tested wt',
     convert_to_onnx.test_onnx_model env (path_join "out" "model.onnx")
       "model" wt = (Ok tested, wt') ∧ fs wt' = fs wt) ∧
  ∃ w', convert_to_onnx.main env argv w = (Ok (), w') ∧
        exit_status (convert_to_onnx.main env argv w).1 = 0 ∧
        fs w' = fs w2.
Proof.
  intros env w model w1 w2 argv.
  assert (is_Some (fs w !! "model")) as Hinp by (eexists; reflexivity).
  assert ((convert_to_onnx.banner;;
           convert_to_onnx.load_and_prepare env "model" "out") w
          = (Ok model, w1)) as Hprep by (vm_compute; reflexivity).
  assert (convert_to_onnx.export_and_copy env model "model" "out" w1
          = (Ok (), w2)) as Hexp by (vm_compute; reflexivity).
  split; [by split_and!|].
  split; [vm_compute; reflexivity|].
  exact (smoke_test_never_affects_result env "convert_to_onnx.py" "model" "out"
           w model w1 w2 Hinp Hprep Hexp).
Defined.

(** ** Conversion without a normalization stage *)

Lemma read_file_run env p f w :
  io_fault env OpRead p = None → fs w !! p = Some f → f ≠ FDir →
  read_file env p w = (Ok f, w).
Proof.
  intros H Hp Hf. unfold read_file, io_check. rewrite H.
  unfold mbind, M_bind, get_fs, from_option_none, mret, M_ret. rewrite Hp.
  by destruct f.
Qed.

Lemma bind_assoc {A B C} (c : M A) (f : A → M B) (g : B → M C) w :
  ((c ≫= f) ≫= g) w = (c ≫= λ a, f a ≫= g) w.
Proof. unfold mbind, M_bind. by destruct (c w) as [[a|e|n] w1]. Qed.

Section converter_export.
Import convert_to_onnx.
Context (env : Env).

(** Lines 58 to 60: the second module when there is one. *)
Lemma normalize_module_run model w :
  (if bool_decide (1 < length (modules model))%nat then
     second ← model_getitem model 1;
     mret (Some second)
   else mret None) w = (Ok (modules model !! 1%nat), w).
Proof.
  case_bool_decide as Hlen.
  - destruct (lookup_lt_is_Some_2 (modules model) 1 Hlen) as [second Hsecond].
    unfold model_getitem. by rewrite Hsecond.
  - rewrite lookup_ge_None_2; [done|lia].
Qed.
End converter_export.

Lemma wrapper_forward_embed_only se ids :
  convert_to_onnx.wrapper_forward
    {| static_embedding := se; normalize := None |} ids
  = embed_only se ids.
Proof.
  unfold convert_to_onnx.wrapper_forward, embed_only. simpl.
  by destruct (forward se _).
Qed.

(** C7 fails on the code.  A model2vec model as the framework loads it is
    one module, a [StaticEmbedding], with no normalization module after it.
    That module is an embedding bag: its forward pass reads
    [features['input_ids']] and [features['offsets']], and on the two it
    returns the sentence embedding.  The wrapper's [forward] hands it a
    dictionary with the single key ['input_ids'], so the forward pass that
    the exporter traces raises [KeyError].  The [except] clause prints the
    error and the traceback, and the converter ends with status 1: the
    output directory is made, and no [model.onnx] is in it. *)
Theorem conversion_of_static_embedding_fails :
  let env := Sample.env_bag in
  let run :=
    convert_to_onnx.main env ["convert_to_onnx.py"; "model"; "out"]
      Sample.world in
  let wrapper := {| static_embedding := Sample.embedding_bag;
                    normalize := None |} in
  let features : gmap string Tensor :=
    <["offsets" := Sample.offsets]> {["input_ids" := torch_randint env]} in
  let e := Exn KeyError "'offsets'" in
  SentenceTransformer env 0 "model" = inr Sample.model_bag ∧
  modules Sample.model_bag = [Sample.embedding_bag] ∧
  forward Sample.embedding_bag features
    = inr (<["sentence_embedding" := Sample.sentence]> features) ∧
  convert_to_onnx.wrapper_forward wrapper (torch_randint env) = inl e ∧
  run.1 = SysExit 1 ∧
  exit_status run.1 = 1 ∧
  fs run.2 = <["out" := FDir]> (fs Sample.world) ∧
  fs run.2 !! path_join "out" "model.onnx" = None ∧
  stdout run.2
    = [Text "Model2vec to ONNX Converter"; Text rule40;
       Text "Loading model from: model"; Text "Converting to ONNX...";
       Text ("Model modules: " +:+ py_str env (PStrs ["StaticEmbedding"]));
       Text "Error during ONNX export: 'offsets'";
       Text (nl +:+ "❌ Conversion failed!")] ∧
  stderr run.2 = [Traceback e].
Proof. intros env run wrapper features e. split_and!; vm_compute; reflexivity. Qed.

(** * Further properties of the scripts *)

(** ** What the scripts do to the file system *)

(** Walks through a block down to the primitives; [Hins] is the fact that
    the relation admits every insertion. *)
Ltac respects_step Hins :=
  lazymatch goal with
  | |- PreOrder _ => apply _
  | |- respects _ (_ ≫= _) => apply respects_bind; [..|intros ?]
  | |- respects _ (try_except _ _) => apply respects_try_except; [..|intros ?]
  | |- respects _ (for_each _ _) => apply respects_for_each; [..|intros ? ?]
  | |- respects _ (let _ := _ in _) => cbv zeta
  | |- respects _ (if ?b then _ else _) => destruct b
  | |- respects _ (match ?x with _ => _ end) => destruct x
  | |- respects _ (mret _) => apply respects_ret
  | |- respects _ (raise _) => apply respects_raise
  | |- respects _ (sys_exit _) => apply respects_sys_exit
  | |- respects _ (lift _) => apply respects_lift
  | |- respects _ (from_option _ _) => apply respects_from_option
  | |- respects _ (from_option_none _) => apply respects_from_option_none
  | |- respects _ (print _) => apply respects_print
  | |- respects _ (print_json _) => apply respects_print_json
  | |- respects _ (print_exc _) => apply respects_print_exc
  | |- respects _ get_fs => apply respects_get_fs
  | |- respects _ (set_fs _) =>
      apply respects_set_fs_insert; intros ?; apply Hins
  | |- respects _ _ =>
      progress unfold io_check, path_exists, makedirs, make_dir, write_file,
        read_file, np_save, np_load, json_dump, json_load, py_len, copy2,
        copy_files, model_getitem,
        extract_embeddings.main, extract_embeddings.banner,
        extract_embeddings.extract_model_weights,
        extract_embeddings.load_and_prepare,
        extract_embeddings.extract_body,
        extract_embeddings.test_extraction,
        extract_embeddings.create_go_embedding_data,
        convert_to_onnx.main, convert_to_onnx.banner,
        convert_to_onnx.convert_model_to_onnx,
        convert_to_onnx.load_and_prepare, convert_to_onnx.convert_body,
        convert_to_onnx.export_and_copy, convert_to_onnx.torch_onnx_export,
        convert_to_onnx.test_onnx_model,
        embed.main, embed.load_model, embed.generate_embedding
  end.

#[export] Instance keeps_paths_preorder : PreOrder keeps_paths.
Proof. split; [by intros m p|]. intros m1 m2 m3 H1 H2 p Hp. auto. Qed.

Lemma keeps_paths_insert (m : gmap string File) p f :
  keeps_paths m (<[p := f]> m).
Proof.
  intros q Hq. destruct (decide (p = q)) as [->|Hne].
  - rewrite lookup_insert_eq. eauto.
  - by rewrite lookup_insert_ne.
Qed.

(** X1. None of the three scripts ever removes anything: whatever the
    command line, the environment and the outcome of the run, a path that
    exists before the run exists after it. *)
Theorem scripts_never_delete env argv w p :
  is_Some (fs w !! p) →
  is_Some (fs (extract_embeddings.main env argv w).2 !! p) ∧
  is_Some (fs (convert_to_onnx.main env argv w).2 !! p) ∧
  is_Some (fs (embed.main env argv w).2 !! p).
Proof.
  intros Hp.
  assert (respects keeps_paths (extract_embeddings.main env argv)) as Hx.
  { destruct argv as [|a0 [|a1 [|a2 [|]]]];
      repeat respects_step keeps_paths_insert. }
  assert (respects keeps_paths (convert_to_onnx.main env argv)) as Hc.
  { destruct argv as [|a0 [|a1 [|a2 [|]]]];
      repeat respects_step keeps_paths_insert. }
  assert (respects keeps_paths (embed.main env argv)) as He.
  { repeat respects_step keeps_paths_insert. }
  split_and!; [by apply Hx|by apply Hc|by apply He].
Qed.

Lemma scripts_never_delete_witness :
  let env := Sample.env in
  let argv := ["script.py"; "model"; "out"] in
  let w := Sample.world in
  is_Some (fs w !! "model") ∧
  is_Some (fs (extract_embeddings.main env argv w).2 !! "model") ∧
  is_Some (fs (convert_to_onnx.main env argv w).2 !! "model") ∧
  is_Some (fs (embed.main env argv w).2 !! "model").
Proof.
  intros env argv w.
  assert (is_Some (fs w !! "model")) as Hp by (eexists; reflexivity).
  split; [exact Hp|].
  exact (scripts_never_delete env argv w "model" Hp).
Defined.

(** ** Where the scripts write *)

Lemma in_extractor_writes out name :
  name ∈ extractor_outputs ++ (nested <$> extractor_side_files) →
  path_join out name ∈ extractor_writes out.
Proof. apply list_elem_of_fmap_2. Qed.

Lemma in_converter_writes out name :
  name ∈ converter_outputs ++ (nested <$> converter_side_files) →
  path_join out name ∈ converter_writes out.
Proof. apply list_elem_of_fmap_2. Qed.

(** Walks through a [main] down to [os.makedirs]; every other block is left
    as a frame condition. *)
Ltac dirs_step :=
  lazymatch goal with
  | |- PreOrder _ => apply _
  | |- respects _ (makedirs _ _) => apply makedirs_respects
  | |- respects _ (_ ≫= _) => apply respects_bind; [..|intros ?]
  | |- respects _ (if ?b then _ else _) => destruct b
  | |- respects _ _ => apply preserves_respects
  end.

(** Discharges the path conditions that [frame] leaves, from the fact [Hp]
    that [p] is not among the paths written; [Hin] takes a name to its
    place in that list. *)
Ltac not_written Hp Hin :=
  lazymatch goal with
  | |- ∀ f, f ∈ _ → _ ∧ _ =>
      let f := fresh "f" in
      let Hf := fresh "Hf" in
      intros f Hf; elem_cases Hf; split;
      rewrite ?path_join_nested_name by literal_name;
      intros <-; apply Hp, Hin; vm_compute; repeat constructor
  | |- path_join _ _ ≠ _ =>
      intros <-; apply Hp, Hin; vm_compute; repeat constructor
  end.

Lemma extract_main_respects env prog inp out p :
  p ∉ extractor_writes out →
  respects (kept_or_made (made_dirs out) p)
    (extract_embeddings.main env [prog; inp; out]).
Proof.
  intros Hp.
  unfold extract_embeddings.main, extract_embeddings.banner,
    extract_embeddings.extract_model_weights,
    extract_embeddings.load_and_prepare.
  repeat dirs_step;
    unfold extract_embeddings.extract_body,
      extract_embeddings.create_go_embedding_data;
    frame; try apply test_extraction_preserves;
    not_written Hp in_extractor_writes.
Qed.

Lemma convert_main_respects env prog inp out p :
  p ∉ converter_writes out →
  respects (kept_or_made (made_dirs out) p)
    (convert_to_onnx.main env [prog; inp; out]).
Proof.
  intros Hp.
  unfold convert_to_onnx.main, convert_to_onnx.banner,
    convert_to_onnx.convert_model_to_onnx, convert_to_onnx.load_and_prepare.
  repeat dirs_step;
    unfold convert_to_onnx.convert_body, convert_to_onnx.export_and_copy,
      convert_to_onnx.torch_onnx_export;
    frame; try apply test_onnx_model_preserves;
    not_written Hp in_converter_writes.
Qed.

(** X2. The extractor writes files at the paths [extractor_writes] only:
    its seven outputs below the output directory and, for a side file whose
    destination is a directory, the place inside that directory.  Whatever
    the outcome of the run, every other path holds afterwards what it held
    before, unless it is the output directory or a directory above it that
    was missing, which has then been made.  The model directory is only
    read. *)
Theorem extractor_writes_only_its_outputs env prog inp out w p :
  p ∉ extractor_writes out →
  let after := fs (extract_embeddings.main env [prog; inp; out] w).2 in
  (after !! p = fs w !! p ∨
   (p ∈ made_dirs out ∧ fs w !! p = None ∧ after !! p = Some FDir)) ∧
  (p ∉ made_dirs out → after !! p = fs w !! p).
Proof.
  intros Hp after.
  pose proof (extract_main_respects env prog inp out p Hp w) as H.
  split; [exact H|]. intros Hdirs. by destruct H as [H|[? _]].
Qed.

(** X3. The converter writes files at the paths [converter_writes] only:
    [model.onnx] and the three side files below the output directory and,
    for a side file whose destination is a directory, the place inside that
    directory.  Whatever the outcome of the run, every other path holds
    afterwards what it held before, unless it is the output directory or a
    directory above it that was missing, which has then been made. *)
Theorem converter_writes_only_its_outputs env prog inp out w p :
  p ∉ converter_writes out →
  let after := fs (convert_to_onnx.main env [prog; inp; out] w).2 in
  (after !! p = fs w !! p ∨
   (p ∈ made_dirs out ∧ fs w !! p = None ∧ after !! p = Some FDir)) ∧
  (p ∉ made_dirs out → after !! p = fs w !! p).
Proof.
  intros Hp after.
  pose proof (convert_main_respects env prog inp out p Hp w) as H.
  split; [exact H|]. intros Hdirs. by destruct H as [H|[? _]].
Qed.

Lemma extractor_writes_only_its_outputs_witness :
  let env := Sample.env in
  let w := Sample2.world_with_side_files in
  let out := "build/out" in
  let after :=
    fs (extract_embeddings.main env ["extract_embeddings.py"; "model"; out]
          w).2 in
  (("model/tokenizer.json" ∉ extractor_writes out) ∧
   ("build" ∉ extractor_writes out)) ∧
  after !! "model/tokenizer.json" = fs w !! "model/tokenizer.json" ∧
  (after !! "build" = fs w !! "build" ∨
   ("build" ∈ made_dirs out ∧ fs w !! "build" = None ∧
    after !! "build" = Some FDir)).
Proof.
  intros env w out after.
  assert ("model/tokenizer.json" ∉ extractor_writes out) as Hfile
    by compute_done.
  assert ("build" ∉ extractor_writes out) as Hdir
    by compute_done.
  assert ("model/tokenizer.json" ∉ made_dirs out) as Hnot
    by compute_done.
  split; [by split|]. split.
  - exact (proj2 (extractor_writes_only_its_outputs env
                    "extract_embeddings.py" "model" out w
                    "model/tokenizer.json" Hfile) Hnot).
  - exact (proj1 (extractor_writes_only_its_outputs env
                    "extract_embeddings.py" "model" out w "build" Hdir)).
Defined.

Lemma converter_writes_only_its_outputs_witness :
  let env := Sample.env in
  let w := Sample2.world_with_side_files in
  let out := "build/out" in
  let after :=
    fs (convert_to_onnx.main env ["convert_to_onnx.py"; "model"; out] w).2 in
  (("model/tokenizer.json" ∉ converter_writes out) ∧
   ("build" ∉ converter_writes out)) ∧
  after !! "model/tokenizer.json" = fs w !! "model/tokenizer.json" ∧
  (after !! "build" = fs w !! "build" ∨
   ("build" ∈ made_dirs out ∧ fs w !! "build" = None ∧
    after !! "build" = Some FDir)).
Proof.
  intros env w out after.
  assert ("model/tokenizer.json" ∉ converter_writes out) as Hfile
    by compute_done.
  assert ("build" ∉ converter_writes out) as Hdir
    by compute_done.
  assert ("model/tokenizer.json" ∉ made_dirs out) as Hnot
    by compute_done.
  split; [by split|]. split.
  - exact (proj2 (converter_writes_only_its_outputs env
                    "convert_to_onnx.py" "model" out w
                    "model/tokenizer.json" Hfile) Hnot).
  - exact (proj1 (converter_writes_only_its_outputs env
                    "convert_to_onnx.py" "model" out w "build" Hdir)).
Defined.

(** In that run the directory above the output directory is made. *)
Example nested_output_directory :
  let run :=
    extract_embeddings.main Sample.env
      ["extract_embeddings.py"; "model"; "build/out"]
      Sample2.world_with_side_files in
  run.1 = Ok () ∧
  fs Sample2.world_with_side_files !! "build" = None ∧
  fs run.2 !! "build" = Some FDir ∧
  fs run.2 !! "build/out" = Some FDir.
Proof. vm_compute. done. Qed.

(** ** Exit statuses *)

Lemma exits_only_with_1_never_exits {A} (c : M A) :
  never_exits c → exits_only_with_1 c.
Proof. intros H w n Hn. by destruct (H w n). Qed.

Lemma exits_only_with_1_sys_exit {A} : exits_only_with_1 (@sys_exit A 1).
Proof. intros w n [= <-]. done. Qed.

Lemma exits_only_with_1_bind {A B} (c : M A) (f : A → M B) :
  exits_only_with_1 c → (∀ a, exits_only_with_1 (f a)) →
  exits_only_with_1 (c ≫= f).
Proof.
  intros Hc Hf w n. specialize (Hc w). unfold mbind, M_bind.
  destruct (c w) as [[a|e|k] w1]; simpl in *; [apply Hf|done|].
  intros [= <-]. by apply Hc.
Qed.

Lemma exits_only_with_1_try_except {A} (c : M A) (h : exn → M A) :
  exits_only_with_1 c → (∀ e, exits_only_with_1 (h e)) →
  exits_only_with_1 (try_except c h).
Proof.
  intros Hc Hh w n. specialize (Hc w). unfold try_except.
  destruct (c w) as [[a|e|k] w1]; simpl in *; [done|apply Hh|apply Hc].
Qed.

Lemma exit_status_0_or_1 {A} (c : M A) w :
  exits_only_with_1 c →
  exit_status (c w).1 = 0 ∨ exit_status (c w).1 = 1.
Proof.
  intros H. specialize (H w). destruct (c w).1 as [a|e|n]; simpl; auto.
Qed.

Section exit_statuses.
Context (env : Env).

Lemma create_go_embedding_data_never_exits out :
  never_exits (extract_embeddings.create_go_embedding_data env out).
Proof. unfold extract_embeddings.create_go_embedding_data. noexit. Qed.

Lemma test_onnx_model_never_exits onnx_path inp :
  never_exits (convert_to_onnx.test_onnx_model env onnx_path inp).
Proof. unfold convert_to_onnx.test_onnx_model. noexit. Qed.

Lemma convert_model_to_onnx_never_exits inp out :
  never_exits (convert_to_onnx.convert_model_to_onnx env inp out).
Proof.
  unfold convert_to_onnx.convert_model_to_onnx,
    convert_to_onnx.load_and_prepare, convert_to_onnx.convert_body,
    convert_to_onnx.export_and_copy, convert_to_onnx.torch_onnx_export.
  noexit; apply test_onnx_model_never_exits.
Qed.

Lemma extract_main_exits_only_with_1 argv :
  exits_only_with_1 (extract_embeddings.main env argv).
Proof.
  unfold extract_embeddings.main, extract_embeddings.banner.
  destruct argv as [|a0 [|a1 [|a2 [|]]]];
    repeat first
      [ apply exits_only_with_1_sys_exit
      | apply exits_only_with_1_never_exits;
        first [ apply extract_model_weights_never_exits
              | apply create_go_embedding_data_never_exits ]
      | apply exits_only_with_1_bind; [|intros ?]
      | apply exits_only_with_1_never_exits; solve [noexit]
      | match goal with |- exits_only_with_1 (if ?b then _ else _) =>
          destruct b end ].
Qed.

Lemma convert_main_exits_only_with_1 argv :
  exits_only_with_1 (convert_to_onnx.main env argv).
Proof.
  unfold convert_to_onnx.main, convert_to_onnx.banner.
  destruct argv as [|a0 [|a1 [|a2 [|]]]];
    repeat first
      [ apply exits_only_with_1_sys_exit
      | apply exits_only_with_1_never_exits;
        apply convert_model_to_onnx_never_exits
      | apply exits_only_with_1_bind; [|intros ?]
      | apply exits_only_with_1_never_exits; solve [noexit]
      | match goal with |- exits_only_with_1 (if ?b then _ else _) =>
          destruct b end ].
Qed.

Lemma embed_main_exits_only_with_1 argv :
  exits_only_with_1 (embed.main env argv).
Proof.
  unfold embed.main, embed.load_model, embed.generate_embedding.
  destruct argv as [|a0 [|a1 [|]]];
    repeat first
      [ apply exits_only_with_1_sys_exit
      | apply exits_only_with_1_bind; [|intros ?]
      | apply exits_only_with_1_try_except; [|intros ?]
      | apply exits_only_with_1_never_exits; solve [noexit] ].
Qed.
End exit_statuses.

(** X4. The exit status of each of the three scripts is 0 or 1, on every
    command line and in every environment: the only [sys.exit] they reach is
    [sys.exit(1)], and an exception that escapes ends the process with
    status 1. *)
Theorem scripts_exit_with_0_or_1 env argv w :
  (exit_status (extract_embeddings.main env argv w).1 = 0 ∨
   exit_status (extract_embeddings.main env argv w).1 = 1) ∧
  (exit_status (convert_to_onnx.main env argv w).1 = 0 ∨
   exit_status (convert_to_onnx.main env argv w).1 = 1) ∧
  (exit_status (embed.main env argv w).1 = 0 ∨
   exit_status (embed.main env argv w).1 = 1).
Proof.
  split_and!; apply exit_status_0_or_1.
  - apply extract_main_exits_only_with_1.
  - apply convert_main_exits_only_with_1.
  - apply embed_main_exits_only_with_1.
Qed.

(** ** Which exceptions escape *)

(** One statement forward, given its run. *)
Tactic Notation "run_step" open_constr(lem) :=
  rewrite ?bind_assoc; rewrite (bind_run_Ok _ _ _ _ _ lem).

Lemma bind_fst_Raise {A B} (c : M A) (f : A → M B) w e :
  (c w).1 = Raise e → ((c ≫= f) w).1 = Raise e.
Proof.
  unfold mbind, M_bind. destruct (c w) as [r w1]. simpl. by intros ->.
Qed.

Lemma bind_fst_Ok {A B} (c : M A) (f : A → M B) w a :
  (c w).1 = Ok a → (c ≫= f) w = f a (c w).2.
Proof.
  unfold mbind, M_bind. destruct (c w) as [r w1]. simpl. by intros ->.
Qed.

Lemma always_returns_print_exc e : always_returns (print_exc e).
Proof. intros w. by exists (). Qed.

Lemma makedirs_never_exits env p : never_exits (makedirs env p).
Proof. unfold makedirs. noexit. Qed.

(** The call of [os.makedirs] inside a run sees the file system the run
    started with: only [print] comes before it. *)
Lemma makedirs_after_prints {B} env out (k : unit → M B) w w1 :
  fs w1 = fs w →
  match (makedirs env out w).1 with
  | Ok _ => ∃ w2, (makedirs env out ≫= k) w1 = k () w2 ∧
                  fs w2 = fs (makedirs env out w).2 ∧
                  stdout w2 = stdout w1 ∧ stderr w2 = stderr w1
  | Raise e => ((makedirs env out ≫= k) w1).1 = Raise e
  | SysExit _ => False
  end.
Proof.
  intros Hfs.
  destruct (makedirs_same_fs env out w1 w Hfs) as [Hr Hfs'].
  destruct (makedirs_console env out w1) as [Hout Herr].
  pose proof (makedirs_never_exits env out w) as Hexit.
  unfold mbind, M_bind.
  destruct (makedirs env out w1) as [r w2]. simpl in *. rewrite <- Hr.
  destruct r as [[]|e|n]; [by exists w2|done|].
  symmetry in Hr. exact (Hexit n Hr).
Qed.

Section escaping.
Context (env : Env).

Lemma convert_try_always_returns model inp out :
  always_returns
    (try_except (convert_to_onnx.convert_body env model inp out)
       (λ e,
          print ("Error during ONNX export: " +:+ exn_msg e);;
          print_exc e;;
          mret false)).
Proof.
  apply always_returns_try_except.
  - unfold convert_to_onnx.convert_body, convert_to_onnx.export_and_copy,
      convert_to_onnx.torch_onnx_export.
    noexit; apply test_onnx_model_never_exits.
  - intros e. apply always_returns_bind; [apply always_returns_print|].
    intros _. apply always_returns_bind; [apply always_returns_print_exc|].
    intros _. apply always_returns_ret.
Qed.

Lemma extract_try_always_returns model inp out :
  always_returns
    (try_except (extract_embeddings.extract_body env model inp out)
       (λ e,
          print ("Error during extraction: " +:+ exn_msg e);;
          print_exc e;;
          mret false)).
Proof.
  apply always_returns_try_except.
  - unfold extract_embeddings.extract_body.
    noexit; apply test_extraction_never_exits.
  - intros e. apply always_returns_bind; [apply always_returns_print|].
    intros _. apply always_returns_bind; [apply always_returns_print_exc|].
    intros _. apply always_returns_ret.
Qed.

(** How [convert_model_to_onnx] ends, read off the load and the making of
    the output directory. *)
Lemma convert_model_to_onnx_cases inp out w0 w :
  fs w0 = fs w →
  match SentenceTransformer env 0 inp with
  | inl e => (convert_to_onnx.convert_model_to_onnx env inp out w0).1 = Raise e
  | inr _ =>
      match (makedirs env out w).1 with
      | Raise e =>
          (convert_to_onnx.convert_model_to_onnx env inp out w0).1 = Raise e
      | _ =>
          ∃ b, (convert_to_onnx.convert_model_to_onnx env inp out w0).1 = Ok b
      end
  end.
Proof.
  intros Hfs.
  unfold convert_to_onnx.convert_model_to_onnx,
    convert_to_onnx.load_and_prepare.
  destruct (SentenceTransformer env 0 inp) as [e|model] eqn:Hload.
  { apply bind_fst_Raise. rewrite (bind_run_Ok _ _ _ _ _ (print_run _ _)).
    by apply bind_fst_Raise. }
  run_step (print_run ("Loading model from: " +:+ inp) w0). simpl lift.
  run_step (eq_refl : (mret model : M _) _ = (Ok model, _)).
  run_step (print_run "Converting to ONNX..."
              {| fs := fs w0;
                 stdout := stdout w0 ++ [Text ("Loading model from: " +:+ inp)];
                 stderr := stderr w0 |}).
  rewrite ?bind_assoc.
  match goal with
  | |- context [(makedirs env out ≫= ?k) ?w1] =>
      pose proof (makedirs_after_prints env out k w w1 Hfs) as Hmk
  end.
  destruct (makedirs env out w).1 as [[]|e|n]; [|done..].
  destruct Hmk as (w2 & -> & _).
  run_step (eq_refl : (mret model : M _) _ = (Ok model, _)).
  apply convert_try_always_returns.
Qed.

Lemma extract_model_weights_cases inp out w0 w :
  fs w0 = fs w →
  match SentenceTransformer env 0 inp with
  | inl e =>
      (extract_embeddings.extract_model_weights env inp out w0).1 = Raise e
  | inr _ =>
      match (makedirs env out w).1 with
      | Raise e =>
          (extract_embeddings.extract_model_weights env inp out w0).1 = Raise e
      | _ =>
          ∃ b, (extract_embeddings.extract_model_weights env inp out w0).1
               = Ok b
      end
  end.
Proof.
  intros Hfs.
  unfold extract_embeddings.extract_model_weights,
    extract_embeddings.load_and_prepare.
  destruct (SentenceTransformer env 0 inp) as [e|model] eqn:Hload.
  { apply bind_fst_Raise. rewrite (bind_run_Ok _ _ _ _ _ (print_run _ _)).
    by apply bind_fst_Raise. }
  run_step (print_run ("Loading model from: " +:+ inp) w0). simpl lift.
  run_step (eq_refl : (mret model : M _) _ = (Ok model, _)).
  run_step (print_run "Extracting model components..."
              {| fs := fs w0;
                 stdout := stdout w0 ++ [Text ("Loading model from: " +:+ inp)];
                 stderr := stderr w0 |}).
  rewrite ?bind_assoc.
  match goal with
  | |- context [(makedirs env out ≫= ?k) ?w1] =>
      pose proof (makedirs_after_prints env out k w w1 Hfs) as Hmk
  end.
  destruct (makedirs env out w).1 as [[]|e|n]; [|done..].
  destruct Hmk as (w2 & -> & _).
  run_step (eq_refl : (mret model : M _) _ = (Ok model, _)).
  apply extract_try_always_returns.
Qed.
End escaping.

(** X5. Once the converter has accepted its command line, an exception
    escapes it in exactly two ways: the model load raises it, or the model
    loads and [os.makedirs] raises it on the file system the run started
    with, because a file is in the place of the output directory or of a
    directory above it, or because the operating system refuses.  Nothing
    raised by the export, the copy of the side files or the smoke test gets
    out. *)
Theorem converter_escaping_exceptions env prog inp out w e :
  is_Some (fs w !! inp) →
  (convert_to_onnx.main env [prog; inp; out] w).1 = Raise e ↔
  SentenceTransformer env 0 inp = inl e ∨
  (∃ model, SentenceTransformer env 0 inp = inr model ∧
            (makedirs env out w).1 = Raise e).
Proof.
  intros Hinp. rewrite convert_main_run by done.
  rewrite (bind_run_Ok _ _ _ _ _
             (eq_refl : convert_to_onnx.banner w
                        = (Ok (), (convert_to_onnx.banner w).2))).
  pose proof (convert_model_to_onnx_cases env inp out
                (convert_to_onnx.banner w).2 w eq_refl) as Hcases.
  destruct (SentenceTransformer env 0 inp) as [e'|model].
  - rewrite (bind_fst_Raise _ _ _ _ Hcases). split.
    + intros [= ->]. by left.
    + intros [[= ->]|(? & [=] & _)]. done.
  - destruct (makedirs env out w).1 as [[]|e'|n] eqn:Hmk.
    + destruct Hcases as [b Hb]. rewrite (bind_fst_Ok _ _ _ _ Hb). split.
      * by destruct b.
      * intros [[=]|(? & _ & [=])].
    + rewrite (bind_fst_Raise _ _ _ _ Hcases). split.
      * intros [= ->]. right. eauto.
      * intros [[=]|(? & _ & [= ->])]. done.
    + by destruct (makedirs_never_exits env out w n).
Qed.

Lemma converter_escaping_exceptions_witness :
  let env := Sample.env in
  let w := Sample2.world_with_side_files in
  let out := "model/config.json" in
  let e := Exn FileExistsError out in
  let argv := ["convert_to_onnx.py"; "model"; out] in
  is_Some (fs w !! "model") ∧
  (makedirs env out w).1 = Raise e ∧
  (convert_to_onnx.main env argv w).1 = Raise e ∧
  ((convert_to_onnx.main env argv w).1 = Raise e ↔
   SentenceTransformer env 0 "model" = inl e ∨
   (∃ model, SentenceTransformer env 0 "model" = inr model ∧
             (makedirs env out w).1 = Raise e)).
Proof.
  intros env w out e argv.
  assert (is_Some (fs w !! "model")) as Hinp by (eexists; reflexivity).
  split; [exact Hinp|].
  split; [vm_compute; reflexivity|].
  split; [vm_compute; reflexivity|].
  exact (converter_escaping_exceptions env "convert_to_onnx.py" "model" out
           w e Hinp).
Defined.

(** After [extract_model_weights] has returned, only
    [create_go_embedding_data] can raise. *)
Lemma extract_tail_raises env out (b : bool) w1 e :
  ((if b then
      print (nl +:+ "Creating Go-friendly data files...");;
      extract_embeddings.create_go_embedding_data env out;;
      print (nl +:+ "✅ Extraction completed successfully!");;
      print ("Extracted data available at: " +:+ out)
    else
      print (nl +:+ "❌ Extraction failed!");;
      sys_exit 1) w1).1 = Raise e ↔
  b = true ∧
  (extract_embeddings.create_go_embedding_data env out
     (print (nl +:+ "Creating Go-friendly data files...") w1).2).1 = Raise e.
Proof.
  destruct b; [|by split; [|intros [? _]]].
  rewrite (bind_run_Ok _ _ _ _ _ (print_run _ w1)).
  unfold mbind, M_bind. rewrite ?print_run. simpl snd.
  destruct (extract_embeddings.create_go_embedding_data env out _)
    as [[u|e'|n] w2]; simpl; split; (done || by intros [_ ?]).
Qed.

(** X6. Once the extractor has accepted its command line, an exception
    escapes it in exactly three ways: the model load raises it, the model
    loads and [os.makedirs] raises it on the file system the run started
    with, or the extraction returns [True] and [create_go_embedding_data],
    which runs under no [try], raises it. *)
Theorem extractor_escaping_exceptions env prog inp out w e :
  let start := (extract_embeddings.banner w).2 in
  is_Some (fs w !! inp) →
  (extract_embeddings.main env [prog; inp; out] w).1 = Raise e ↔
  SentenceTransformer env 0 inp = inl e ∨
  (∃ model, SentenceTransformer env 0 inp = inr model ∧
            (makedirs env out w).1 = Raise e) ∨
  (∃ w1,
     extract_embeddings.extract_model_weights env inp out start
       = (Ok true, w1) ∧
     (extract_embeddings.create_go_embedding_data env out
        (print (nl +:+ "Creating Go-friendly data files...") w1).2).1
       = Raise e).
Proof.
  intros start Hinp. rewrite extract_main_run by done.
  rewrite (bind_run_Ok _ _ _ _ _
             (eq_refl : extract_embeddings.banner w = (Ok (), start))).
  pose proof (extract_model_weights_cases env inp out start w eq_refl)
    as Hcases.
  destruct (SentenceTransformer env 0 inp) as [e'|model].
  { rewrite (bind_fst_Raise _ _ _ _ Hcases). split.
    - intros [= ->]. by left.
    - intros [[= ->]|[(? & [=] & _)|(w1 & Hw1 & _)]]; [done|].
      by rewrite Hw1 in Hcases. }
  destruct (makedirs env out w).1 as [[]|e'|n] eqn:Hmk.
  - destruct Hcases as [b Hb]. rewrite (bind_fst_Ok _ _ _ _ Hb).
    rewrite extract_tail_raises. split.
    + intros [-> Hgo]. right. right.
      exists (extract_embeddings.extract_model_weights env inp out start).2.
      split; [|done].
      destruct (extract_embeddings.extract_model_weights env inp out start).
      simpl in *. by subst.
    + intros [[=]|[(? & _ & [=])|(w1 & Hw1 & Hgo)]].
      rewrite Hw1 in Hb |- *. simpl in *. by injection Hb as <-.
  - rewrite (bind_fst_Raise _ _ _ _ Hcases). split.
    + intros [= ->]. right. left. eauto.
    + intros [[=]|[(? & _ & [= ->])|(w1 & Hw1 & _)]]; [done|].
      by rewrite Hw1 in Hcases.
  - by destruct (makedirs_never_exits env out w n).
Qed.

Lemma extractor_escaping_exceptions_witness :
  let env := Sample.env_disk_full in
  let w := Sample.world in
  let e := Exn (OtherError "OSError") "No space left on device" in
  let argv := ["extract_embeddings.py"; "model"; "out"] in
  let start := (extract_embeddings.banner w).2 in
  is_Some (fs w !! "model") ∧
  (extract_embeddings.main env argv w).1 = Raise e ∧
  ((extract_embeddings.main env argv w).1 = Raise e ↔
   SentenceTransformer env 0 "model" = inl e ∨
   (∃ model, SentenceTransformer env 0 "model" = inr model ∧
             (makedirs env "out" w).1 = Raise e) ∨
   (∃ w1,
      extract_embeddings.extract_model_weights env "model" "out" start
        = (Ok true, w1) ∧
      (extract_embeddings.create_go_embedding_data env "out"
         (print (nl +:+ "Creating Go-friendly data files...") w1).2).1
        = Raise e)).
Proof.
  intros env w e argv start.
  assert (is_Some (fs w !! "model")) as Hinp by (eexists; reflexivity).
  split; [exact Hinp|]. split; [vm_compute; reflexivity|].
  exact (extractor_escaping_exceptions env "extract_embeddings.py" "model"
           "out" w e Hinp).
Defined.

(** ** The embedder's one line *)

(** X7. Every invocation of [embed.py] appends exactly one line to standard
    output, a JSON object with a single key, and leaves standard error and
    the file system alone.  The key is [embedding] exactly when the model
    loads, the command line has one argument and [encode] returns; the value
    is then the vector [encode] returned, element by element.  In every
    other case the key is [error]. *)
Theorem embed_prints_one_object env argv w :
  ∃ key value,
    (embed.main env argv w).2
    = {| fs := fs w;
         stdout := stdout w ++ [JsonText (JObj [(key, value)])];
         stderr := stderr w |} ∧
    (key = "embedding" ∨ key = "error") ∧
    (key = "embedding" ↔
     ∃ model prog text vector,
       SentenceTransformer env 0 embed.MODEL_PATH = inr model ∧
       argv = [prog; text] ∧
       encode_text model text = inr vector ∧
       value = JArr (JFloat <$> vector)).
Proof.
  unfold embed.main, embed.load_model, embed.generate_embedding.
  unfold mbind, M_bind, try_except.
  destruct (SentenceTransformer env 0 embed.MODEL_PATH) as [e|model]; simpl.
  { eexists _, _. split_and!; [done|by right|].
    split; [done|]. by intros (? & ? & ? & ? & [=] & _). }
  destruct argv as [|prog [|text [|]]]; simpl;
    try (eexists _, _; split_and!; [done|by right|];
         split; [done|]; by intros (? & ? & ? & ? & _ & [=] & _)).
  destruct (encode_text model text) as [e|vector] eqn:Hencode; simpl.
  - eexists _, _. split_and!; [done|by right|].
    split; [done|]. intros (? & ? & ? & ? & [= <-] & [= <- <-] & Hv & _).
    by rewrite Hencode in Hv.
  - eexists _, _. split_and!; [done|by left|].
    split; [|done]. intros _. by exists model, prog, text, vector.
Qed.

(** X8. [embed.py] ends with status 1 exactly when the model does not load
    or the command line does not have exactly one argument; with a loaded
    model and one argument the status is 0, also when [encode] raises and
    the line printed is an error object. *)
Theorem embed_exit_status env argv w :
  exit_status (embed.main env argv w).1 = 1 ↔
  (∃ e, SentenceTransformer env 0 embed.MODEL_PATH = inl e) ∨
  length argv ≠ 2%nat.
Proof.
  unfold embed.main, embed.load_model, embed.generate_embedding.
  unfold mbind, M_bind, try_except.
  destruct (SentenceTransformer env 0 embed.MODEL_PATH) as [e|model]; simpl.
  { split; [|done]. intros _. left. eauto. }
  destruct argv as [|prog [|text [|]]]; simpl;
    try (split; [intros _; by right|done]).
  destruct (encode_text model text) as [e|vector]; simpl.
  - split; [done|]. by intros [[? [=]]|?].
  - split; [done|]. by intros [[? [=]]|?].
Qed.

(** ** What the extractor's files hold *)

Lemma read_file_Ok_fault env p f w w' :
  read_file env p w = (Ok f, w') → io_fault env OpRead p = None.
Proof.
  unfold read_file, io_check. intros (? & w1 & H1 & _)%bind_Ok.
  by apply from_option_none_Ok in H1 as [? _].
Qed.

Lemma np_load_Ok_fault env p a w w' :
  np_load env p w = (Ok a, w') → io_fault env OpRead p = None.
Proof.
  unfold np_load. intros (f & w1 & H1 & _)%bind_Ok.
  by eapply read_file_Ok_fault.
Qed.

Lemma np_load_run env p a w :
  io_fault env OpRead p = None → fs w !! p = Some (FNpy a) →
  np_load env p w = (Ok a, w).
Proof.
  intros Hio Hp. unfold np_load.
  by rewrite (bind_run_Ok _ _ _ _ _
                (read_file_run env p (FNpy a) w Hio Hp ltac:(done))).
Qed.

(** A successful run has read [embedding_weights.npy] back. *)
Lemma extract_main_Ok_read env argv u w w' :
  extract_embeddings.main env argv w = (Ok u, w') →
  ∃ out, argv !! 2%nat = Some out ∧
         io_fault env OpRead (path_join out "embedding_weights.npy") = None.
Proof.
  unfold extract_embeddings.main. intros H.
  destruct argv as [|prog [|inp [|out [|]]]];
    try (split_run H u0 w0 H0; done).
  split_run H b w1 H1. injection H1 as <- <-.
  destruct (negb _); [split_run H u0 w0 H0; done|].
  split_run H u2 w2 H2. clear H2.
  split_run H success w4 H4.
  destruct success; [|split_run H u0 w0 H0; done].
  split_run H u5 w5 H5. split_run H u6 w6 H6.
  unfold extract_embeddings.create_go_embedding_data in H6.
  split_run H6 weights w7 H7. apply np_load_Ok_fault in H7.
  exists out. done.
Qed.

(** X9. After a run of the extractor that ends with status 0,
    [embedding_weights.npy] holds the embedding weight of the loaded model's
    first module, untouched by the later steps of the run: loading the file
    again gives back that matrix, same element type, same shape, same
    values. *)
Theorem saved_weights_round_trip env argv u w w' :
  extract_embeddings.main env argv w = (Ok u, w') →
  ∃ inp out model se weights,
    argv !! 1%nat = Some inp ∧ argv !! 2%nat = Some out ∧
    SentenceTransformer env 0 inp = inr model ∧
    modules model !! 0%nat = Some se ∧
    embedding se = Some weights ∧
    np_load env (path_join out "embedding_weights.npy") w' = (Ok weights, w').
Proof.
  intros Hrun.
  destruct (extract_main_Ok_read _ _ _ _ _ Hrun) as (out' & Hout & Hio).
  apply main_Ok in Hrun
    as (prog & inp & out & model & se & weights & vocab & -> & Hload & Hse
        & Hemb & _ & Hnpy & _).
  injection Hout as <-.
  exists inp, out, model, se, weights. split_and!; try done.
  by apply np_load_run.
Qed.

Lemma saved_weights_round_trip_witness :
  let env := Sample.env in
  let argv := ["extract_embeddings.py"; "model"; "out"] in
  let w' := (extract_embeddings.main env argv Sample.world).2 in
  extract_embeddings.main env argv Sample.world = (Ok (), w') ∧
  ∃ inp out model se weights,
    argv !! 1%nat = Some inp ∧ argv !! 2%nat = Some out ∧
    SentenceTransformer env 0 inp = inr model ∧
    modules model !! 0%nat = Some se ∧
    embedding se = Some weights ∧
    np_load env (path_join out "embedding_weights.npy") w' = (Ok weights, w').
Proof.
  intros env argv w'.
  assert (extract_embeddings.main env argv Sample.world = (Ok (), w')) as Hrun
    by (vm_compute; reflexivity).
  split; [exact Hrun|].
  exact (saved_weights_round_trip env argv () Sample.world w' Hrun).
Defined.

Lemma assoc_vocab_entries (l : list (string * Z)) (token : string) :
  assoc token ((λ kv, (kv.1, JInt kv.2)) <$> l)
  = JInt <$> (list_to_map l : gmap string Z) !! token.
Proof.
  induction l as [|[k v] l IH]; simpl; [done|].
  destruct (String.eqb_spec k token) as [->|Hne].
  - by rewrite lookup_insert_eq.
  - by rewrite lookup_insert_ne.
Qed.

Lemma json_get_vocab_json vocab token :
  json_get token (vocab_json vocab) = JInt <$> vocab !! token.
Proof.
  unfold vocab_json. simpl. rewrite assoc_vocab_entries.
  by rewrite list_to_map_to_list.
Qed.

(** X10. After a run of the extractor that ends with status 0, [vocab.json]
    is the tokenizer's vocabulary: looking a token up in the file gives the
    id the tokenizer has for it, and a token the tokenizer does not know is
    not in the file. *)
Theorem vocab_json_is_the_vocabulary env argv u w w' :
  extract_embeddings.main env argv w = (Ok u, w') →
  ∃ inp out model vocab,
    argv !! 1%nat = Some inp ∧ argv !! 2%nat = Some out ∧
    SentenceTransformer env 0 inp = inr model ∧
    get_vocab (tokenizer model) = inr vocab ∧
    ∀ token,
      (json_at w' (path_join out "vocab.json") ≫= json_get token)
      = JInt <$> vocab !! token.
Proof.
  intros (prog & inp & out & model & se & weights & vocab & -> & Hload & _
          & _ & Hvocab & _ & Hvj & _)%main_Ok.
  exists inp, out, model, vocab. split_and!; try done.
  intros token. unfold json_at. rewrite Hvj. simpl.
  apply json_get_vocab_json.
Qed.

Lemma vocab_json_is_the_vocabulary_witness :
  let env := Sample.env in
  let argv := ["extract_embeddings.py"; "model"; "out"] in
  let w' := (extract_embeddings.main env argv Sample.world).2 in
  extract_embeddings.main env argv Sample.world = (Ok (), w') ∧
  ∃ inp out model vocab,
    argv !! 1%nat = Some inp ∧ argv !! 2%nat = Some out ∧
    SentenceTransformer env 0 inp = inr model ∧
    get_vocab (tokenizer model) = inr vocab ∧
    ∀ token,
      (json_at w' (path_join out "vocab.json") ≫= json_get token)
      = JInt <$> vocab !! token.
Proof.
  intros env argv w'.
  assert (extract_embeddings.main env argv Sample.world = (Ok (), w')) as Hrun
    by (vm_compute; reflexivity).
  split; [exact Hrun|].
  exact (vocab_json_is_the_vocabulary env argv () Sample.world w' Hrun).
Defined.

(** X11. After a run of the extractor that ends with status 0, the element
    in row [i] and column [j] of the model's weight matrix, converted to
    float32, occupies the four bytes of [embeddings.bin] that start at
    offset [(i * embedding_dim + j) * 4], least significant byte first: a
    reader finds the vector of token id [i] at byte [i * embedding_dim * 4]. *)
Theorem binary_is_row_major_little_endian env argv u w w' :
  extract_embeddings.main env argv w = (Ok u, w') →
  ∃ inp out model se weights bs,
    argv !! 1%nat = Some inp ∧ argv !! 2%nat = Some out ∧
    SentenceTransformer env 0 inp = inr model ∧
    modules model !! 0%nat = Some se ∧
    embedding se = Some weights ∧
    bytes_at w' (path_join out "embeddings.bin") = Some bs ∧
    ∀ (i j k : nat) row x,
      rows weights !! i = Some row →
      vec_to_list row !! j = Some x →
      (k < 4)%nat →
      bs !! ((i * shape1 weights + j) * 4 + k)%nat
      = Some (Z.land
                (Z.shiftr (np_convert env (nd_dtype weights) x)
                          (8 * Z.of_nat k))
                255).
Proof.
  intros (prog & inp & out & model & se & weights & vocab & -> & Hload & Hse
          & Hemb & _ & _ & _ & _ & Hbin & _)%main_Ok.
  exists inp, out, model, se, weights,
    (tobytes (astype_float32 (np_convert env) weights)).
  unfold bytes_at. rewrite Hbin. split_and!; try done.
  intros i j k row x Hrow Hx Hk.
  apply (tobytes_row_major (astype_float32 (np_convert env) weights) i j k
           (vmap (np_convert env (nd_dtype weights)) row)).
  - simpl. by rewrite list_lookup_fmap, Hrow.
  - by rewrite vec_to_list_map, list_lookup_fmap, Hx.
  - done.
Qed.

Lemma binary_is_row_major_little_endian_witness :
  let env := Sample.env in
  let argv := ["extract_embeddings.py"; "model"; "out"] in
  let w' := (extract_embeddings.main env argv Sample.world).2 in
  extract_embeddings.main env argv Sample.world = (Ok (), w') ∧
  ∃ inp out model se weights bs,
    argv !! 1%nat = Some inp ∧ argv !! 2%nat = Some out ∧
    SentenceTransformer env 0 inp = inr model ∧
    modules model !! 0%nat = Some se ∧
    embedding se = Some weights ∧
    bytes_at w' (path_join out "embeddings.bin") = Some bs ∧
    ∀ (i j k : nat) row x,
      rows weights !! i = Some row →
      vec_to_list row !! j = Some x →
      (k < 4)%nat →
      bs !! ((i * shape1 weights + j) * 4 + k)%nat
      = Some (Z.land
                (Z.shiftr (np_convert env (nd_dtype weights) x)
                          (8 * Z.of_nat k))
                255).
Proof.
  intros env argv w'.
  assert (extract_embeddings.main env argv Sample.world = (Ok (), w')) as Hrun
    by (vm_compute; reflexivity).
  split; [exact Hrun|].
  exact (binary_is_row_major_little_endian env argv () Sample.world w' Hrun).
Defined.

(** In the sample run the second row starts at byte 8: 3.0 is 0x40400000. *)
Example sample_binary_second_row :
  let w' := (extract_embeddings.main Sample.env
               ["extract_embeddings.py"; "model"; "out"] Sample.world).2 in
  (take 4 ∘ drop 8) <$> bytes_at w' "out/embeddings.bin"
  = Some [0; 0; 64; 64].
Proof. vm_compute. reflexivity. Qed.

(** X12. After a run of the extractor that ends with status 0, the three
    descriptions of the matrix agree on its width: [embedding_dim] in
    [model_config.json] and [embedding_dim] in [embeddings_metadata.json]
    are both the number of columns of the array in [embedding_weights.npy],
    and the metadata's [vocab_size] is its number of rows. *)
Theorem outputs_agree_on_shape env argv u w w' :
  extract_embeddings.main env argv w = (Ok u, w') →
  ∃ out saved,
    argv !! 2%nat = Some out ∧
    fs w' !! path_join out "embedding_weights.npy" = Some (FNpy saved) ∧
    (json_at w' (path_join out "model_config.json")
       ≫= json_get "embedding_dim") = Some (JInt (Z.of_nat (shape1 saved))) ∧
    (json_at w' (path_join out "embeddings_metadata.json")
       ≫= json_get "embedding_dim") = Some (JInt (Z.of_nat (shape1 saved))) ∧
    (json_at w' (path_join out "embeddings_metadata.json")
       ≫= json_get "vocab_size") = Some (JInt (Z.of_nat (shape0 saved))).
Proof.
  intros (prog & inp & out & model & se & weights & vocab & -> & _ & _ & _
          & _ & Hnpy & _ & Hcfg & _ & Hmeta)%main_Ok.
  exists out, weights. unfold json_at. by rewrite Hnpy, Hcfg, Hmeta.
Qed.

Lemma outputs_agree_on_shape_witness :
  let env := Sample.env in
  let argv := ["extract_embeddings.py"; "model"; "out"] in
  let w' := (extract_embeddings.main env argv Sample.world).2 in
  extract_embeddings.main env argv Sample.world = (Ok (), w') ∧
  ∃ out saved,
    argv !! 2%nat = Some out ∧
    fs w' !! path_join out "embedding_weights.npy" = Some (FNpy saved) ∧
    (json_at w' (path_join out "model_config.json")
       ≫= json_get "embedding_dim") = Some (JInt (Z.of_nat (shape1 saved))) ∧
    (json_at w' (path_join out "embeddings_metadata.json")
       ≫= json_get "embedding_dim") = Some (JInt (Z.of_nat (shape1 saved))) ∧
    (json_at w' (path_join out "embeddings_metadata.json")
       ≫= json_get "vocab_size") = Some (JInt (Z.of_nat (shape0 saved))).
Proof.
  intros env argv w'.
  assert (extract_embeddings.main env argv Sample.world = (Ok (), w')) as Hrun
    by (vm_compute; reflexivity).
  split; [exact Hrun|].
  exact (outputs_agree_on_shape env argv () Sample.world w' Hrun).
Defined.

(** ** What a successful conversion has done *)

Section conversion_done.
Import convert_to_onnx.
Context (env : Env).

Lemma export_and_copy_Ok model inp out u w w' :
  export_and_copy env model inp out w = (Ok u, w') →
  ∃ se t,
    let wrapper :=
      {| static_embedding := se; normalize := modules model !! 1%nat |} in
    modules model !! 0%nat = Some se ∧
    wrapper_forward wrapper (torch_randint env) = inr t ∧
    onnx_export_fault env wrapper = None ∧
    fs w' !! path_join out "model.onnx" = Some (FOnnx wrapper).
Proof.
  unfold export_and_copy, torch_onnx_export. intros H.
  split_run H se w1 Hse. apply from_option_Ok in Hse as [Hse ->].
  split_run H u1 w1 H1. apply print_Ok in H1.
  split_run H nm w2 H2. rewrite normalize_module_run in H2.
  injection H2 as <- <-.
  split_run H u3 w3 H3.
  split_run H3 t w4 H4. apply lift_Ok in H4 as [Htrace ->].
  split_run H3 u5 w5 H5. apply from_option_none_Ok in H5 as [Hexport ->].
  apply write_file_Ok in H3 as [_ H3].
  split_run H u6 w6 H6. apply print_Ok in H6.
  exists se, t. split_and!; try done.
  rewrite (preserves_run _ _ _ _ _
             (preserves_copy_files (path_join out "model.onnx") env
                ["tokenizer.json"; "config.json"; "modules.json"] inp out
                ltac:(intros f Hf; elem_cases Hf; split; path_ne)) H).
  rewrite H6, H3. apply lookup_insert_eq.
Qed.

Lemma convert_model_to_onnx_true inp out w w' :
  convert_model_to_onnx env inp out w = (Ok true, w') →
  ∃ model se t,
    let wrapper :=
      {| static_embedding := se; normalize := modules model !! 1%nat |} in
    SentenceTransformer env 0 inp = inr model ∧
    modules model !! 0%nat = Some se ∧
    wrapper_forward wrapper (torch_randint env) = inr t ∧
    onnx_export_fault env wrapper = None ∧
    fs w' !! path_join out "model.onnx" = Some (FOnnx wrapper).
Proof.
  unfold convert_model_to_onnx. intros H.
  split_run H model w0 H0.
  assert (SentenceTransformer env 0 inp = inr model) as Hload.
  { unfold load_and_prepare in H0.
    split_run H0 u1 w1 H1. split_run H0 model' w2 H2.
    apply lift_Ok in H2 as [Hload ->].
    split_run H0 u3 w3 H3. split_run H0 u4 w4 H4. by injection H0 as <- _. }
  apply try_except_Ok in H as [H|(e & w5 & _ & H)].
  - unfold convert_body in H.
    split_run H u1 w1 H1.
    apply export_and_copy_Ok in H1 as (se & t & Hse & Htrace & Hexp & Honnx).
    split_run H u2 w2 H2. apply print_Ok in H2.
    split_run H tested w3 H3. injection H as <-.
    exists model, se, t. split_and!; try done.
    by rewrite (preserves_run _ _ _ _ _
                  (test_onnx_model_preserves env _ _ _) H3), H2.
  - split_run H u6 w6 H6. split_run H u7 w7 H7. by injection H.
Qed.
End conversion_done.

(** X13. A run of the converter that ends with status 0 has exported the
    loaded pipeline: [model.onnx] holds the wrapper whose embedding stage is
    [model[0]] and whose normalization stage is [model[1]], if the pipeline
    has one; the exporter traced that wrapper on the dummy input without an
    exception and did not refuse it. *)
Theorem converted_graph_is_the_pipeline env argv u w w' :
  convert_to_onnx.main env argv w = (Ok u, w') →
  ∃ inp out model se t,
    let wrapper :=
      {| static_embedding := se; normalize := modules model !! 1%nat |} in
    argv !! 1%nat = Some inp ∧ argv !! 2%nat = Some out ∧
    SentenceTransformer env 0 inp = inr model ∧
    modules model !! 0%nat = Some se ∧
    convert_to_onnx.wrapper_forward wrapper (torch_randint env) = inr t ∧
    onnx_export_fault env wrapper = None ∧
    fs w' !! path_join out "model.onnx" = Some (FOnnx wrapper).
Proof.
  unfold convert_to_onnx.main. intros H.
  destruct argv as [|prog [|inp [|out [|]]]];
    try (split_run H u0 w0 H0; done).
  split_run H b w1 H1. injection H1 as <- <-.
  destruct (negb _); [split_run H u0 w0 H0; done|].
  split_run H u2 w2 H2. clear H2.
  split_run H success w4 H4.
  destruct success; [|split_run H u0 w0 H0; done].
  apply convert_model_to_onnx_true in H4
    as (model & se & t & Hload & Hse & Htrace & Hexp & Honnx).
  split_run H u5 w5 H5. apply print_Ok in H5. apply print_Ok in H.
  exists inp, out, model, se, t. split_and!; try done.
  by rewrite H, H5.
Qed.

Lemma converted_graph_is_the_pipeline_witness :
  let env := Sample.env_flagged in
  let argv := ["convert_to_onnx.py"; "model"; "out"] in
  let w' := (convert_to_onnx.main env argv Sample.world).2 in
  convert_to_onnx.main env argv Sample.world = (Ok (), w') ∧
  ∃ inp out model se t,
    let wrapper :=
      {| static_embedding := se; normalize := modules model !! 1%nat |} in
    argv !! 1%nat = Some inp ∧ argv !! 2%nat = Some out ∧
    SentenceTransformer env 0 inp = inr model ∧
    modules model !! 0%nat = Some se ∧
    convert_to_onnx.wrapper_forward wrapper (torch_randint env) = inr t ∧
    onnx_export_fault env wrapper = None ∧
    fs w' !! path_join out "model.onnx" = Some (FOnnx wrapper).
Proof.
  intros env argv w'.
  assert (convert_to_onnx.main env argv Sample.world = (Ok (), w')) as Hrun
    by (vm_compute; reflexivity).
  split; [exact Hrun|].
  exact (converted_graph_is_the_pipeline env argv () Sample.world w' Hrun).
Defined.

(** ** The side files *)

Lemma has_slash_nested x : has_slash (nested x) = true.
Proof.
  unfold nested. rewrite has_slash_app. simpl. apply orb_true_r.
Qed.

Lemma nested_ne_simple x m : simple_name x → nested m ≠ x.
Proof. intros [_ Hx] <-. by rewrite has_slash_nested in Hx. Qed.

Lemma append_slash_inj (a b c d : string) :
  has_slash a = false → has_slash c = false →
  a +:+ "/" +:+ b = c +:+ "/" +:+ d → a = c.
Proof.
  revert c. induction a as [|x a IH]; intros [|y c] Ha Hc H; simpl in *.
  - done.
  - injection H as <- _. done.
  - injection H as -> _. done.
  - injection H as -> H.
    apply orb_false_iff in Ha as [_ Ha]. apply orb_false_iff in Hc as [_ Hc].
    f_equal. by apply IH.
Qed.

Lemma nested_inj x m : simple_name x → simple_name m → nested x = nested m → x = m.
Proof. intros [_ Hx] [_ Hm]. unfold nested. by apply append_slash_inj. Qed.

(** A side file is copied to its place in the output directory, or inside
    the directory that is in that place. *)
Lemma copy_target_in (m : gmap string File) inp out x :
  simple_name x →
  copy_target m (path_join inp x) (path_join out x) = path_join out x ∨
  copy_target m (path_join inp x) (path_join out x)
  = path_join out (nested x).
Proof.
  intros Hx.
  destruct (copy_target_cases m (path_join inp x) (path_join out x))
    as [-> | ->]; [by left|right].
  by apply path_join_nested_name.
Qed.

(** The copies of other side files leave the two places of [x] alone. *)
Lemma copy_files_preserves_places env names inp out x p :
  Forall simple_name names → simple_name x → x ∉ names →
  p = path_join out x ∨ p = path_join out (nested x) →
  preserves p (copy_files env names inp out).
Proof.
  intros Hnames Hx Hnotin Hp. apply preserves_copy_files. intros m Hm.
  assert (simple_name m) as Hsm by (by eapply Forall_forall in Hnames).
  assert (m ≠ x) as Hne by (by intros ->).
  rewrite path_join_nested_name by done.
  destruct Hp as [-> | ->]; split.
  - apply path_join_ne; [apply Hsm|apply Hx|done].
  - apply path_join_ne; [apply relative_nested, Hsm|apply Hx|].
    by apply nested_ne_simple.
  - apply path_join_ne; [apply Hsm|apply relative_nested, Hx|].
    by apply not_eq_sym, nested_ne_simple.
  - apply path_join_ne; [apply relative_nested, Hsm|apply relative_nested, Hx|].
    intros H. by apply Hne, nested_inj.
Qed.

(** One round of the copy loop. *)
Lemma copy_one_Ok env inp out x u w w1 :
  (b ← path_exists (path_join inp x);
   if b : bool then
     copy2 env (path_join inp x) (path_join out x);;
     print ("Copied " +:+ x)
   else mret ()) w = (Ok u, w1) →
  match fs w !! path_join inp x with
  | Some f =>
      fs w1 = <[copy_target (fs w) (path_join inp x) (path_join out x) := f]>
                (fs w)
  | None => fs w1 = fs w
  end.
Proof.
  intros Hrun.
  rewrite (bind_run_Ok _ _ _ _ _ (path_exists_run _ w)) in Hrun.
  case_bool_decide as Hex.
  - destruct Hex as [f Hf]. rewrite Hf.
    split_run Hrun u1 w2 H1.
    apply copy2_Ok in H1 as (f' & Hf' & _ & _ & H1). apply print_Ok in Hrun.
    rewrite Hf in Hf'. injection Hf' as <-. by rewrite Hrun.
  - injection Hrun as _ <-.
    destruct (fs w !! path_join inp x) eqn:Hsrc; [|done].
    destruct Hex. eauto.
Qed.

(** What the copy loop has done when it ends without an exception, for
    sources that are not among its own destinations. *)
Lemma copy_files_Ok env names inp out u w w' :
  NoDup names → Forall simple_name names →
  (∀ n n', n ∈ names → n' ∈ names →
           path_join inp n ≠ path_join out n' ∧
           path_join inp n ≠ path_join out (nested n')) →
  copy_files env names inp out w = (Ok u, w') →
  ∀ n, n ∈ names →
    match fs w !! path_join inp n with
    | Some f =>
        fs w' !! copy_target (fs w) (path_join inp n) (path_join out n)
        = Some f
    | None => fs w' !! path_join out n = fs w !! path_join out n
    end.
Proof.
  intros Hnodup Hsimple. revert w.
  induction names as [|x names IH]; intros w Halias Hrun n Hn.
  { by apply elem_of_nil in Hn. }
  apply NoDup_cons in Hnodup as [Hx Hnodup].
  apply Forall_cons in Hsimple as [Hsx Hsimple].
  change (copy_files env (x :: names) inp out)
    with ((b ← path_exists (path_join inp x);
           if b : bool then
             copy2 env (path_join inp x) (path_join out x);;
             print ("Copied " +:+ x)
           else mret ());;
          copy_files env names inp out) in Hrun.
  split_run Hrun u1 w1 Hone. apply copy_one_Ok in Hone.
  assert (∀ p, p ≠ path_join out x → p ≠ path_join out (nested x) →
               fs w1 !! p = fs w !! p) as Hother.
  { intros p Hp1 Hp2. destruct (fs w !! path_join inp x) as [f|];
      rewrite Hone; [|done].
    rewrite lookup_insert_ne; [done|].
    by destruct (copy_target_in (fs w) inp out x Hsx) as [-> | ->]. }
  apply elem_of_cons in Hn as [->|Hn].
  - destruct (fs w !! path_join inp x) as [f|] eqn:Hsrc.
    + rewrite (preserves_run _ _ _ _ _
                 (copy_files_preserves_places env names inp out x _
                    Hsimple Hsx Hx (copy_target_in (fs w) inp out x Hsx))
                 Hrun).
      rewrite Hone. apply lookup_insert_eq.
    + rewrite (preserves_run _ _ _ _ _
                 (copy_files_preserves_places env names inp out x _
                    Hsimple Hsx Hx (or_introl eq_refl)) Hrun).
      by rewrite Hone.
  - assert (simple_name n) as Hsn by (by eapply Forall_forall in Hsimple).
    assert (n ≠ x) as Hne by (by intros ->).
    assert (fs w1 !! path_join inp n = fs w !! path_join inp n) as Hsrc.
    { apply Hother; apply Halias; (by right) || by left. }
    assert (fs w1 !! path_join out n = fs w !! path_join out n) as Hdst.
    { apply Hother.
      - apply path_join_ne; [apply Hsn|apply Hsx|done].
      - apply path_join_ne; [apply Hsn|apply relative_nested, Hsx|].
        by apply not_eq_sym, nested_ne_simple. }
    assert (copy_target (fs w1) (path_join inp n) (path_join out n)
            = copy_target (fs w) (path_join inp n) (path_join out n)) as Htgt.
    { unfold copy_target. by rewrite Hdst. }
    specialize (IH Hnodup Hsimple w1).
    rewrite <- Hsrc, <- Htgt, <- Hdst. apply IH; [|done..].
    intros m m' Hm Hm'. apply Halias; by right.
Qed.

Lemma convert_load_and_prepare_preserves env inp out p :
  p ∉ made_dirs out →
  preserves p (convert_to_onnx.load_and_prepare env inp out).
Proof.
  intros [Habove Hp]%not_elem_of_app.
  apply not_elem_of_cons in Hp as [Hp _].
  unfold convert_to_onnx.load_and_prepare. frame; done.
Qed.

Lemma extract_load_and_prepare_preserves env inp out p :
  p ∉ made_dirs out →
  preserves p (extract_embeddings.load_and_prepare env inp out).
Proof.
  intros [Habove Hp]%not_elem_of_app.
  apply not_elem_of_cons in Hp as [Hp _].
  unfold extract_embeddings.load_and_prepare. frame; done.
Qed.

Lemma path_join_not_made out name : relative name → path_join out name ∉ made_dirs out.
Proof.
  intros Hrel. apply not_elem_of_app. split.
  - by apply path_join_not_ancestor.
  - apply not_elem_of_cons. split; [by apply path_join_ne_dir|].
    apply not_elem_of_nil.
Qed.

(** The copy loop inside a run of the converter that ends with status 0. *)
Lemma convert_main_Ok_copy env prog inp out u w w' :
  convert_to_onnx.main env [prog; inp; out] w = (Ok u, w') →
  ∃ wc wc',
    copy_files env ["tokenizer.json"; "config.json"; "modules.json"]
      inp out wc = (Ok (), wc') ∧
    (∀ p, p ∉ made_dirs out → p ≠ path_join out "model.onnx" →
          fs wc !! p = fs w !! p) ∧
    fs w' = fs wc'.
Proof.
  unfold convert_to_onnx.main. intros H.
  split_run H b w1 H1. injection H1 as <- <-.
  destruct (negb _); [split_run H u0 w0 H0; done|].
  split_run H u2 w2 H2. injection H2 as _ <-.
  split_run H success w4 H4.
  destruct success; [|split_run H u0 w0 H0; done].
  split_run H u5 w5 H5. apply print_Ok in H5. apply print_Ok in H.
  unfold convert_to_onnx.convert_model_to_onnx in H4.
  split_run H4 model w3 H3.
  apply try_except_Ok in H4 as [H4|(e & w6 & _ & H4)];
    [|split_run H4 u6 w7 H6; split_run H4 u7 w8 H7; by injection H4].
  unfold convert_to_onnx.convert_body in H4.
  split_run H4 u6 w6 H6. split_run H4 u7 w7 H7. apply print_Ok in H7.
  split_run H4 tested w8 H8. injection H4 as <-.
  unfold convert_to_onnx.export_and_copy, convert_to_onnx.torch_onnx_export
    in H6.
  split_run H6 se wa Ha. apply from_option_Ok in Ha as [_ ->].
  split_run H6 ub wb Hb. apply print_Ok in Hb.
  split_run H6 nm wc0 Hc. rewrite normalize_module_run in Hc.
  injection Hc as <- <-.
  split_run H6 ud wd Hd.
  split_run Hd t we He. apply lift_Ok in He as [_ ->].
  split_run Hd uf wf Hf. apply from_option_none_Ok in Hf as [_ ->].
  apply write_file_Ok in Hd as [_ Hd].
  split_run H6 ug wg Hg. apply print_Ok in Hg.
  destruct u6. exists wg, w6. split_and!; [done| |].
  - intros p Hout Honnx. rewrite Hg, Hd, lookup_insert_ne by done.
    rewrite Hb.
    by rewrite (preserves_run _ _ _ _ _
                  (convert_load_and_prepare_preserves env inp out p Hout) H3).
  - rewrite H, H5.
    rewrite (preserves_all_run _ _ _ _
               (λ p, test_onnx_model_preserves env p _ _) H8).
    done.
Qed.

(** X14. In a run of the converter that ends with status 0, each of
    [tokenizer.json], [config.json] and [modules.json] that the model
    directory holds has been copied with its content unchanged: to its name
    in the output directory or, when that name was a directory there, into
    that directory under the same name.  A side file that the model
    directory does not hold is skipped, and the output directory keeps at
    that name what it held before.  This is under the condition that no
    source is among the paths the converter writes or the directories it
    makes. *)
Theorem converter_copies_side_files env prog inp out u w w' name :
  convert_to_onnx.main env [prog; inp; out] w = (Ok u, w') →
  name ∈ converter_side_files →
  (∀ n, n ∈ converter_side_files →
        path_join inp n ∉ made_dirs out ++ converter_writes out) →
  match fs w !! path_join inp name with
  | Some f =>
      fs w' !! copy_target (fs w) (path_join inp name) (path_join out name)
      = Some f
  | None => fs w' !! path_join out name = fs w !! path_join out name
  end.
Proof.
  intros Hrun Hname Hapart.
  apply convert_main_Ok_copy in Hrun as (wc & wc' & Hcopy & Hbefore & ->).
  assert (∀ n m, n ∈ converter_side_files →
                 m ∈ converter_outputs ++ (nested <$> converter_side_files) →
                 path_join inp n ≠ path_join out m) as Hnot.
  { intros n m Hn Hm Heq. apply (Hapart n Hn), elem_of_app. right.
    rewrite Heq. by apply in_converter_writes. }
  assert (simple_name name) as Hsn
    by (unfold converter_side_files in Hname; elem_cases Hname; literal_name).
  assert (fs wc !! path_join inp name = fs w !! path_join inp name) as Hsrc.
  { apply Hbefore.
    - intros H. apply (Hapart name Hname), elem_of_app. by left.
    - apply Hnot; [done|]. compute_done. }
  assert (fs wc !! path_join out name = fs w !! path_join out name) as Hdst.
  { apply Hbefore; [apply path_join_not_made, Hsn|].
    unfold converter_side_files in Hname. elem_cases Hname; path_ne. }
  assert (copy_target (fs wc) (path_join inp name) (path_join out name)
          = copy_target (fs w) (path_join inp name) (path_join out name))
    as Htgt.
  { unfold copy_target. by rewrite Hdst. }
  rewrite <- Hsrc, <- Htgt, <- Hdst.
  apply (copy_files_Ok env converter_side_files inp out () wc wc');
    [| | |done..].
  - compute_done.
  - unfold converter_side_files. repeat (constructor; [literal_name|]).
    constructor.
  - intros n n' Hn Hn'. split; apply Hnot; try done.
    + apply elem_of_app. left. unfold converter_side_files in Hn'.
      elem_cases Hn'; compute_done.
    + apply elem_of_app. right. by apply list_elem_of_fmap_2.
Qed.

Lemma converter_copies_side_files_witness :
  let env := Sample.env in
  let w := Sample2.world_with_side_files in
  let argv := ["convert_to_onnx.py"; "model"; "out"] in
  let w' := (convert_to_onnx.main env argv w).2 in
  (convert_to_onnx.main env argv w = (Ok (), w') ∧
   "tokenizer.json" ∈ converter_side_files ∧
   (∀ n, n ∈ converter_side_files →
         path_join "model" n ∉ made_dirs "out" ++ converter_writes "out")) ∧
  match fs w !! path_join "model" "tokenizer.json" with
  | Some f =>
      fs w' !! copy_target (fs w) (path_join "model" "tokenizer.json")
                 (path_join "out" "tokenizer.json")
      = Some f
  | None =>
      fs w' !! path_join "out" "tokenizer.json"
      = fs w !! path_join "out" "tokenizer.json"
  end.
Proof.
  intros env w argv w'.
  assert ("tokenizer.json" ∈ converter_side_files) as Hname by compute_done.
  assert (∀ n, n ∈ converter_side_files →
               path_join "model" n ∉ made_dirs "out" ++ converter_writes "out")
    as Hapart.
  { intros n Hn. unfold converter_side_files in Hn.
    elem_cases Hn; compute_done. }
  assert (convert_to_onnx.main env argv w = (Ok (), w')) as Hrun
    by (vm_compute; reflexivity).
  split; [by split_and!|].
  exact (converter_copies_side_files env "convert_to_onnx.py" "model" "out"
           () w w' "tokenizer.json" Hrun Hname Hapart).
Defined.

(** The copy loop inside a run of the extractor that ends with status 0. *)
Lemma extract_main_Ok_copy env prog inp out u w w' :
  extract_embeddings.main env [prog; inp; out] w = (Ok u, w') →
  ∃ wc wc',
    copy_files env ["tokenizer.json"; "config.json"] inp out wc
      = (Ok (), wc') ∧
    (∀ p, p ∉ made_dirs out →
          p ∉ [path_join out "embedding_weights.npy";
               path_join out "vocab.json";
               path_join out "model_config.json"] →
          fs wc !! p = fs w !! p) ∧
    (∀ p, p ≠ path_join out "embeddings.bin" →
          p ≠ path_join out "embeddings_metadata.json" →
          fs w' !! p = fs wc' !! p).
Proof.
  unfold extract_embeddings.main. intros H.
  split_run H b w1 H1. injection H1 as <- <-.
  destruct (negb _); [split_run H u0 w0 H0; done|].
  split_run H u2 w2 H2. injection H2 as _ <-.
  split_run H success w4 H4.
  destruct success; [|split_run H u0 w0 H0; done].
  split_run H u5 w5 H5. apply print_Ok in H5.
  split_run H ugo w6 Hgo.
  apply create_go_embedding_data_Ok in Hgo as (saved & _ & Hgo).
  split_run H u7 w7 H7. apply print_Ok in H7. apply print_Ok in H.
  unfold extract_embeddings.extract_model_weights in H4.
  split_run H4 model w3 H3.
  apply try_except_Ok in H4 as [H4|(e & w8 & _ & H4)];
    [|split_run H4 u8 w9 H8; split_run H4 u9 w10 H9; by injection H4].
  unfold extract_embeddings.extract_body in H4.
  split_run H4 se wa Ha. apply from_option_Ok in Ha as [_ ->].
  split_run H4 weights wb Hb. apply from_option_Ok in Hb as [_ ->].
  split_run H4 uc wc0 Hc. apply print_Ok in Hc.
  split_run H4 ud wd Hd. apply write_file_Ok in Hd as [_ Hd].
  split_run H4 ue we He. apply print_Ok in He.
  split_run H4 vocab wf Hf. apply lift_Ok in Hf as [_ ->].
  split_run H4 ug wg Hg. apply write_file_Ok in Hg as [_ Hg].
  split_run H4 uh wh Hh. apply print_Ok in Hh.
  split_run H4 hn wi Hi. apply has_normalize_Ok in Hi as [-> ->].
  split_run H4 uj wj Hj. apply write_file_Ok in Hj as [_ Hj].
  split_run H4 uk wk Hk. apply print_Ok in Hk.
  split_run H4 ul wl Hl.
  split_run H4 um wm Hm. apply print_Ok in Hm.
  split_run H4 ut wt Ht. injection H4 as <-.
  destruct ul. exists wk, wl. split_and!; [done| |].
  - intros p Hout Hp.
    apply not_elem_of_cons in Hp as [Hp1 Hp].
    apply not_elem_of_cons in Hp as [Hp2 Hp].
    apply not_elem_of_cons in Hp as [Hp3 _].
    rewrite Hk, Hj, lookup_insert_ne by done.
    rewrite Hh, Hg, lookup_insert_ne by done.
    rewrite He, Hd, lookup_insert_ne by done.
    rewrite Hc.
    by rewrite (preserves_run _ _ _ _ _
                  (extract_load_and_prepare_preserves env inp out p Hout) H3).
  - intros p Hbin Hmeta. rewrite H, H7, Hgo.
    rewrite !lookup_insert_ne by done. rewrite H5.
    rewrite (preserves_run _ _ _ _ _
               (test_extraction_preserves env p _ _) Ht).
    by rewrite Hm.
Qed.

(** X15. In a run of the extractor that ends with status 0, each of
    [tokenizer.json] and [config.json] that the model directory holds has
    been copied with its content unchanged: to its name in the output
    directory or, when that name was a directory there, into that directory
    under the same name.  One that the model directory does not hold is
    skipped.  This is under the condition that no source is among the paths
    the extractor writes or the directories it makes. *)
Theorem extractor_copies_side_files env prog inp out u w w' name :
  extract_embeddings.main env [prog; inp; out] w = (Ok u, w') →
  name ∈ extractor_side_files →
  (∀ n, n ∈ extractor_side_files →
        path_join inp n ∉ made_dirs out ++ extractor_writes out) →
  match fs w !! path_join inp name with
  | Some f =>
      fs w' !! copy_target (fs w) (path_join inp name) (path_join out name)
      = Some f
  | None => fs w' !! path_join out name = fs w !! path_join out name
  end.
Proof.
  intros Hrun Hname Hapart.
  apply extract_main_Ok_copy in Hrun as (wc & wc' & Hcopy & Hbefore & Hafter).
  assert (∀ n m, n ∈ extractor_side_files →
                 m ∈ extractor_outputs ++ (nested <$> extractor_side_files) →
                 path_join inp n ≠ path_join out m) as Hnot.
  { intros n m Hn Hm Heq. apply (Hapart n Hn), elem_of_app. right.
    rewrite Heq. by apply in_extractor_writes. }
  assert (simple_name name) as Hsn
    by (unfold extractor_side_files in Hname; elem_cases Hname; literal_name).
  assert (fs wc !! path_join inp name = fs w !! path_join inp name) as Hsrc.
  { apply Hbefore.
    - intros H. apply (Hapart name Hname), elem_of_app. by left.
    - rewrite !not_elem_of_cons. split_and!; [..|apply not_elem_of_nil];
        (apply Hnot; [done|compute_done]). }
  assert (fs wc !! path_join out name = fs w !! path_join out name) as Hdst.
  { apply Hbefore; [apply path_join_not_made, Hsn|].
    unfold extractor_side_files in Hname.
    rewrite !not_elem_of_cons. split_and!; [..|apply not_elem_of_nil];
      elem_cases Hname; path_ne. }
  assert (copy_target (fs wc) (path_join inp name) (path_join out name)
          = copy_target (fs w) (path_join inp name) (path_join out name))
    as Htgt.
  { unfold copy_target. by rewrite Hdst. }
  assert (∀ p, p = path_join out name ∨ p = path_join out (nested name) →
               fs wc' !! p = fs (w') !! p) as Hlater.
  { intros p Hp. symmetry. apply Hafter;
      unfold extractor_side_files in Hname;
      destruct Hp as [-> | ->]; elem_cases Hname; path_ne. }
  rewrite <- Hsrc, <- Htgt, <- Hdst.
  pose proof (copy_files_Ok env extractor_side_files inp out () wc wc')
    as Hloop.
  specialize (Hloop ltac:(compute_done)).
  specialize (Hloop ltac:(unfold extractor_side_files;
                          repeat (constructor; [literal_name|]);
                          constructor)).
  assert (∀ n n', n ∈ extractor_side_files → n' ∈ extractor_side_files →
                  path_join inp n ≠ path_join out n' ∧
                  path_join inp n ≠ path_join out (nested n')) as Halias.
  { intros n n' Hn Hn'. split; apply Hnot; try done.
    - apply elem_of_app. left. unfold extractor_side_files in Hn'.
      elem_cases Hn'; compute_done.
    - apply elem_of_app. right. by apply list_elem_of_fmap_2. }
  specialize (Hloop Halias Hcopy name Hname).
  destruct (fs wc !! path_join inp name) as [f|].
  - rewrite <- Hlater; [done|]. by apply copy_target_in.
  - rewrite <- Hlater; [done|by left].
Qed.

Lemma extractor_copies_side_files_witness :
  let env := Sample.env in
  let w := Sample2.world_with_side_files in
  let argv := ["extract_embeddings.py"; "model"; "out"] in
  let w' := (extract_embeddings.main env argv w).2 in
  (extract_embeddings.main env argv w = (Ok (), w') ∧
   "config.json" ∈ extractor_side_files ∧
   (∀ n, n ∈ extractor_side_files →
         path_join "model" n ∉ made_dirs "out" ++ extractor_writes "out")) ∧
  match fs w !! path_join "model" "config.json" with
  | Some f =>
      fs w' !! copy_target (fs w) (path_join "model" "config.json")
                 (path_join "out" "config.json")
      = Some f
  | None =>
      fs w' !! path_join "out" "config.json"
      = fs w !! path_join "out" "config.json"
  end.
Proof.
  intros env w argv w'.
  assert ("config.json" ∈ extractor_side_files) as Hname by compute_done.
  assert (∀ n, n ∈ extractor_side_files →
               path_join "model" n ∉ made_dirs "out" ++ extractor_writes "out")
    as Hapart.
  { intros n Hn. unfold extractor_side_files in Hn.
    elem_cases Hn; compute_done. }
  assert (extract_embeddings.main env argv w = (Ok (), w')) as Hrun
    by (vm_compute; reflexivity).
  split; [by split_and!|].
  exact (extractor_copies_side_files env "extract_embeddings.py" "model"
           "out" () w w' "config.json" Hrun Hname Hapart).
Defined.

(** A destination that is a directory: the copy goes inside it, and the
    directory stays. *)
Example copy_into_a_directory :
  let w := {| fs := <["out/tokenizer.json" := FDir]>
                      (fs Sample2.world_with_side_files);
              stdout := []; stderr := [] |} in
  let run :=
    convert_to_onnx.main Sample.env ["convert_to_onnx.py"; "model"; "out"] w in
  run.1 = Ok () ∧
  fs run.2 !! "out/tokenizer.json" = Some FDir ∧
  fs run.2 !! "out/tokenizer.json/tokenizer.json"
    = Some (FOther "tokenizer") ∧
  fs run.2 !! "out/config.json" = Some (FOther "config").
Proof. vm_compute. done. Qed.

(** ** The extraction test and its token ids *)

Lemma np_index_is_Some n i : is_Some (np_index n i) ↔ valid_index n i.
Proof.
  unfold np_index, valid_index. repeat case_decide.
  - split; [lia|eauto].
  - split; [lia|eauto].
  - split; [by intros [? [=]]|lia].
Qed.

Lemma np_index_lt n i k : np_index n i = Some k → (k < n)%nat.
Proof.
  unfold np_index. repeat case_decide; intros [= <-]; lia.
Qed.

Lemma nd_take_is_Some a ids :
  is_Some (nd_take a ids) ↔ Forall (valid_index (shape0 a)) ids.
Proof.
  unfold nd_take.
  assert (is_Some (mapM (λ i, k ← np_index (shape0 a) i; rows a !! k) ids)
          ↔ Forall (valid_index (shape0 a)) ids) as <-.
  { rewrite mapM_is_Some. apply Forall_proper; [|done]. intros i. simpl.
    rewrite <- np_index_is_Some. split.
    - intros [r Hr]. destruct (np_index (shape0 a) i); [eauto|done].
    - intros [k Hk]. rewrite Hk. simpl.
      apply lookup_lt_is_Some_2. by eapply np_index_lt. }
  destruct (mapM _ ids); simpl; split; intros [? ?]; eauto; done.
Qed.

Lemma nd_take_shape0 a ids r : nd_take a ids = Some r → shape0 r = length ids.
Proof.
  unfold nd_take. destruct (mapM _ ids) as [rs|] eqn:Hrs; [|done].
  intros [= <-]. unfold shape0. simpl. symmetry. by eapply length_mapM.
Qed.

Lemma nd_row_0_is_Some a : (0 < shape0 a)%nat → is_Some (nd_row a 0).
Proof.
  intros Hpos. unfold nd_row, np_index.
  rewrite decide_True by lia. simpl.
  destruct (lookup_lt_is_Some_2 (rows a) 0 Hpos) as [r Hr].
  change (Z.to_nat 0) with 0%nat. rewrite Hr. simpl. eauto.
Qed.

Lemma lift_inr {A} (a : A) : lift (inr a) = (mret a : M A).
Proof. done. Qed.

Lemma from_option_Some {A} e (a : A) : from_option e (Some a) = (mret a : M A).
Proof. done. Qed.

Lemma json_load_run env p j w :
  io_fault env OpRead p = None → fs w !! p = Some (FJson j) →
  json_load env p w = (Ok j, w).
Proof.
  intros Hio Hp. unfold json_load.
  by rewrite (bind_run_Ok _ _ _ _ _
                (read_file_run env p (FJson j) w Hio Hp ltac:(done))).
Qed.

(** X16. With the three extracted files in place and the model answering,
    [test_extraction] succeeds exactly when each of the first five token ids
    of the test sentence is an index numpy accepts for the saved matrix,
    that is lies in [-rows, rows); otherwise it raises [IndexError].  With no
    tokens at all the lookup is skipped and the test succeeds. *)
Theorem test_extraction_checks_token_ids
    env model out w weights entries config reference enc :
  (∀ p, io_fault env OpRead p = None) →
  fs w !! path_join out "embedding_weights.npy" = Some (FNpy weights) →
  fs w !! path_join out "vocab.json" = Some (FJson (JObj entries)) →
  fs w !! path_join out "model_config.json" = Some (FJson config) →
  encode model ["This is a test sentence."] = inr reference →
  (0 < shape0 reference)%nat →
  tok_encode (tokenizer model) "This is a test sentence." = inr enc →
  (extract_embeddings.test_extraction env model out w).1
  = if decide (Forall (valid_index (shape0 weights))
                      (take 5 (encoding_ids enc)))
    then Ok ()
    else Raise (Exn IndexError "index is out of bounds").
Proof.
  intros Hio Hnpy Hvocab Hconfig Hencode Hpos Htok.
  unfold extract_embeddings.test_extraction.
  run_step (np_load_run env _ weights w (Hio _) Hnpy).
  run_step (json_load_run env _ (JObj entries) w (Hio _) Hvocab).
  run_step (json_load_run env _ config w (Hio _) Hconfig).
  run_step (print_run _ _).
  change (py_len (JObj entries)) with (mret (length entries) : M nat).
  run_step (eq_refl : (mret (length entries) : M _) _ = (Ok _, _)).
  run_step (print_run _ _). run_step (print_run _ _).
  rewrite Hencode. rewrite lift_inr.
  run_step (eq_refl : (mret reference : M _) _ = (Ok _, _)).
  run_step (print_run _ _).
  destruct (nd_row_0_is_Some reference Hpos) as [row0 Hrow0].
  rewrite Hrow0. rewrite from_option_Some.
  run_step (eq_refl : (mret row0 : M _) _ = (Ok _, _)).
  run_step (print_run _ _).
  rewrite Htok. rewrite lift_inr.
  run_step (eq_refl : (mret enc : M _) _ = (Ok _, _)).
  fold (encoding_ids enc).
  run_step (print_run _ _). rewrite ?bind_assoc.
  unfold slice_to.
  case_bool_decide as Hlen.
  - pose proof (nd_take_is_Some weights (take 5 (encoding_ids enc))) as Htake.
    destruct (nd_take weights (take 5 (encoding_ids enc)))
      as [token_embeddings|] eqn:Hnd.
    + rewrite decide_True by (apply Htake; eauto). rewrite from_option_Some.
      run_step (eq_refl : (mret token_embeddings : M _) _ = (Ok _, _)).
      run_step (print_run _ _).
      destruct (nd_row_0_is_Some token_embeddings) as [first Hfirst].
      { rewrite (nd_take_shape0 _ _ _ Hnd), length_take. lia. }
      rewrite Hfirst. rewrite from_option_Some.
      run_step (eq_refl : (mret first : M _) _ = (Ok _, _)).
      run_step (print_run _ _). done.
    + rewrite decide_False by (intros [? [=]]%Htake). done.
  - rewrite decide_True.
    + run_step (eq_refl : (mret () : M _) _ = (Ok _, _)). done.
    + destruct (encoding_ids enc); [constructor|simpl in Hlen; lia].
Qed.

Lemma test_extraction_checks_token_ids_witness :
  let env := Sample.env in
  let model := Sample2.model_bad_ids in
  let w := Sample2.world_extracted in
  let reference := NDArray Float32 2 [ [# 1065353216; 1073741824] ] in
  ((∀ p, io_fault env OpRead p = None) ∧
   fs w !! path_join "out" "embedding_weights.npy"
     = Some (FNpy Sample.weights) ∧
   fs w !! path_join "out" "vocab.json"
     = Some (FJson (JObj ((λ kv, (kv.1, JInt kv.2))
                           <$> map_to_list Sample.vocab3))) ∧
   fs w !! path_join "out" "model_config.json" = Some (FJson (JObj [])) ∧
   encode model ["This is a test sentence."] = inr reference ∧
   (0 < shape0 reference)%nat ∧
   tok_encode (tokenizer model) "This is a test sentence."
     = inr (EncodingObj [1; 0; 3])) ∧
  (extract_embeddings.test_extraction env model "out" w).1
  = Raise (Exn IndexError "index is out of bounds").
Proof.
  intros env model w reference.
  assert (∀ p, io_fault env OpRead p = None) as Hio by reflexivity.
  assert (fs w !! path_join "out" "embedding_weights.npy"
          = Some (FNpy Sample.weights)) as Hnpy by reflexivity.
  assert (fs w !! path_join "out" "vocab.json"
          = Some (FJson (JObj ((λ kv, (kv.1, JInt kv.2))
                                <$> map_to_list Sample.vocab3)))) as Hvocab
    by reflexivity.
  assert (fs w !! path_join "out" "model_config.json" = Some (FJson (JObj [])))
    as Hconfig by reflexivity.
  assert (encode model ["This is a test sentence."] = inr reference)
    as Hencode by reflexivity.
  assert (0 < shape0 reference)%nat as Hpos by (vm_compute; lia).
  assert (tok_encode (tokenizer model) "This is a test sentence."
          = inr (EncodingObj [1; 0; 3])) as Htok by reflexivity.
  split; [by split_and!|].
  rewrite (test_extraction_checks_token_ids env model "out" w Sample.weights
             _ (JObj []) reference (EncodingObj [1; 0; 3])
             Hio Hnpy Hvocab Hconfig Hencode Hpos Htok).
  reflexivity.
Defined.

(** ** Runs that stop at the first step of the [try] *)

Lemma extract_load_and_prepare_run env inp out model w0 w :
  fs w0 = fs w →
  SentenceTransformer env 0 inp = inr model →
  (makedirs env out w).1 = Ok () →
  ∃ w1, extract_embeddings.load_and_prepare env inp out w0 = (Ok model, w1) ∧
        stderr w1 = stderr w0 ∧
        fs w1 = fs (makedirs env out w).2.
Proof.
  intros Hfs Hload Hmk. unfold extract_embeddings.load_and_prepare.
  run_step (print_run _ _). rewrite Hload. simpl lift.
  run_step (eq_refl : (mret model : M _) _ = (Ok model, _)).
  run_step (print_run _ _). rewrite ?bind_assoc.
  match goal with
  | |- context [(makedirs env out ≫= ?k) ?w1] =>
      pose proof (makedirs_after_prints env out k w w1 Hfs) as Hrun
  end.
  rewrite Hmk in Hrun. destruct Hrun as (w2 & -> & Hfs2 & _ & Herr).
  exists w2. by split_and!.
Qed.

Lemma convert_load_and_prepare_run env inp out model w0 w :
  fs w0 = fs w →
  SentenceTransformer env 0 inp = inr model →
  (makedirs env out w).1 = Ok () →
  ∃ w1, convert_to_onnx.load_and_prepare env inp out w0 = (Ok model, w1) ∧
        stderr w1 = stderr w0 ∧
        fs w1 = fs (makedirs env out w).2.
Proof.
  intros Hfs Hload Hmk. unfold convert_to_onnx.load_and_prepare.
  run_step (print_run _ _). rewrite Hload. simpl lift.
  run_step (eq_refl : (mret model : M _) _ = (Ok model, _)).
  run_step (print_run _ _). rewrite ?bind_assoc.
  match goal with
  | |- context [(makedirs env out ≫= ?k) ?w1] =>
      pose proof (makedirs_after_prints env out k w w1 Hfs) as Hrun
  end.
  rewrite Hmk in Hrun. destruct Hrun as (w2 & -> & Hfs2 & _ & Herr).
  exists w2. by split_and!.
Qed.

(** X17. When the loaded pipeline is empty, or its first module has no
    [embedding], the extractor gives up before it writes any file: it prints
    the error and a traceback and ends with [sys.exit(1)].  The file system
    is as [os.makedirs] left it: every path holds what it held before,
    except that the output directory and the directories above it have been
    made where they were missing. *)
Theorem extraction_without_embedding_writes_no_file
    env prog inp out w model :
  is_Some (fs w !! inp) →
  SentenceTransformer env 0 inp = inr model →
  (makedirs env out w).1 = Ok () →
  match modules model !! 0%nat with
  | None => True
  | Some se => embedding se = None
  end →
  let run := extract_embeddings.main env [prog; inp; out] w in
  run.1 = SysExit 1 ∧
  (∃ e, stderr run.2 = stderr w ++ [Traceback e] ∧
        (exn_cls e = IndexError ∨ exn_cls e = AttributeError)) ∧
  fs run.2 = fs (makedirs env out w).2 ∧
  ∀ p, fs run.2 !! p = fs w !! p ∨
       (p ∈ made_dirs out ∧ fs w !! p = None ∧ fs run.2 !! p = Some FDir).
Proof.
  intros Hinp Hload Hmk Hfirst run.
  assert (run.1 = SysExit 1 ∧
          (∃ e, stderr run.2 = stderr w ++ [Traceback e] ∧
                (exn_cls e = IndexError ∨ exn_cls e = AttributeError)) ∧
          fs run.2 = fs (makedirs env out w).2) as (Hexit & Herr & Hfs).
  { subst run. rewrite extract_main_run by done.
    run_step (eq_refl : extract_embeddings.banner w = (Ok (), _)).
    unfold extract_embeddings.extract_model_weights.
    edestruct (extract_load_and_prepare_run env inp out model
                 (extract_embeddings.banner w).2 w)
      as (w1 & Hprep & Herr & Hfs); [done..|].
    run_step Hprep.
    unfold extract_embeddings.extract_body, model_getitem.
    destruct (modules model !! 0%nat) as [se|].
    - unfold try_except, mbind, M_bind. simpl. rewrite Hfirst. simpl.
      rewrite Herr. split_and!; [done| |done].
      eexists. split; [done|]. by right.
    - unfold try_except, mbind, M_bind. simpl.
      rewrite Herr. split_and!; [done| |done].
      eexists. split; [done|]. by left. }
  split_and!; [done..|].
  intros p. rewrite Hfs. apply (makedirs_respects env out p w).
Qed.

Lemma extraction_without_embedding_writes_no_file_witness :
  let env := Sample2.env_headless in
  let w := Sample.world in
  let out := "build/out" in
  let model := Sample.model_of [Sample2.headless] Sample.vocab3 in
  let run :=
    extract_embeddings.main env ["extract_embeddings.py"; "model"; out] w in
  (is_Some (fs w !! "model") ∧
   SentenceTransformer env 0 "model" = inr model ∧
   (makedirs env out w).1 = Ok () ∧
   match modules model !! 0%nat with
   | None => True
   | Some se => embedding se = None
   end) ∧
  run.1 = SysExit 1 ∧
  (∃ e, stderr run.2 = stderr w ++ [Traceback e] ∧
        (exn_cls e = IndexError ∨ exn_cls e = AttributeError)) ∧
  fs run.2 = fs (makedirs env out w).2 ∧
  ∀ p, fs run.2 !! p = fs w !! p ∨
       (p ∈ made_dirs out ∧ fs w !! p = None ∧ fs run.2 !! p = Some FDir).
Proof.
  intros env w out model run.
  assert (is_Some (fs w !! "model")) as Hinp by (eexists; reflexivity).
  assert (SentenceTransformer env 0 "model" = inr model) as Hload
    by reflexivity.
  assert ((makedirs env out w).1 = Ok ()) as Hmk by (vm_compute; reflexivity).
  assert (match modules model !! 0%nat with
          | None => True
          | Some se => embedding se = None
          end) as Hfirst by reflexivity.
  split; [by split_and!|].
  exact (extraction_without_embedding_writes_no_file env
           "extract_embeddings.py" "model" out w model
           Hinp Hload Hmk Hfirst).
Defined.

(** ** Command lines of the wrong length *)

(** X18. With anything but two arguments after the script name, the
    converter and the extractor print their usage line and end with
    [sys.exit(1)] before they look at the file system or load anything:
    the file system and standard error are as before, whatever the
    environment. *)
Theorem wrong_argument_count_prints_usage env argv w :
  length argv ≠ 3%nat →
  convert_to_onnx.main env argv w
  = (SysExit 1,
     {| fs := fs w;
        stdout := stdout w ++ [Text
          "Usage: python convert_to_onnx.py <input_model_path> <output_path>"];
        stderr := stderr w |}) ∧
  extract_embeddings.main env argv w
  = (SysExit 1,
     {| fs := fs w;
        stdout := stdout w ++ [Text
          "Usage: python extract_embeddings.py <input_model_path> <output_path>"];
        stderr := stderr w |}).
Proof.
  intros Hlen. by destruct argv as [|a0 [|a1 [|a2 [|]]]].
Qed.

Lemma wrong_argument_count_prints_usage_witness :
  let env := Sample.env_no_model in
  let argv := ["script.py"; "model"] in
  let w := Sample.world in
  length argv ≠ 3%nat ∧
  convert_to_onnx.main env argv w
  = (SysExit 1,
     {| fs := fs w;
        stdout := stdout w ++ [Text
          "Usage: python convert_to_onnx.py <input_model_path> <output_path>"];
        stderr := stderr w |}) ∧
  extract_embeddings.main env argv w
  = (SysExit 1,
     {| fs := fs w;
        stdout := stdout w ++ [Text
          "Usage: python extract_embeddings.py <input_model_path> <output_path>"];
        stderr := stderr w |}).
Proof.
  intros env argv w.
  assert (length argv ≠ 3%nat) as Hlen by (simpl; lia).
  split; [exact Hlen|].
  exact (wrong_argument_count_prints_usage env argv w Hlen).
Defined.

(** ** The smoke test, seen from outside *)

Section smoke_test.
Import convert_to_onnx.

Lemma test_onnx_model_keeps_stderr env onnx_path inp w :
  stderr (test_onnx_model env onnx_path inp w).2 = stderr w.
Proof.
  unfold test_onnx_model, try_except, mbind, M_bind, from_option_none, lift,
    from_option.
  destruct (import_onnxruntime env) as [e|]; simpl;
    [by destruct (is_ImportError e)|].
  destruct (InferenceSession env onnx_path) as [e|]; simpl;
    [by destruct (is_ImportError e)|].
  destruct (SentenceTransformer env 1 inp) as [e|model]; simpl;
    [by destruct (is_ImportError e)|].
  destruct (encode model _) as [e|reference]; simpl;
    [by destruct (is_ImportError e)|].
  by destruct (nd_row reference 0).
Qed.

Lemma test_onnx_model_run env onnx_path inp w :
  ∃ tested w', test_onnx_model env onnx_path inp w = (Ok tested, w') ∧
               fs w' = fs w ∧ stderr w' = stderr w.
Proof.
  destruct (always_returns_run _ w
              (test_onnx_model_always_returns env onnx_path inp))
    as (tested & w' & Htest).
  exists tested, w'. split_and!; [done| |].
  - by apply (preserves_all_run _ _ _ _
                (λ p, test_onnx_model_preserves env p _ _) Htest).
  - pose proof (test_onnx_model_keeps_stderr env onnx_path inp w) as H.
    by rewrite Htest in H.
Qed.
End smoke_test.

Section smoke_test_oracles.
Import convert_to_onnx.
Context (env : Env) (import : option exn) (session : string → option exn).
Context (reload : nat → string → exn + Model).

Lemma convert_model_to_onnx_test_oracles inp out w :
  let r' := convert_model_to_onnx
              (with_test_oracles env import session reload) inp out w in
  let r := convert_model_to_onnx env inp out w in
  r'.1 = r.1 ∧ fs r'.2 = fs r.2 ∧ stderr r'.2 = stderr r.2.
Proof.
  unfold convert_model_to_onnx.
  change (load_and_prepare (with_test_oracles env import session reload)
            inp out)
    with (load_and_prepare env inp out).
  unfold mbind, M_bind.
  destruct (load_and_prepare env inp out w) as [[model|e|n] w1]; [|done..].
  unfold try_except, convert_body.
  change (export_and_copy (with_test_oracles env import session reload)
            model inp out)
    with (export_and_copy env model inp out).
  unfold mbind, M_bind.
  destruct (export_and_copy env model inp out w1) as [[u|e|n] w2];
    [|done..].
  rewrite !print_run.
  destruct (test_onnx_model_run
              (with_test_oracles env import session reload)
              (path_join out "model.onnx") inp
              {| fs := fs w2;
                 stdout := stdout w2 ++ [Text "Testing ONNX model..."];
                 stderr := stderr w2 |})
    as (b' & w3' & -> & Hfs' & Herr').
  destruct (test_onnx_model_run env (path_join out "model.onnx") inp
              {| fs := fs w2;
                 stdout := stdout w2 ++ [Text "Testing ONNX model..."];
                 stderr := stderr w2 |})
    as (b & w3 & -> & Hfs & Herr).
  simpl in *. by rewrite Hfs', Hfs, Herr', Herr.
Qed.
End smoke_test_oracles.

(** X19. The answers the smoke test gets make no difference to what the
    converter leaves behind: change what [import onnxruntime],
    [InferenceSession] and the second model load do, in any way, and the
    converter ends the same way, with the same exit status, the same file
    system and the same standard error.  Only standard output can differ. *)
Theorem smoke_test_oracles_do_not_matter env import session reload argv w :
  let run' :=
    convert_to_onnx.main (with_test_oracles env import session reload)
      argv w in
  let run := convert_to_onnx.main env argv w in
  run'.1 = run.1 ∧
  exit_status run'.1 = exit_status run.1 ∧
  fs run'.2 = fs run.2 ∧
  stderr run'.2 = stderr run.2.
Proof.
  intros run' run.
  assert (run'.1 = run.1 ∧ fs run'.2 = fs run.2 ∧ stderr run'.2 = stderr run.2)
    as (H1 & H2 & H3); [|by rewrite H1].
  subst run' run.
  destruct argv as [|a0 [|a1 [|a2 [|]]]]; try done.
  unfold convert_to_onnx.main, mbind, M_bind.
  rewrite !path_exists_run. destruct (negb _); [done|].
  change (convert_to_onnx.banner w)
    with (Ok (), (convert_to_onnx.banner w).2).
  cbv iota.
  pose proof (convert_model_to_onnx_test_oracles env import session reload
                a1 a2 (convert_to_onnx.banner w).2) as (Hr & Hfs & Herr).
  destruct (convert_to_onnx.convert_model_to_onnx
              (with_test_oracles env import session reload) a1 a2 _)
    as [r' w1'].
  destruct (convert_to_onnx.convert_model_to_onnx env a1 a2 _) as [r w1].
  simpl in Hr, Hfs, Herr. subst r'.
  destruct r as [[|]|e|n]; simpl; by rewrite ?Hfs, ?Herr.
Qed.

(** ** A forward pass that cannot be traced *)

Section failed_trace.
Import convert_to_onnx.
Context (env : Env).

(** The [try] body of the converter stops at the export when the forward
    pass of the wrapper raises: nothing has been written by then. *)
Lemma convert_body_trace_fails model inp out se e w :
  modules model !! 0%nat = Some se →
  wrapper_forward
    {| static_embedding := se; normalize := modules model !! 1%nat |}
    (torch_randint env) = inl e →
  convert_body env model inp out w
  = (Raise e,
     {| fs := fs w;
        stdout := stdout w
          ++ [Text ("Model modules: "
                    +:+ py_str env (PStrs (class_name <$> modules model)))];
        stderr := stderr w |}).
Proof.
  intros Hse Htrace. unfold convert_body, export_and_copy, model_getitem.
  rewrite Hse, from_option_Some.
  run_step (eq_refl : (mret se : M _) _ = (Ok se, _)).
  run_step (print_run _ _).
  run_step (normalize_module_run model _).
  unfold torch_onnx_export. rewrite Htrace, ?bind_assoc. done.
Qed.
End failed_trace.

(** X20. When the forward pass of the wrapper raises on the dummy input,
    as it does for every first module that wants more than ['input_ids'] in
    its features, the conversion fails: the exception is caught, its
    traceback is printed, the last line printed says that the conversion
    failed, and the process ends with [sys.exit(1)].  Nothing is written:
    the file system is as [os.makedirs] left it, and the path of
    [model.onnx] holds what it held before. *)
Theorem failed_trace_fails_the_conversion env prog inp out w model se e :
  is_Some (fs w !! inp) →
  SentenceTransformer env 0 inp = inr model →
  (makedirs env out w).1 = Ok () →
  modules model !! 0%nat = Some se →
  convert_to_onnx.wrapper_forward
    {| static_embedding := se; normalize := modules model !! 1%nat |}
    (torch_randint env) = inl e →
  let run := convert_to_onnx.main env [prog; inp; out] w in
  run.1 = SysExit 1 ∧
  stderr run.2 = stderr w ++ [Traceback e] ∧
  last (stdout run.2) = Some (Text (nl +:+ "❌ Conversion failed!")) ∧
  fs run.2 = fs (makedirs env out w).2 ∧
  fs run.2 !! path_join out "model.onnx" = fs w !! path_join out "model.onnx".
Proof.
  intros Hinp Hload Hmk Hse Htrace run.
  assert (run.1 = SysExit 1 ∧
          stderr run.2 = stderr w ++ [Traceback e] ∧
          last (stdout run.2) = Some (Text (nl +:+ "❌ Conversion failed!")) ∧
          fs run.2 = fs (makedirs env out w).2) as (Hexit & Herr & Hlast & Hfs).
  { subst run. rewrite convert_main_run by done.
    run_step (eq_refl : convert_to_onnx.banner w = (Ok (), _)).
    unfold convert_to_onnx.convert_model_to_onnx.
    edestruct (convert_load_and_prepare_run env inp out model
                 (convert_to_onnx.banner w).2 w)
      as (w1 & Hprep & Herr & Hfs); [done..|].
    run_step Hprep.
    rewrite (bind_run_Ok _ _ _ _ _
               (eq_trans
                  (try_except_run_Raise _ _ _ _ _
                     (convert_body_trace_fails env model inp out se e w1
                        Hse Htrace))
                  eq_refl)).
    simpl. rewrite Herr, last_snoc. done. }
  split_and!; [done..|].
  rewrite Hfs.
  apply (preserves_makedirs (path_join out "model.onnx") env out);
    [by apply not_eq_sym, path_join_ne_dir|by apply path_join_not_ancestor].
Qed.

Lemma failed_trace_fails_the_conversion_witness :
  let env := Sample.env_bag in
  let w := Sample.world in
  let model := Sample.model_bag in
  let se := Sample.embedding_bag in
  let e := Exn KeyError "'offsets'" in
  let run := convert_to_onnx.main env ["convert_to_onnx.py"; "model"; "out"] w in
  (is_Some (fs w !! "model") ∧
   SentenceTransformer env 0 "model" = inr model ∧
   (makedirs env "out" w).1 = Ok () ∧
   modules model !! 0%nat = Some se ∧
   convert_to_onnx.wrapper_forward
     {| static_embedding := se; normalize := modules model !! 1%nat |}
     (torch_randint env) = inl e) ∧
  run.1 = SysExit 1 ∧
  stderr run.2 = stderr w ++ [Traceback e] ∧
  last (stdout run.2) = Some (Text (nl +:+ "❌ Conversion failed!")) ∧
  fs run.2 = fs (makedirs env "out" w).2 ∧
  fs run.2 !! path_join "out" "model.onnx"
    = fs w !! path_join "out" "model.onnx".
Proof.
  intros env w model se e run.
  assert (is_Some (fs w !! "model")) as Hinp by (eexists; reflexivity).
  assert (SentenceTransformer env 0 "model" = inr model) as Hload
    by reflexivity.
  assert ((makedirs env "out" w).1 = Ok ()) as Hmk
    by (vm_compute; reflexivity).
  assert (modules model !! 0%nat = Some se) as Hse by reflexivity.
  assert (convert_to_onnx.wrapper_forward
            {| static_embedding := se; normalize := modules model !! 1%nat |}
            (torch_randint env) = inl e) as Htrace
    by (vm_compute; reflexivity).
  split; [by split_and!|].
  exact (failed_trace_fails_the_conversion env "convert_to_onnx.py" "model"
           "out" w model se e Hinp Hload Hmk Hse Htrace).
Defined.

(** ** The stages of the exported graph *)

Lemma wrapper_forward_run_stages model se input_ids :
  modules model !! 0%nat = Some se →
  convert_to_onnx.wrapper_forward
    {| static_embedding := se; normalize := modules model !! 1%nat |}
    input_ids
  = run_stages (take 2 (modules model)) input_ids.
Proof.
  intros Hse. unfold convert_to_onnx.wrapper_forward, run_stages.
  destruct (modules model) as [|m0 [|m1 rest]]; simplify_eq/=.
  - by destruct (forward se _).
  - destruct (forward se _) as [e|embeddings]; [done|].
    by destruct (forward m1 embeddings).
Qed.

(** A run of the converter that ends with status 0. *)
Lemma convert_main_Ok env argv u w w' :
  convert_to_onnx.main env argv w = (Ok u, w') →
  ∃ prog inp out model se,
    argv = [prog; inp; out] ∧
    SentenceTransformer env 0 inp = inr model ∧
    modules model !! 0%nat = Some se ∧
    fs w' !! path_join out "model.onnx"
    = Some (FOnnx {| static_embedding := se;
                     normalize := modules model !! 1%nat |}).
Proof.
  unfold convert_to_onnx.main. intros H.
  destruct argv as [|prog [|inp [|out [|]]]];
    try (split_run H u0 w0 H0; done).
  split_run H b w1 H1. injection H1 as <- <-.
  destruct (negb _); [split_run H u0 w0 H0; done|].
  split_run H u2 w2 H2. clear H2.
  split_run H success w4 H4.
  destruct success; [|split_run H u0 w0 H0; done].
  apply convert_model_to_onnx_true in H4
    as (model & se & t & Hload & Hse & Htrace & Hexp & Honnx).
  split_run H u5 w5 H5. apply print_Ok in H5. apply print_Ok in H.
  exists prog, inp, out, model, se. split_and!; try done.
  by rewrite H, H5.
Qed.

(** X21. The graph that a successful conversion exports runs the first two
    modules of the loaded pipeline and nothing else: on every input its
    forward pass is the pipeline cut after its second module.  Its
    normalization stage is absent exactly when the pipeline has one module,
    and then the forward pass is the embedding stage alone; a third or later
    module of the pipeline is not in the graph. *)
Theorem exported_graph_runs_first_two_stages env argv u w w' :
  convert_to_onnx.main env argv w = (Ok u, w') →
  ∃ inp out model se exported,
    argv !! 1%nat = Some inp ∧ argv !! 2%nat = Some out ∧
    SentenceTransformer env 0 inp = inr model ∧
    modules model !! 0%nat = Some se ∧
    fs w' !! path_join out "model.onnx" = Some (FOnnx exported) ∧
    (∀ input_ids,
       convert_to_onnx.wrapper_forward exported input_ids
       = run_stages (take 2 (modules model)) input_ids) ∧
    (normalize exported = None ↔ length (modules model) = 1%nat) ∧
    (length (modules model) = 1%nat →
     ∀ input_ids,
       convert_to_onnx.wrapper_forward exported input_ids
       = embed_only se input_ids).
Proof.
  intros (prog & inp & out & model & se & -> & Hload & Hse & Honnx)
    %convert_main_Ok.
  exists inp, out, model, se,
    {| static_embedding := se; normalize := modules model !! 1%nat |}.
  assert (modules model !! 1%nat = None ↔ length (modules model) = 1%nat)
    as Hnone.
  { rewrite lookup_ge_None. apply lookup_lt_Some in Hse. lia. }
  split_and!; try done.
  - intros input_ids. by apply wrapper_forward_run_stages.
  - intros Hlen input_ids. apply Hnone in Hlen. rewrite Hlen.
    apply wrapper_forward_embed_only.
Qed.

Lemma exported_graph_runs_first_two_stages_witness :
  let env := Sample.env_normalized in
  let argv := ["convert_to_onnx.py"; "model"; "out"] in
  let w' := (convert_to_onnx.main env argv Sample.world).2 in
  convert_to_onnx.main env argv Sample.world = (Ok (), w') ∧
  ∃ inp out model se exported,
    argv !! 1%nat = Some inp ∧ argv !! 2%nat = Some out ∧
    SentenceTransformer env 0 inp = inr model ∧
    modules model !! 0%nat = Some se ∧
    fs w' !! path_join out "model.onnx" = Some (FOnnx exported) ∧
    (∀ input_ids,
       convert_to_onnx.wrapper_forward exported input_ids
       = run_stages (take 2 (modules model)) input_ids) ∧
    (normalize exported = None ↔ length (modules model) = 1%nat) ∧
    (length (modules model) = 1%nat →
     ∀ input_ids,
       convert_to_onnx.wrapper_forward exported input_ids
       = embed_only se input_ids).
Proof.
  intros env argv w'.
  assert (convert_to_onnx.main env argv Sample.world = (Ok (), w')) as Hrun
    by (vm_compute; reflexivity).
  split; [exact Hrun|].
  exact (exported_graph_runs_first_two_stages env argv () Sample.world w' Hrun).
Defined.

(** With the normalization module in second place the two stages give the
    unit vector, with the embedding stage alone the sentence embedding. *)
Example stages_of_the_samples :
  run_stages [Sample.static; Sample.normalizer] (torch_randint Sample.env)
    = inr Sample.unit_sentence ∧
  run_stages [Sample.static] (torch_randint Sample.env) = inr Sample.sentence.
Proof. vm_compute. done. Qed.

(** ** Output into the model directory *)

(** [shutil.copy2] never copies an existing path onto itself: a file is the
    same file, and a directory cannot be read. *)
Lemma copy2_onto_itself env p u w w' :
  is_Some (fs w !! p) → copy2 env p p w ≠ (Ok u, w').
Proof.
  intros [f Hf] (f' & Hf' & Hdir & Hne & _)%copy2_Ok.
  apply Hne. unfold copy_target. rewrite Hf' in Hf. injection Hf as <-.
  rewrite Hf'. by destruct f'.
Qed.

Lemma copy_files_in_place env names dir u w w' :
  copy_files env names dir dir w = (Ok u, w') →
  fs w' = fs w ∧ ∀ n, n ∈ names → fs w !! path_join dir n = None.
Proof.
  revert w. induction names as [|x names IH]; intros w Hrun.
  { injection Hrun as _ <-. split; [done|]. by intros n Hn%elem_of_nil. }
  change (copy_files env (x :: names) dir dir)
    with ((b ← path_exists (path_join dir x);
           if b : bool then
             copy2 env (path_join dir x) (path_join dir x);;
             print ("Copied " +:+ x)
           else mret ());;
          copy_files env names dir dir) in Hrun.
  split_run Hrun u1 w1 Hone.
  rewrite (bind_run_Ok _ _ _ _ _ (path_exists_run _ w)) in Hone.
  case_bool_decide as Hex.
  { split_run Hone u2 w2 Hcopy. by destruct (copy2_onto_itself _ _ _ _ _ Hex Hcopy). }
  injection Hone as _ <-. destruct (IH w Hrun) as [Hfs Hnone].
  split; [done|]. intros n [->|Hn]%elem_of_cons; [|by apply Hnone].
  destruct (fs w !! path_join dir x) eqn:Hsrc; [|done]. destruct Hex. eauto.
Qed.

Lemma exit_status_1 {A} (c : M A) w :
  exits_only_with_1 c → (∀ a w', c w ≠ (Ok a, w')) → exit_status (c w).1 = 1.
Proof.
  intros Hexit Hok. specialize (Hexit w).
  destruct (c w) as [[a|e|n] w'] eqn:Hrun; simpl in *.
  - by destruct (Hok a w').
  - done.
  - by apply Hexit.
Qed.

(** X22. Neither script can put its output into the model directory when
    that directory holds one of the side files it copies: [shutil.copy2]
    would copy the file onto itself, the exception is caught, and the
    process ends with status 1. *)
Theorem output_into_model_directory_fails env prog dir w name :
  is_Some (fs w !! path_join dir name) →
  (name ∈ converter_side_files →
   exit_status (convert_to_onnx.main env [prog; dir; dir] w).1 = 1) ∧
  (name ∈ extractor_side_files →
   exit_status (extract_embeddings.main env [prog; dir; dir] w).1 = 1).
Proof.
  intros Hsrc. split; intros Hname.
  - apply exit_status_1; [apply convert_main_exits_only_with_1|].
    intros u w' Hrun.
    apply convert_main_Ok_copy in Hrun as (wc & wc' & Hcopy & Hbefore & _).
    apply copy_files_in_place in Hcopy as [_ Hnone].
    specialize (Hnone name Hname). rewrite Hbefore in Hnone.
    + rewrite Hnone in Hsrc. by destruct Hsrc.
    + unfold converter_side_files in Hname.
      elem_cases Hname; apply path_join_not_made; literal_name.
    + unfold converter_side_files in Hname. elem_cases Hname; path_ne.
  - apply exit_status_1; [apply extract_main_exits_only_with_1|].
    intros u w' Hrun.
    apply extract_main_Ok_copy in Hrun as (wc & wc' & Hcopy & Hbefore & _).
    apply copy_files_in_place in Hcopy as [_ Hnone].
    specialize (Hnone name Hname). rewrite Hbefore in Hnone.
    + rewrite Hnone in Hsrc. by destruct Hsrc.
    + unfold extractor_side_files in Hname.
      elem_cases Hname; apply path_join_not_made; literal_name.
    + unfold extractor_side_files in Hname.
      rewrite !not_elem_of_cons. split_and!; [..|apply not_elem_of_nil];
        elem_cases Hname; path_ne.
Qed.

Lemma output_into_model_directory_fails_witness :
  let env := Sample.env in
  let w := Sample2.world_with_side_files in
  let name := "tokenizer.json" in
  is_Some (fs w !! path_join "model" name) ∧
  (name ∈ converter_side_files →
   exit_status
     (convert_to_onnx.main env ["convert_to_onnx.py"; "model"; "model"] w).1
   = 1) ∧
  (name ∈ extractor_side_files →
   exit_status
     (extract_embeddings.main env ["extract_embeddings.py"; "model"; "model"]
        w).1
   = 1).
Proof.
  intros env w name.
  assert (is_Some (fs w !! path_join "model" name)) as Hsrc
    by (eexists; reflexivity).
  split; [exact Hsrc|].
  exact (output_into_model_directory_fails env _ "model" w name Hsrc).
Defined.

(** In that run it is the copy of [tokenizer.json] that stops the
    converter, after [model.onnx] has been written. *)
Example same_file_is_refused :
  let run :=
    convert_to_onnx.main Sample.env ["convert_to_onnx.py"; "model"; "model"]
      Sample2.world_with_side_files in
  run.1 = SysExit 1 ∧
  stderr run.2 = [Traceback (Exn SameFileError "model/tokenizer.json")] ∧
  is_Some (fs run.2 !! "model/model.onnx").
Proof. vm_compute. split_and!; [done..|]. by eexists. Qed.
